(** * CTI pipeline: a shallow embedding of the scoring, correlation,
      scraper-cache and enrichment-fallback code, with the properties
      stated about them.

    Sources embedded here:
    - [scripts/cti/src/dashboard/generate-dashboard.ts]
      (class [DashboardGenerator], and class [LLMAnalyzer] from the
      analyzer module that follows it);
    - the base scraper module (class [BaseScraper]);
    - the agent system module (class [CTIAgentSystem]).

    Conventions.
    - A JavaScript [number] is an exact rational ([Q]); counts and
      millisecond clocks are integers ([Z]).  Where the code can meet NaN
      (an invalid date) the value is an [option]; where it can meet
      [Infinity] (a division by zero) the value is a [Js.Num].  Negative
      zero is outside the model.
    - A JavaScript string is a [string]; one [ascii] stands for one UTF-16
      code unit, so [String.length] is [.length].  (The accented letters in
      the Spanish literals of [LLMAnalyzer] take two characters here; no
      statement depends on their length.)
    - Effects (clock, file system, environment, console, timers) are
      threaded through an explicit [World]; a method that can throw returns
      an [Outcome]. *)

From Stdlib Require Import ZArith QArith Qround Qminmax Qabs.
From Stdlib Require Import String Ascii List Bool Lia.
From Stdlib Require Import DecimalString Lqa Sorted.
From stdpp Require Import base option list strings gmap.

Import ListNotations.
Local Open Scope string_scope.
Local Open Scope Z_scope.

(* ===================================================================== *)
(** * Part I. Definitions                                                 *)
(* ===================================================================== *)

(** ** Runtime primitives *)

Module Js.

(** [Math.round]: the nearest integer, halves going up. *)
Definition Math_round (x : Q) : Q := inject_Z (Qfloor (x + (1 # 2))).

(** [Math.min] on two numbers. *)
Definition Math_min (a b : Q) : Q := Qmin a b.

(** [a >= b], [a > b], [a < b] on numbers. *)
Definition ge (a b : Q) : bool := Qle_bool b a.
Definition gt (a b : Q) : bool := negb (Qle_bool a b).
Definition lt (a b : Q) : bool := negb (Qle_bool b a).

(** [Math.abs]. *)
Definition Math_abs (x : Q) : Q := Qabs x.

(** [String(n)] for an integer. *)
Definition string_of_Z (n : Z) : string :=
  NilZero.string_of_int (Z.to_int n).

(** [x.toFixed(1)] for [0 <= x < 1e21]: the nearest tenth, halves going
    up, written with one decimal. *)
Definition toFixed1 (x : Q) : string :=
  let n := Qfloor (x * 10 + (1 # 2)) in
  string_of_Z (n / 10) ++ "." ++ string_of_Z (n mod 10).

(** [s.includes(needle)]. *)
Fixpoint includes (s needle : string) : bool :=
  String.prefix needle s
  || match s with
     | EmptyString => false
     | String _ rest => includes rest needle
     end.

(** A number that may be [Infinity]. *)
Inductive Num :=
| Finite (q : Q)
| Infinity.

(** [a / b] for a positive [a]: [Infinity] when [b] is 0. *)
Definition div (a b : Q) : Num :=
  if Qeq_bool b 0 then Infinity else Finite (a / b).

(** [a < b], [b - a] and [b + a] for a finite [a]. *)
Definition lt_num (a : Q) (b : Num) : bool :=
  match b with
  | Finite q => lt a q
  | Infinity => true
  end.

Definition sub_num (b : Num) (a : Q) : Num :=
  match b with
  | Finite q => Finite (q - a)
  | Infinity => Infinity
  end.

Definition add_num (b : Num) (a : Q) : Num :=
  match b with
  | Finite q => Finite (q + a)
  | Infinity => Infinity
  end.

(** A line break inside a template literal. *)
Definition nl : string := String (ascii_of_nat 10) EmptyString.

(** [s.split(sep)] for a one-character separator. *)
Fixpoint split (sep : ascii) (s : string) : list string :=
  match s with
  | EmptyString => [EmptyString]
  | String c rest =>
      let parts := split sep rest in
      if Ascii.eqb c sep then EmptyString :: parts
      else match parts with
           | p :: ps => String c p :: ps
           | [] => [String c EmptyString]
           end
  end.

End Js.

(** ** The world outside the program *)

(** What a [throw] carries: an [Error] object with its message, or any other
    value. *)
Inductive Exn :=
| Error (message : string)
| Thrown (value : string).

(** What the program leaves behind on the console and on the timer queue,
    newest first. *)
Inductive Event :=
| ConsoleLog (line : string)
| ConsoleError (line : string)
| Slept (ms : Js.Num).

(** The local time zone: the offset (local time minus UTC, in ms) in force
    at an instant, and the offset a local time is read with.  Where a
    change of offset makes a local time occur twice or not at all, it is
    read with the offset in force before the change. *)
Record Zone := {
  offsetAt : Z -> Z;                (* LocalTZA(t, true) *)
  offsetOfLocal : Z -> Z            (* LocalTZA(t, false) *)
}.

(** A zone that keeps one offset. *)
Definition fixedZone (offset : Z) : Zone :=
  {| offsetAt := fun _ => offset; offsetOfLocal := fun _ => offset |}.


Record World := mkWorld {
  now : Z;                          (* the clock, in ms since the epoch *)
  zone : Zone;                      (* the local time zone *)
  files : gmap string string;       (* the file system, by path *)
  readOnly : bool;                  (* writes fail when set *)
  env : gmap string string;         (* process.env *)
  latency : list N;                 (* how late each next timer fires, ms *)
  trace : list Event
}.

Inductive Outcome (A : Type) :=
| Ret (a : A)
| Throw (e : Exn).
Arguments Ret {A} a.
Arguments Throw {A} e.

(** An asynchronous method: it runs against the world and either returns or
    throws (a rejected promise, when awaited, throws). *)
Definition IO (A : Type) : Type := World -> Outcome A * World.

Definition ret {A} (a : A) : IO A := fun w => (Ret a, w).

Definition throw {A} (e : Exn) : IO A := fun w => (Throw e, w).

Definition bind {A B} (c : IO A) (k : A -> IO B) : IO B :=
  fun w =>
    match c w with
    | (Ret a, w') => k a w'
    | (Throw e, w') => (Throw e, w')
    end.

(** [try { body } catch (e) { handler }]. *)
Definition try_catch {A} (body : IO A) (handler : Exn -> IO A) : IO A :=
  fun w =>
    match body w with
    | (Ret a, w') => (Ret a, w')
    | (Throw e, w') => handler e w'
    end.

Declare Scope io_scope.
Delimit Scope io_scope with io.
Notation "x <- c1 ;; c2" := (bind c1 (fun x => c2))
  (at level 100, c1 at next level, right associativity) : io_scope.
Notation "c1 ;; c2" := (bind c1 (fun _ => c2))
  (at level 100, right associativity) : io_scope.
Local Open Scope io_scope.

Definition emit (e : Event) : IO unit :=
  fun w => (Ret tt,
            mkWorld (now w) (zone w) (files w) (readOnly w) (env w)
                    (latency w) (e :: trace w)).

Definition console_log (line : string) : IO unit := emit (ConsoleLog line).
Definition console_error (line : string) : IO unit := emit (ConsoleError line).

(** [Date.now()]. *)
Definition Date_now : IO Z := fun w => (Ret (now w), w).

(** The time zone [getHours] and [setHours] work in. *)
Definition timezone : IO Zone := fun w => (Ret (zone w), w).

(** [process.env[name]]. *)
Definition getenv (name : string) : IO (option string) :=
  fun w => (Ret (env w !! name), w).

(** [process.env[name] || fallback]: an unset or empty variable gives the
    fallback. *)
Definition getenv_or (name fallback : string) : IO string :=
  v <- getenv name ;;
  ret (match v with
       | Some s => if String.eqb s "" then fallback else s
       | None => fallback
       end).

(** Truncation toward zero (ToIntegerOrInfinity on a finite number). *)
Definition Qtrunc (x : Q) : Z := Z.quot (Qnum x) (Zpos (Qden x)).

(** The longest delay a timer takes. *)
Definition TIMEOUT_MAX : Z := 2147483647.

(** The delay [setTimeout] arms the timer with: the one asked for, in whole
    milliseconds, when it lies between 1 and [TIMEOUT_MAX]; 1 otherwise
    (the warning the runtime then writes for a delay that is too long is
    not recorded). *)
Definition timerDelay (ms : Js.Num) : Z :=
  match ms with
  | Js.Finite q =>
      if Qle_bool 1 q && Qle_bool q (inject_Z TIMEOUT_MAX)
      then Qtrunc q else 1
  | Js.Infinity => 1
  end.

(** [new Promise(resolve => setTimeout(resolve, ms))], awaited.  The timer
    fires no earlier than its delay, and possibly later by the next entry
    of [latency]. *)
Definition sleep (ms : Js.Num) : IO unit :=
  fun w =>
    let late := match latency w with [] => 0 | l :: _ => Z.of_N l end in
    (Ret tt,
     mkWorld (now w + timerDelay ms + late) (zone w) (files w)
             (readOnly w) (env w) (tail (latency w))
             (Slept ms :: trace w)).

(** [fs.access(path)]: throws when the file is not there. *)
Definition fs_access (path : string) : IO unit :=
  fun w =>
    match files w !! path with
    | Some _ => (Ret tt, w)
    | None => (Throw (Error ("ENOENT: no such file or directory, access '"
                              ++ path ++ "'")), w)
    end.

(** [fs.readFile(path, 'utf-8')]. *)
Definition fs_readFile (path : string) : IO string :=
  fun w =>
    match files w !! path with
    | Some content => (Ret content, w)
    | None => (Throw (Error ("ENOENT: no such file or directory, open '"
                              ++ path ++ "'")), w)
    end.

(** [fs.mkdir(path, { recursive: true })]: directories are implicit in the
    path keys; only a read-only file system makes it fail. *)
Definition fs_mkdir (path : string) : IO unit :=
  fun w =>
    if readOnly w
    then (Throw (Error ("EROFS: read-only file system, mkdir '"
                         ++ path ++ "'")), w)
    else (Ret tt, w).

(** [fs.writeFile(path, content, 'utf-8')]. *)
Definition fs_writeFile (path content : string) : IO unit :=
  fun w =>
    if readOnly w
    then (Throw (Error ("EROFS: read-only file system, open '"
                         ++ path ++ "'")), w)
    else (Ret tt,
          mkWorld (now w) (zone w) (<[path := content]> (files w))
                  (readOnly w) (env w) (latency w) (trace w)).

(** *** Paths (POSIX) *)

(** The last character of a text. *)
Fixpoint lastChar (s : string) : option ascii :=
  match s with
  | EmptyString => None
  | String c EmptyString => Some c
  | String _ rest => lastChar rest
  end.

Definition startsWithSlash (s : string) : bool :=
  match s with
  | String c _ => Ascii.eqb c "/"
  | EmptyString => false
  end.

Definition endsWithSlash (s : string) : bool :=
  match lastChar s with
  | Some c => Ascii.eqb c "/"
  | None => false
  end.

(** One segment of a path met by [path.normalize], the segments kept so
    far being [kept], last one first: an empty segment and [.] are dropped,
    [..] takes back the last segment kept, and stays itself where there is
    none to take back and the path is relative. *)
Definition normalizeStep (allowAboveRoot : bool) (kept : list string)
    (segment : string) : list string :=
  if String.eqb segment "" || String.eqb segment "." then kept
  else if String.eqb segment ".." then
    match kept with
    | top :: below =>
        if String.eqb top ".."
        then (if allowAboveRoot then ".." :: kept else kept)
        else below
    | [] => if allowAboveRoot then [".."] else []
    end
  else segment :: kept.

(** [path.normalize(p)]. *)
Definition path_normalize (p : string) : string :=
  if String.eqb p "" then "."
  else
    let isAbsolute := startsWithSlash p in
    let trailingSeparator := endsWithSlash p in
    let kept :=
      fold_left (normalizeStep (negb isAbsolute)) (Js.split "/" p) [] in
    let body := String.concat "/" (rev kept) in
    if String.eqb body "" then
      (if isAbsolute then "/" else if trailingSeparator then "./" else ".")
    else
      (if isAbsolute then "/" else "") ++ body
      ++ (if trailingSeparator then "/" else "").

(** [path.join(dir, name)]: the non-empty arguments are put together with
    a [/] between them and the result is normalised. *)
Definition path_join (dir name : string) : string :=
  if String.eqb dir "" then
    (if String.eqb name "" then "." else path_normalize name)
  else if String.eqb name "" then path_normalize dir
  else path_normalize (dir ++ "/" ++ name).

(** Library functions the code calls and whose own code is not part of the
    repository. *)
Class Platform := {
  (** [crypto.createHash('md5').update(s).digest('hex')] *)
  md5_hex : string -> string;
  (** [new Date(s).getTime()]; [None] is NaN (an Invalid Date). *)
  Date_parse : string -> option Z;
  (** [new Date(t).toISOString()] on a valid time value. *)
  Date_toISOString : Z -> string;
  (** [Number(s)]; [None] is NaN. *)
  Number_of_string : string -> option Q;
  (** [String(x)] for a number [x] *)
  Number_toString : Q -> string;
  (** [s.toLowerCase()] *)
  String_toLowerCase : string -> string;
  (** [encodeURIComponent(s)] *)
  encodeURIComponent : string -> string
}.

(** [JSON.stringify(v, null, 2)] and [JSON.parse(s)] at the type the code
    declares for the value; [JSON_parse] answers [None] where the call
    throws.  Texts that parse to a value of another shape are outside the
    model. *)
Class JSON (T : Type) := {
  JSON_stringify : T -> string;
  JSON_parse : string -> option T
}.

Definition JSON_parse_io {T} {J : JSON T} (raw : string) : IO T :=
  match JSON_parse raw with
  | Some v => ret v
  | None => throw (Error "Unexpected token in JSON")
  end.

(** *** Dates *)

Definition msPerHour : Z := 3600000.
Definition msPerDay : Z := 86400000.
Definition maxTime : Z := 8640000000000000.

(** A [Date] object holds a time value or NaN. *)
Definition Date : Type := option Z.

Definition timeClip (t : Z) : Date :=
  if Z.abs t <=? maxTime then Some t else None.

(** [LocalTime(t)] and [UTC(t)]. *)
Definition LocalTime (tz : Zone) (t : Z) : Z := t + offsetAt tz t.
Definition UTC (tz : Zone) (local : Z) : Z := local - offsetOfLocal tz local.

(** [d.getHours()], in local time. *)
Definition Date_getHours (tz : Zone) (d : Date) : option Z :=
  t ← d; Some ((LocalTime tz t / msPerHour) mod 24).

(** [d.setHours(hour)]: the hour field of the local time is replaced, the
    day and the minutes, seconds and milliseconds are kept, and the local
    time that results is read back in the zone.  A NaN argument or a NaN
    date gives NaN. *)
Definition Date_setHours (tz : Zone) (d : Date) (hour : option Q) : Date :=
  t ← d; h ← hour;
  let local := LocalTime tz t in
  timeClip (UTC tz ((local / msPerDay) * msPerDay + Qtrunc h * msPerHour
                    + local mod msPerHour)).

(** [a > b] on two dates; false as soon as one side is NaN. *)
Definition Date_gt (a b : Date) : bool :=
  match a, b with
  | Some x, Some y => y <? x
  | _, _ => false
  end.

(** [d.toISOString()]: a RangeError on an Invalid Date. *)
Definition toISOString_io {P : Platform} (d : Date) : IO string :=
  match d with
  | Some t => ret (Date_toISOString t)
  | None => throw (Error "Invalid time value")
  end.

(** [String(x)] for a number that may be [Infinity]. *)
Definition Num_toString {P : Platform} (x : Js.Num) : string :=
  match x with
  | Js.Finite q => Number_toString q
  | Js.Infinity => "Infinity"
  end.

(** [a || b] on numbers, the left one possibly NaN. *)
Definition number_or (a : option Q) (b : Q) : Q :=
  match a with
  | Some q => if Qeq_bool q 0 then b else q
  | None => b
  end.

(** ** DashboardGenerator *)

Inductive RiskLevel := LvlCritical | LvlElevated | LvlModerate | LvlLow.

Inductive Trend := Increasing | Stable | Decreasing.

(** [DataSource]: the enumeration itself is declared in the types module;
    its two members used here are the strings that key the table of
    [formatSource]. *)
Definition DataSource : Type := string.
Definition SHODAN : DataSource := "shodan".
Definition X_COM : DataSource := "x.com".

Module Dashboard.

(** *** Input: the processed-data artifact, as far as it is read here *)

Record Threat := {
  threatId : string;              (* t.id *)
  title : string;
  severity : string;
  category : string;
  timestamp : string
}.

(** One element of [CorrelationSignal['sources']]. *)
Record SourceCount := {
  source : DataSource;
  count : Z;
  sampleData : option (list string);
  lastSeen : string
}.

Record TemporalAnalysis := {
  timeDeltaHours : Q;
  infraPrecedesSocial : bool;
  pattern : string
}.

Record CorrelationSignal := {
  id : string;
  label : string;
  sources : list SourceCount;
  temporalAnalysis : option TemporalAnalysis
}.

Record Correlation := {
  signals : list CorrelationSignal;
  dominantPattern : string;
  correlatedSignals : Z           (* correlation.summary.correlatedSignals *)
}.

Record ProcessedData := {
  threats : list Threat;
  correlation : option Correlation
}.

(** *** Output: the correlation block and the timeline of the dashboard *)

Record EvidenceLink := {
  evSource : DataSource;
  evType : string;
  evTitle : string;
  url : string;
  evTimestamp : string;
  excerpt : string;
  metadataIp : option string      (* metadata: { ip } *)
}.

Record DashboardSignal := {
  sigId : string;
  sigLabel : string;
  infraCount : Z;
  socialCount : Z;
  sigTimeDeltaHours : option Q;   (* number | null *)
  interpretation : string;
  evidenceInfrastructure : list EvidenceLink;
  evidenceSocial : list EvidenceLink
}.

Record CorrelationSection := {
  insight : string;
  sectionPattern : string;
  sectionSignals : list DashboardSignal
}.

Record TimelineEntry := {
  entryId : string;
  entryTitle : string;
  entrySeverity : string;
  entryCategory : string;
  entryTimestamp : string
}.

(** *** Risk *)

(** [calculateRiskScore(critical, high, medium, low)]. *)
Definition calculateRiskScore (critical high medium low : Q) : Q :=
  let score := (critical * 40 + high * 20 + medium * 5 + low * 1)%Q in
  Js.Math_min 100 (Js.Math_round score).

(** [determineRiskLevel(score)]. *)
Definition determineRiskLevel (score : Q) : RiskLevel :=
  if Js.ge score 75 then LvlCritical
  else if Js.ge score 45 then LvlElevated
  else if Js.ge score 15 then LvlModerate
  else LvlLow.

(** *** Correlation *)

(** [s.sources.some(src => src.source === DataSource.SHODAN && src.count > 0)] *)
Definition hasInfra (s : CorrelationSignal) : bool :=
  List.existsb (fun src => String.eqb (source src) SHODAN && (0 <? count src))
               (sources s).

(** [s.sources.some(src => src.source === DataSource.X_COM && src.count > 0)] *)
Definition hasSocial (s : CorrelationSignal) : bool :=
  List.existsb (fun src => String.eqb (source src) X_COM && (0 <? count src))
               (sources s).

(** The predicate of the [filter] in [buildCorrelationSection]. *)
Definition crossSource (s : CorrelationSignal) : bool :=
  hasInfra s && hasSocial s.

(** The four sentences of [generateInterpretation]; [hours] is
    [Math.abs(deltaHours)]. *)
Definition simultaneousSentence (lbl : string) : string :=
  lbl ++ " activity detected simultaneously in infrastructure and social channels.".

Definition scanningSentence (lbl : string) (hours : Q) : string :=
  "Infrastructure scanning of " ++ lbl ++ " detected " ++ Js.toFixed1 hours
    ++ "h before social discussion, indicating reconnaissance activity.".

Definition exposureSentence (lbl : string) (hours : Q) : string :=
  lbl ++ " infrastructure exposure detected " ++ Js.toFixed1 hours
    ++ "h before social awareness emerged.".

Definition socialFirstSentence (lbl : string) (hours : Q) : string :=
  "Social discussion of " ++ lbl ++ " preceded infrastructure detection by "
    ++ Js.toFixed1 hours
    ++ "h, suggesting threat awareness before observable exposure.".

(** [generateInterpretation(sig)].  [!deltaHours || deltaHours === 0]
    holds when there is no [temporalAnalysis] and when the delta is 0. *)
Definition generateInterpretation (sig : CorrelationSignal) : string :=
  match temporalAnalysis sig with
  | None => simultaneousSentence (label sig)
  | Some ta =>
      let deltaHours := timeDeltaHours ta in
      if Qeq_bool deltaHours 0 then simultaneousSentence (label sig)
      else if infraPrecedesSocial ta then
        if String.eqb (pattern ta) "scanning" then
          scanningSentence (label sig) (Js.Math_abs deltaHours)
        else
          exposureSentence (label sig) (Js.Math_abs deltaHours)
      else
        socialFirstSentence (label sig) (Js.Math_abs deltaHours)
  end.

(** [generateCorrelationInsight(signals, pattern)]. *)
Definition generateCorrelationInsight
    (sigs : list CorrelationSignal) (pat : string) : string :=
  let topSignals := List.map label (List.firstn 3 sigs) in
  if String.eqb pat "infra-first" then
    "Infrastructure scanning activity detected across "
      ++ String.concat ", " topSignals
      ++ " services before corresponding social discussion. This pattern typically indicates active reconnaissance or early exploitation attempts."
  else if String.eqb pat "social-first" then
    "Security discussions around " ++ String.concat ", " topSignals
      ++ " appeared in social channels before observable infrastructure activity. This could indicate emerging threats or coordinated awareness campaigns."
  else if String.eqb pat "simultaneous" then
    "Concurrent activity detected across " ++ String.concat ", " topSignals
      ++ " in both infrastructure and social intelligence. This synchronized pattern may indicate an active campaign."
  else
    "Cross-source correlation detected for "
      ++ String.concat ", " topSignals ++ ".".

(** [maskIp(ip)]. *)
Definition maskIp (ip : string) : string :=
  match Js.split "." ip with
  | [p0; p1; _; _] => p0 ++ "." ++ p1 ++ ".xxx.xxx"
  | _ => ip
  end.

(** [buildInfraEvidence(source, label)]. *)
Definition buildInfraEvidence
    (src : option SourceCount) (lbl : string) : list EvidenceLink :=
  match src with
  | None => []
  | Some s =>
      match sampleData s with
      | None => []
      | Some samples =>
          List.map
            (fun sample =>
               {| evSource := SHODAN;
                  evType := "host";
                  evTitle := lbl ++ " host: " ++ maskIp sample;
                  url := "https://www.shodan.io/host/" ++ sample;
                  evTimestamp := lastSeen s;
                  excerpt := "Exposed " ++ lbl ++ " service detected";
                  metadataIp := Some sample |})
            (List.firstn 3 samples)
      end
  end.

(** *** Title sanitising *)

(** [\d] *)
Definition isDigit (c : ascii) : bool :=
  ((48 <=? nat_of_ascii c) && (nat_of_ascii c <=? 57))%nat.

(** [\w]: a letter, a digit or the underscore. *)
Definition isWord (c : ascii) : bool :=
  isDigit c
  || ((65 <=? nat_of_ascii c) && (nat_of_ascii c <=? 90))%nat
  || ((97 <=? nat_of_ascii c) && (nat_of_ascii c <=? 122))%nat
  || Ascii.eqb c "_".

(** The atoms of [/\b\d{1,3}\.\d{1,3}\.\d{1,3}\.\d{1,3}\b/]. *)
Inductive Atom :=
| WordBoundary                  (* \b *)
| Digits1to3                    (* \d{1,3} *)
| Dot.                          (* \. *)

Definition ipPattern : list Atom :=
  [ WordBoundary; Digits1to3; Dot; Digits1to3; Dot; Digits1to3; Dot;
    Digits1to3; WordBoundary ].

(** [\b] holds between two characters of which exactly one is a word
    character; the two ends of the text count as non-word. *)
Definition atBoundary (prev : option ascii) (s : list ascii) : bool :=
  xorb (from_option isWord false prev)
       (match s with c :: _ => isWord c | [] => false end).

(** Exactly [k] digits off the front: the last of them and what
    follows. *)
Fixpoint takeDigits (k : nat) (s : list ascii)
  : option (ascii * list ascii) :=
  match k, s with
  | 1%nat, c :: rest => if isDigit c then Some (c, rest) else None
  | S k', c :: rest => if isDigit c then takeDigits k' rest else None
  | _, _ => None
  end.

(** A backtracking match of the atoms at the front of [s], [prev] being
    the character before it; the answer is the number of characters
    consumed.  [\d{1,3}] is greedy: three digits are tried first, then
    two, then one. *)
Fixpoint matchAtoms (atoms : list Atom) (prev : option ascii)
         (s : list ascii) : option nat :=
  match atoms with
  | [] => Some 0%nat
  | WordBoundary :: rest =>
      if atBoundary prev s then matchAtoms rest prev s else None
  | Dot :: rest =>
      match s with
      | c :: s' =>
          if Ascii.eqb c "." then
            option_map S (matchAtoms rest (Some c) s')
          else None
      | [] => None
      end
  | Digits1to3 :: rest =>
      let attempt (k : nat) :=
        match takeDigits k s with
        | Some (last, s') =>
            option_map (Nat.add k) (matchAtoms rest (Some last) s')
        | None => None
        end in
      match attempt 3%nat with
      | Some n => Some n
      | None =>
          match attempt 2%nat with
          | Some n => Some n
          | None => attempt 1%nat
          end
      end
  end.

(** [text.replace(/.../g, '[IP]')]: the text is scanned from the left;
    where the pattern matches, the match is replaced and the scan
    resumes after it ([skip] counts the characters of a match still to
    be passed over); elsewhere the character is kept. *)
Fixpoint replaceIPs (prev : option ascii) (skip : nat) (s : list ascii)
  : list ascii :=
  match s with
  | [] => []
  | c :: rest =>
      match skip with
      | S k => replaceIPs (Some c) k rest
      | O =>
          match matchAtoms ipPattern prev s with
          | Some (S n) =>
              list_ascii_of_string "[IP]" ++ replaceIPs (Some c) n rest
          | _ => c :: replaceIPs (Some c) 0 rest
          end
      end
  end.

(** [sanitizeTitle(title)]. *)
Definition sanitizeTitle (t : string) : string :=
  String.substring 0 80
    (string_of_list_ascii (replaceIPs None 0 (list_ascii_of_string t))).

(** [/.../.test(text)] from a given position: whether the pattern
    matches anywhere in [s]. *)
Fixpoint containsIP (prev : option ascii) (s : list ascii) : bool :=
  match s with
  | [] => false
  | c :: rest =>
      match matchAtoms ipPattern prev s with
      | Some _ => true
      | None => containsIP (Some c) rest
      end
  end.

Section WithPlatform.

Context {P : Platform}.

(** [buildSocialEvidence(source, label)]. *)
Definition buildSocialEvidence
    (src : option SourceCount) (lbl : string) : list EvidenceLink :=
  match src with
  | None => []
  | Some s =>
      match sampleData s with
      | None => []
      | Some samples =>
          List.map
            (fun text =>
               {| evSource := X_COM;
                  evType := "post";
                  evTitle := lbl ++ " discussion";
                  url := "https://x.com/search?q=" ++ encodeURIComponent lbl;
                  evTimestamp := lastSeen s;
                  excerpt :=
                    String.substring 0 100 text
                      ++ (if (100 <? String.length text)%nat
                          then "..." else "");
                  metadataIp := None |})
            (List.firstn 3 samples)
      end
  end.

(** The body of the [map] in [buildCorrelationSection]. *)
Definition buildSignal (sig : CorrelationSignal) : DashboardSignal :=
  let infraSource :=
    List.find (fun s => String.eqb (source s) SHODAN) (sources sig) in
  let socialSource :=
    List.find (fun s => String.eqb (source s) X_COM) (sources sig) in
  {| sigId := id sig;
     sigLabel := label sig;
     infraCount := from_option count 0 infraSource;
     socialCount := from_option count 0 socialSource;
     sigTimeDeltaHours := option_map timeDeltaHours (temporalAnalysis sig);
     interpretation := generateInterpretation sig;
     evidenceInfrastructure := buildInfraEvidence infraSource (label sig);
     evidenceSocial := buildSocialEvidence socialSource (label sig) |}.

(** [buildCorrelationSection(data)]; [None] is [undefined]. *)
Definition buildCorrelationSection
    (data : ProcessedData) : option CorrelationSection :=
  match correlation data with
  | None => None
  | Some corr =>
      if (length (signals corr) =? 0)%nat then None
      else
        let correlated := List.filter crossSource (signals corr) in
        if (length correlated =? 0)%nat then None
        else
          let sigs := List.map buildSignal (List.firstn 5 correlated) in
          let text :=
            generateCorrelationInsight correlated (dominantPattern corr) in
          Some {| insight := text;
                  sectionPattern := dominantPattern corr;
                  sectionSignals := sigs |}
  end.

(** *** Trend *)

(** [new Date(t.timestamp).getTime() > hourAgo]; false on NaN. *)
Definition isRecent (hourAgo : Z) (t : Threat) : bool :=
  match Date_parse (timestamp t) with
  | Some ms => hourAgo <? ms
  | None => false
  end.

(** [determineTrend(threats)]. *)
Definition determineTrend (ts : list Threat) : IO Trend :=
  t0 <- Date_now ;;
  let hourAgo := t0 - 3600000 in
  let recentCount :=
    inject_Z (Z.of_nat (length (List.filter (isRecent hourAgo) ts))) in
  let total := inject_Z (Z.of_nat (length ts)) in
  if Js.gt recentCount (total * (1 # 2)) then ret Increasing
  else if Js.lt recentCount (total * (1 # 5)) then ret Decreasing
  else ret Stable.

(** *** Timeline *)

(** [formatCategory(cat)].  (A category that names a member of
    [Object.prototype], such as [constructor], finds that member in the
    table object of the program; such names are outside the model.) *)
Definition formatCategory (cat : string) : string :=
  let table : list (string * string) :=
    [ ("malware", "Malware"); ("ransomware", "Ransomware");
      ("phishing", "Phishing"); ("ddos", "DDoS"); ("apt", "APT");
      ("vulnerability", "Vulnerability"); ("data_breach", "Data Breach");
      ("supply_chain", "Supply Chain");
      ("social_engineering", "Social Engineering");
      ("infrastructure", "Infrastructure"); ("other", "Other") ] in
  match List.find (fun kv => String.eqb (fst kv) (String_toLowerCase cat))
                  table with
  | Some kv => snd kv
  | None => cat
  end.

(** The timeline of [buildDashboard]: the first eight threats. *)
Definition timeline (ts : list Threat) : list TimelineEntry :=
  List.map
    (fun t =>
       {| entryId := threatId t;
          entryTitle := sanitizeTitle (title t);
          entrySeverity := severity t;
          entryCategory := formatCategory (category t);
          entryTimestamp := timestamp t |})
    (List.firstn 8 ts).

End WithPlatform.

End Dashboard.

(** ** BaseScraper: cache, rate limit, execute *)

Module Scraper.

Record RateLimit := {
  requestsPerMinute : Q;
  cooldownMs : Q
}.

Record CacheConfig := {
  cacheEnabled : bool;            (* config.cache.enabled *)
  ttlHours : Q
}.

Record ScraperConfig := {
  source : string;
  enabled : bool;
  rateLimit : RateLimit;
  cache : CacheConfig;
  queries : list string
}.

(** The sidecar written by [saveToCache] and read by [loadFromCache]. *)
Record CacheMetadata := {
  createdAt : string;
  expiresAt : string;
  metaSource : string;            (* metadata.source *)
  checksum : string
}.

Record ScraperResult (T : Type) := {
  success : bool;
  data : option T;
  error : option string;
  fromCache : bool
}.
Arguments success {T} _.
Arguments data {T} _.
Arguments error {T} _.
Arguments fromCache {T} _.

(** The fields of the object; only [lastRequestTime] is ever assigned
    after construction. *)
Record BaseScraper := {
  config : ScraperConfig;
  cacheDir : string;
  lastRequestTime : Z
}.

(** The two abstract members every concrete scraper supplies. *)
Class ScraperImpl (T : Type) := {
  scrape : BaseScraper -> IO T;
  scraperName : string
}.

Section Methods.

Context {P : Platform} {T : Type} {JT : JSON T}
        {JM : JSON CacheMetadata} {impl : ScraperImpl T}.

(** [constructor(config)]. *)
Definition new (cfg : ScraperConfig) : IO BaseScraper :=
  dir <- getenv_or "CTI_CACHE_DIR" "./DATA/cti-cache" ;;
  ret {| config := cfg; cacheDir := dir; lastRequestTime := 0 |}.

Definition tag : string := "[" ++ scraperName ++ "] ".

(** [applyRateLimit()]; the object with its new [lastRequestTime] is
    returned. *)
Definition applyRateLimit (this : BaseScraper) : IO BaseScraper :=
  t0 <- Date_now ;;
  let elapsed := inject_Z (t0 - lastRequestTime this) in
  let minInterval :=
    Js.div 60000 (requestsPerMinute (rateLimit (config this))) in
  (if Js.lt_num elapsed minInterval then
     let waitTime :=
       Js.add_num (Js.sub_num minInterval elapsed)
                  (cooldownMs (rateLimit (config this))) in
     console_log (tag ++ "Rate limiting: waiting "
                      ++ Num_toString waitTime ++ "ms") ;;
     sleep waitTime
   else ret tt) ;;
  t1 <- Date_now ;;
  ret {| config := config this; cacheDir := cacheDir this;
         lastRequestTime := t1 |}.

(** [getCachePath()] *)
Definition getCachePath (this : BaseScraper) : string :=
  path_join (cacheDir this) (source (config this) ++ "-cache.json").

(** [getCacheMetadataPath()] *)
Definition getCacheMetadataPath (this : BaseScraper) : string :=
  path_join (cacheDir this) (source (config this) ++ "-cache.meta.json").

(** [generateChecksum(data)] *)
Definition generateChecksum (data : string) : string := md5_hex data.

(** [loadFromCache()]; [None] is [null]. *)
Definition loadFromCache (this : BaseScraper) : IO (option T) :=
  try_catch
    (let metadataPath := getCacheMetadataPath this in
     let cachePath := getCachePath this in
     fs_access metadataPath ;;
     fs_access cachePath ;;
     metadataRaw <- fs_readFile metadataPath ;;
     metadata <- JSON_parse_io (T := CacheMetadata) metadataRaw ;;
     envTtl <- getenv "CACHE_TTL_HOURS" ;;
     let ttl :=
       number_or (envTtl ≫= Number_of_string)
                 (ttlHours (cache (config this))) in
     tz <- timezone ;;
     let created : Date := Date_parse (createdAt metadata) in
     let expires : Date :=
       Date_setHours tz created
         (h ← Date_getHours tz created; Some (inject_Z h + ttl)%Q) in
     t <- Date_now ;;
     if Date_gt (Some t) expires then
       console_log (tag ++ "Cache expired.") ;;
       ret None
     else
       dataRaw <- fs_readFile cachePath ;;
       let sum := generateChecksum dataRaw in
       if negb (String.eqb sum (checksum metadata)) then
         console_log (tag ++ "Cache checksum mismatch.") ;;
         ret None
       else
         d <- JSON_parse_io (T := T) dataRaw ;;
         ret (Some d))
    (fun _ =>
       console_log (tag ++ "No valid cache found.") ;;
       ret None).

(** [saveToCache(data)]. *)
Definition saveToCache (this : BaseScraper) (d : T) : IO unit :=
  try_catch
    (fs_mkdir (cacheDir this) ;;
     let dataString := JSON_stringify d in
     let sum := generateChecksum dataString in
     t1 <- Date_now ;;
     created <- toISOString_io (Some t1) ;;
     t2 <- Date_now ;;
     expires <-
       toISOString_io
         (timeClip (Qtrunc (inject_Z t2
                            + ttlHours (cache (config this)) * 3600000)%Q)) ;;
     let metadata :=
       {| createdAt := created; expiresAt := expires;
          metaSource := source (config this); checksum := sum |} in
     fs_writeFile (getCachePath this) dataString ;;
     fs_writeFile (getCacheMetadataPath this) (JSON_stringify metadata) ;;
     console_log (tag ++ "Data cached successfully."))
    (fun _ => console_error (tag ++ "Failed to cache data:")).

(** [error instanceof Error ? error.message : 'Unknown error'] *)
Definition errorMessageOf (e : Exn) : string :=
  match e with
  | Error message => message
  | Thrown _ => "Unknown error"
  end.

(** [execute()]; the result comes with the object as the call leaves
    it. *)
Definition execute (this : BaseScraper)
  : IO (ScraperResult T * BaseScraper) :=
  console_log (tag ++ "Starting execution...") ;;
  if negb (enabled (config this)) then
    console_log (tag ++ "Scraper disabled, skipping.") ;;
    ret ({| success := false; data := None;
            error := Some "Scraper disabled"; fromCache := false |},
         this)
  else
    useCache <- getenv "USE_CACHE" ;;
    cached <-
      (if cacheEnabled (cache (config this))
          && bool_decide (useCache = Some "true")
       then loadFromCache this
       else ret None) ;;
    match cached with
    | Some d =>
        console_log (tag ++ "Using cached data.") ;;
        ret ({| success := true; data := Some d; error := None;
                fromCache := true |}, this)
    | None =>
        this' <- applyRateLimit this ;;
        try_catch
          (d <- scrape this' ;;
           (if cacheEnabled (cache (config this'))
            then saveToCache this' d
            else ret tt) ;;
           console_log (tag ++ "Execution completed successfully.") ;;
           ret ({| success := true; data := Some d; error := None;
                   fromCache := false |}, this'))
          (fun e =>
             let errorMessage := errorMessageOf e in
             console_error (tag ++ "Execution failed: " ++ errorMessage) ;;
             ret ({| success := false; data := None;
                     error := Some errorMessage; fromCache := false |},
                  this'))
    end.

End Methods.

End Scraper.

(** ** CTIAgentSystem: the narrative analysis and its fallback *)

Module Agents.

(** [CTIAnalysis['analysis']]. *)
Record Analysis := {
  summary : string;
  keyFindings : list string;
  riskLevel : string;
  riskScore : Z;
  recommendations : list string;
  killChainPhase : string
}.

(** The generation endpoint and the parser of its answer.  [callOllama]
    is a network exchange; [parseTextResponse] is only reached with an
    answer in hand. *)
Class Endpoint := {
  callOllama : string -> IO string;
  parseTextResponse : string -> Analysis
}.

(** [fallbackAnalysis(context)]. *)
Definition fallbackAnalysis (context : string) : Analysis :=
  let hasCritical :=
    Js.includes context "Critical:" && negb (Js.includes context "Critical: 0") in
  let hasVulns := Js.includes context "CVE-" in
  {| summary :=
       "Automated threat intelligence analysis based on Shodan infrastructure scans and X.com social monitoring.";
     keyFindings :=
       [ if hasVulns
         then "Known vulnerabilities detected in exposed infrastructure"
         else "Infrastructure scan completed";
         "Remote access services (SSH/RDP/SMB) exposed to internet";
         "Social media monitoring active for threat indicators" ];
     riskLevel := if hasCritical then "high" else "medium";
     riskScore := if hasCritical then 70 else 50;
     recommendations :=
       [ "Review and restrict exposed remote access services";
         "Patch systems with known vulnerabilities";
         "Implement network segmentation";
         "Enable multi-factor authentication";
         "Monitor for indicators of compromise" ];
     killChainPhase := "Reconnaissance" |}.

(** The prompt of [runLLMAnalysis]. *)
Definition promptFor (context : string) : string :=
  "You are a cybersecurity analyst. Analyze this threat intelligence and provide a brief assessment."
    ++ Js.nl ++ Js.nl ++ context ++ Js.nl ++ Js.nl
    ++ "Write a SHORT analysis (max 500 words) with these sections:"
    ++ Js.nl ++ Js.nl
    ++ "SUMMARY: One paragraph overview of the threat landscape."
    ++ Js.nl ++ Js.nl
    ++ "KEY FINDINGS: List 3-5 bullet points of the most important findings."
    ++ Js.nl ++ Js.nl
    ++ "RISK LEVEL: State if risk is CRITICAL, HIGH, MEDIUM, or LOW with a score 0-100."
    ++ Js.nl ++ Js.nl
    ++ "RECOMMENDATIONS: List 3-5 actionable security recommendations."
    ++ Js.nl ++ Js.nl
    ++ "Be concise and factual. Base analysis only on the data provided.".

(** [runLLMAnalysis(context)]. *)
Definition runLLMAnalysis {E : Endpoint} (context : string) : IO Analysis :=
  let prompt := promptFor context in
  try_catch
    (response <- callOllama prompt ;;
     ret (parseTextResponse response))
    (fun err =>
       console_error "[CTI-Agents] LLM analysis failed:" ;;
       ret (fallbackAnalysis context)).

End Agents.

(** ** LLMAnalyzer: the heuristic analysis *)

Module Analyzer.

Record TopThreat := {
  sev : string;
  cat : string;
  threatTitle : string
}.

(** [NormalizedData]; [iocCounts] keeps the insertion order of the
    object's keys. *)
Record NormalizedData := {
  threatCount : Z;
  critical : Z;
  high : Z;
  medium : Z;
  topCategory : string;
  topThreats : list TopThreat;
  iocCounts : list (string * Z);
  cves : list string;
  sources : list string
}.

Record Insight := {
  insightId : string;
  insightType : string;
  insightTitle : string;
  content : string;
  confidence : Z;
  relatedThreats : list string
}.

Record TrendingTopic := {
  topic : string;
  growth : Z;
  relevance : Z
}.

Record TokenUsage := {
  input : Z;
  output : Z;
  total : Z
}.

Record LLMAnalysisResult := {
  insights : list Insight;
  executiveSummary : string;
  technicalSummary : string;
  recommendations : list string;
  trendingTopics : list TrendingTopic;
  analysisTimestamp : string;
  model : string;
  tokenUsage : TokenUsage
}.

(** [const OLLAMA_MODEL = process.env.OLLAMA_MODEL || 'qwen2:0.5b'] *)
Definition OLLAMA_MODEL : IO string := getenv_or "OLLAMA_MODEL" "qwen2:0.5b".

(** [calculateRisk(d)]. *)
Definition calculateRisk (d : NormalizedData) : string :=
  if 0 <? critical d then "critical"
  else if 2 <? high d then "high"
  else if (0 <? high d) || (5 <? medium d) then "medium"
  else "low".

(** [defaultSummary(d)]. *)
Definition defaultSummary (d : NormalizedData) : string :=
  Js.string_of_Z (threatCount d) ++ " amenazas detectadas, "
    ++ Js.string_of_Z (critical d) ++ " críticas. Foco: "
    ++ topCategory d ++ ".".

(** [defaultAction(d)]. *)
Definition defaultAction (d : NormalizedData) : string :=
  if 0 <? critical d then "Revisar amenazas críticas inmediatamente"
  else if 0 <? high d then "Priorizar amenazas de severidad alta"
  else "Monitorear indicadores detectados".

Section WithPlatform.

Context {P : Platform}.

(** [buildResult(data, risk, summary, action, model)]. *)
Definition buildResult
    (d : NormalizedData) (risk summaryText action modelTag : string)
  : IO LLMAnalysisResult :=
  t1 <- Date_now ;;
  t2 <- Date_now ;;
  ollamaModel <- OLLAMA_MODEL ;;
  ret {| insights :=
           [ {| insightId := "insight_" ++ Js.string_of_Z t1;
                insightType := "trend";
                insightTitle := "Análisis CTI";
                content := summaryText;
                confidence :=
                  if String.eqb modelTag "ollama" then 75 else 70;
                relatedThreats := [] |} ];
         executiveSummary := summaryText;
         technicalSummary :=
           "IOCs: "
             ++ String.concat ", "
                  (List.map (fun kv => Js.string_of_Z (snd kv) ++ " " ++ fst kv)
                            (iocCounts d))
             ++ ". CVEs: "
             ++ Js.string_of_Z (Z.of_nat (length (cves d)))
             ++ ". Fuentes: " ++ String.concat ", " (sources d) ++ ".";
         recommendations := [action];
         trendingTopics :=
           [ {| topic := topCategory d; growth := 0; relevance := 100 |} ];
         analysisTimestamp := Date_toISOString t2;
         model := ollamaModel ++ "-" ++ modelTag;
         tokenUsage := {| input := 0; output := 0; total := 0 |} |}.

(** [heuristicAnalysis(data)]. *)
Definition heuristicAnalysis (d : NormalizedData) : IO LLMAnalysisResult :=
  let risk := calculateRisk d in
  let summaryText := defaultSummary d in
  let action := defaultAction d in
  buildResult d risk summaryText action "heuristic".

End WithPlatform.

End Analyzer.

(** ** Stand-ins for the library functions, for running the model

    Used only to evaluate the definitions on concrete inputs: times are
    written as decimal millisecond counts, the checksum of a text is the
    text itself, and a record is stored as its fields separated by bars. *)

Module Fixtures.

Definition decimal (s : string) : option Z :=
  match s with
  | EmptyString => None
  | _ => option_map Z.of_int (NilZero.int_of_string s)
  end.

Definition platform : Platform := {|
  md5_hex := fun s => s;
  Date_parse := decimal;
  Date_toISOString := Js.string_of_Z;
  Number_of_string := fun s => option_map inject_Z (decimal s);
  Number_toString := fun q => Js.string_of_Z (Qfloor q);
  String_toLowerCase := fun s => s;
  encodeURIComponent := fun s => s
|}.

Definition jsonString : JSON string := {|
  JSON_stringify := fun s => s;
  JSON_parse := fun s => if String.eqb s "" then None else Some s
|}.

Definition jsonMetadata : JSON Scraper.CacheMetadata := {|
  JSON_stringify := fun m =>
    Scraper.createdAt m ++ "|" ++ Scraper.expiresAt m ++ "|"
    ++ Scraper.metaSource m ++ "|" ++ Scraper.checksum m;
  JSON_parse := fun s =>
    match Js.split "|" s with
    | [c; e; src; sum] =>
        Some {| Scraper.createdAt := c; Scraper.expiresAt := e;
                Scraper.metaSource := src; Scraper.checksum := sum |}
    | _ => None
    end
|}.

(** A scraper whose fetch succeeds, and one whose fetch throws. *)
Definition working : Scraper.ScraperImpl string := {|
  Scraper.scrape := fun _ => ret "payload";
  Scraper.scraperName := "Test"
|}.

Definition failing : Scraper.ScraperImpl string := {|
  Scraper.scrape := fun _ => throw (Error "HTTP 503");
  Scraper.scraperName := "Test"
|}.

(** The configuration built by the pipeline's [runScrapers]. *)
Definition baseConfig (src : string) (on : bool) : Scraper.ScraperConfig := {|
  Scraper.source := src;
  Scraper.enabled := on;
  Scraper.rateLimit :=
    {| Scraper.requestsPerMinute := 5; Scraper.cooldownMs := 2000 |};
  Scraper.cache := {| Scraper.cacheEnabled := true; Scraper.ttlHours := 24 |};
  Scraper.queries := []
|}.

Definition scraper (on : bool) : Scraper.BaseScraper := {|
  Scraper.config := baseConfig "shodan" on;
  Scraper.cacheDir := "./DATA/cti-cache";
  Scraper.lastRequestTime := 0
|}.

(** A world at clock [t] with the given files and environment, in UTC
    and in a given zone. *)
Definition world (t : Z) (fs env : list (string * string)) : World :=
  mkWorld t (fixedZone 0) (list_to_map fs) false (list_to_map env) [] [].



End Fixtures.

(** ** Vocabulary of the statements *)

(** A computation that always returns. *)
Definition returns {A} (c : IO A) : Prop :=
  forall w, exists a w', c w = (Ret a, w').




Module RegexSpec.

Import Dashboard.
Local Open Scope list_scope.

(** Whether a text starts with a word character. *)
Definition headWord (s : list ascii) : bool :=
  match s with c :: _ => isWord c | [] => false end.

(** Whether the character before a position is a word character. *)
Definition wordBefore (p : option ascii) : bool := from_option isWord false p.


(** What the atoms match, stated without backtracking: [\d{1,3}] takes
    one to three digits ([o ++ [last]]), the rest takes it from there, and
    [n] characters are consumed in all. *)
Fixpoint Parses (atoms : list Atom) (p : option ascii) (s : list ascii)
         (n : nat) : Prop :=
  match atoms with
  | [] => n = 0%nat
  | WordBoundary :: rest => atBoundary p s = true /\ Parses rest p s n
  | Dot :: rest =>
      exists s' n',
        s = "."%char :: s' /\ Parses rest (Some "."%char) s' n' /\ n = S n'
  | Digits1to3 :: rest =>
      exists o last s' n',
        s = o ++ last :: s'
        /\ (length o < 3)%nat
        /\ forallb isDigit (o ++ [last]) = true
        /\ Parses rest (Some last) s' n'
        /\ n = (S (length o) + n')%nat
  end.

(** After [\d{1,3}] the pattern goes on with [\.] or ends with [\b], so
    what follows never accepts a further digit. *)
Fixpoint digitsDelimited (atoms : list Atom) : bool :=
  match atoms with
  | [] => true
  | Digits1to3 :: rest =>
      match rest with
      | Dot :: _ => digitsDelimited rest
      | [WordBoundary] => true
      | _ => false
      end
  | _ :: rest => digitsDelimited rest
  end.


(** Whether a text starts with a digit. *)
Definition headDigit (s : list ascii) : bool :=
  match s with c :: _ => isDigit c | [] => false end.

(** One alternative of [\d{1,3}]: exactly [k] digits, then the rest. *)
Definition attempt (rest : list Atom) (s : list ascii) (k : nat)
  : option nat :=
  match takeDigits k s with
  | Some (last, s') =>
      option_map (Nat.add k) (matchAtoms rest (Some last) s')
  | None => None
  end.

(** A continuation that turns down a digit coming right after a digit. *)
Definition rejectsDigit (rest : list Atom) : Prop :=
  forall d c s',
    isDigit d = true -> isDigit c = true ->
    matchAtoms rest (Some d) (c :: s') = None.


(** One group of an address: one to three digits. *)
Definition isGroup (g : list ascii) : Prop :=
  (1 <= length g <= 3)%nat /\ forallb isDigit g = true.

(** A dotted quad: four groups with a dot between them. *)
Definition isQuad (m : list ascii) : Prop :=
  exists a b c d,
    m = a ++ "."%char :: b ++ "."%char :: c ++ "."%char :: d
    /\ isGroup a /\ isGroup b /\ isGroup c /\ isGroup d.

(** An address in a text: a dotted quad that stands between word
    boundaries, [p] being the character before it and [rest] the text
    after it. *)
Definition Address (p : option ascii) (m rest : list ascii) : Prop :=
  isQuad m /\ wordBefore p = false /\ headWord rest = false.


End RegexSpec.

(** ** Sample inputs *)


(** A signal seen by both sources, and a run in which six labels are. *)
Definition bothSources (lbl : string) : Dashboard.CorrelationSignal := {|
  Dashboard.id := "corr_" ++ lbl;
  Dashboard.label := lbl;
  Dashboard.sources :=
    [ {| Dashboard.source := SHODAN; Dashboard.count := 3;
         Dashboard.sampleData := Some ["198.51.100.23"];
         Dashboard.lastSeen := "2026-02-01T08:00:00.000Z" |};
      {| Dashboard.source := X_COM; Dashboard.count := 1;
         Dashboard.sampleData := Some ["exposed " ++ lbl ++ " everywhere"];
         Dashboard.lastSeen := "2026-02-01T13:00:00.000Z" |} ];
  Dashboard.temporalAnalysis :=
    Some {| Dashboard.timeDeltaHours := 5;
            Dashboard.infraPrecedesSocial := true;
            Dashboard.pattern := "scanning" |}
|}.

Definition onlyInfra (lbl : string) : Dashboard.CorrelationSignal := {|
  Dashboard.id := "corr_" ++ lbl;
  Dashboard.label := lbl;
  Dashboard.sources :=
    [ {| Dashboard.source := SHODAN; Dashboard.count := 7;
         Dashboard.sampleData := Some ["198.51.100.99"];
         Dashboard.lastSeen := "2026-02-01T08:00:00.000Z" |};
      {| Dashboard.source := X_COM; Dashboard.count := 0;
         Dashboard.sampleData := None;
         Dashboard.lastSeen := "" |} ];
  Dashboard.temporalAnalysis := None
|}.

Definition sixCorrelated : Dashboard.ProcessedData := {|
  Dashboard.threats := [];
  Dashboard.correlation :=
    Some {| Dashboard.signals :=
              [ bothSources "ssh"; bothSources "rdp"; onlyInfra "mysql";
                bothSources "smb"; bothSources "ftp"; bothSources "vnc";
                bothSources "telnet" ];
            Dashboard.dominantPattern := "infra-first";
            Dashboard.correlatedSignals := 6 |}
|}.

Definition sampleData : Analyzer.NormalizedData := {|
  Analyzer.threatCount := 12;
  Analyzer.critical := 2;
  Analyzer.high := 3;
  Analyzer.medium := 4;
  Analyzer.topCategory := "ransomware";
  Analyzer.topThreats :=
    [ {| Analyzer.sev := "C"; Analyzer.cat := "RAN";
         Analyzer.threatTitle := "LockBit affiliate activity" |} ];
  Analyzer.iocCounts := [("cve", 2); ("ip", 5)];
  Analyzer.cves := ["CVE-2024-3400"; "CVE-2023-4966"];
  Analyzer.sources := ["shodan"; "x.com"]
|}.

(** An endpoint that times out on every request. *)
Definition timingOut : Agents.Endpoint := {|
  Agents.callOllama := fun _ => throw (Error "This operation was aborted");
  Agents.parseTextResponse := fun _ => Agents.fallbackAnalysis ""
|}.

Definition leakyThreat : Dashboard.Threat := {|
  Dashboard.threatId := "t-17";
  Dashboard.title := "srv_10.0.0.1 exposed";
  Dashboard.severity := "high";
  Dashboard.category := "infrastructure";
  Dashboard.timestamp := "2026-02-01T08:00:00.000Z"
|}.

Definition maskedThreat : Dashboard.Threat := {|
  Dashboard.threatId := "t-18";
  Dashboard.title := "Host 192.168.1.10 exposed on port 22";
  Dashboard.severity := "high";
  Dashboard.category := "infrastructure";
  Dashboard.timestamp := "2026-02-01T08:00:00.000Z"
|}.

(** ** Further vocabulary *)

(** Two worlds that differ at most in what was printed. *)
Definition sameButTrace (w w' : World) : Prop :=
  now w' = now w /\ zone w' = zone w /\ files w' = files w
  /\ readOnly w' = readOnly w /\ env w' = env w /\ latency w' = latency w.

(** A computation that at most prints. *)
Definition quiet {A} (c : IO A) : Prop :=
  forall w o w', c w = (o, w') -> sameButTrace w w'.

(** A computation that leaves alone the clock, the timers, the environment
    and every file outside [paths]. *)
Definition writesOnly {A} (paths : list string) (c : IO A) : Prop :=
  forall w o w',
    c w = (o, w') ->
    now w' = now w /\ zone w' = zone w /\ readOnly w' = readOnly w
    /\ env w' = env w /\ latency w' = latency w
    /\ forall path, ~ In path paths -> files w' !! path = files w !! path.

(** The sidecar [saveToCache] writes at clock [t] for the text [dataString]. *)
Definition metadataAt {P : Platform} (this : Scraper.BaseScraper)
    (t : Z) (dataString : string) : Scraper.CacheMetadata :=
  {| Scraper.createdAt := Date_toISOString t;
     Scraper.expiresAt :=
       Date_toISOString
         (Qtrunc (inject_Z t
                  + Scraper.ttlHours (Scraper.cache (Scraper.config this))
                    * 3600000)%Q);
     Scraper.metaSource := Scraper.source (Scraper.config this);
     Scraper.checksum := md5_hex dataString |}.

(** The TTL [loadFromCache] applies in a world: the environment override
    when it is a non-zero number, else the configured one. *)
Definition effectiveTtl {P : Platform} (this : Scraper.BaseScraper)
    (w : World) : Q :=
  number_or (env w !! "CACHE_TTL_HOURS" ≫= Number_of_string)
            (Scraper.ttlHours (Scraper.cache (Scraper.config this))).

(** No change of offset gets in the way of moving the local time of the
    instant [t] on by [hours] hours: the local time that results is read
    with the offset in force at [t]. *)
Definition sameOffset (tz : Zone) (t hours : Z) : Prop :=
  offsetOfLocal tz (LocalTime tz t + hours * msPerHour) = offsetAt tz t.

(** The date [loadFromCache] compares the clock with: the creation date of
    the sidecar, its local hour moved on by the TTL in force. *)
Definition expiryOf {P : Platform} (this : Scraper.BaseScraper)
    (w : World) (metadata : Scraper.CacheMetadata) : Date :=
  Date_setHours (zone w) (Date_parse (Scraper.createdAt metadata))
    (h ← Date_getHours (zone w) (Date_parse (Scraper.createdAt metadata));
     Some (inject_Z h + effectiveTtl this w)%Q).

(** What [execute] does once the cache has given nothing: the rate limit,
    the request, the cache write. *)
Definition fetchFresh {P : Platform} {T : Type} {JT : JSON T}
    {JM : JSON Scraper.CacheMetadata} {impl : Scraper.ScraperImpl T}
    (this : Scraper.BaseScraper)
  : IO (Scraper.ScraperResult T * Scraper.BaseScraper) :=
  (this' <- Scraper.applyRateLimit this ;;
   try_catch
     (d <- Scraper.scrape this' ;;
      (if Scraper.cacheEnabled (Scraper.cache (Scraper.config this'))
       then Scraper.saveToCache this' d
       else ret tt) ;;
      console_log (Scraper.tag ++ "Execution completed successfully.") ;;
      ret ({| Scraper.success := true; Scraper.data := Some d;
              Scraper.error := None; Scraper.fromCache := false |}, this'))
     (fun e =>
        let errorMessage := Scraper.errorMessageOf e in
        console_error (Scraper.tag ++ "Execution failed: " ++ errorMessage) ;;
        ret ({| Scraper.success := false; Scraper.data := None;
                Scraper.error := Some errorMessage;
                Scraper.fromCache := false |},
             this')))%io.

(** The recent bucket as the specification words it, a timestamp within
    the last hour: a date later than one hour before the clock and not
    ahead of the clock. *)
Definition withinLastHour {P : Platform} (clock : Z) (t : Dashboard.Threat)
  : bool :=
  match Date_parse (Dashboard.timestamp t) with
  | Some ms => (clock - 3600000 <? ms) && (ms <=? clock)
  | None => false
  end.

(** The trend that bucket gives, with the thresholds of the
    specification. *)
Definition trendByLastHour {P : Platform} (clock : Z)
    (ts : list Dashboard.Threat) : Trend :=
  let recent :=
    inject_Z (Z.of_nat (length (List.filter (withinLastHour clock) ts))) in
  let total := inject_Z (Z.of_nat (length ts)) in
  if Js.gt recent (total * (1 # 2)) then Increasing
  else if Js.lt recent (total * (1 # 5)) then Decreasing
  else Stable.

(** The world once a line has been printed, on the console and on the
    error stream. *)
Definition printed (line : string) (w : World) : World :=
  mkWorld (now w) (zone w) (files w) (readOnly w) (env w) (latency w)
          (ConsoleLog line :: trace w).

Definition printedError (line : string) (w : World) : World :=
  mkWorld (now w) (zone w) (files w) (readOnly w) (env w) (latency w)
          (ConsoleError line :: trace w).

(** The cache gives [execute] nothing between [w0] and [w1]: it is
    consulted and answers [null], or it is not consulted at all (the cache
    is switched off, or [USE_CACHE] is not [true]). *)
Definition cacheGaveNothing {P : Platform} {T : Type} {JT : JSON T}
    {JM : JSON Scraper.CacheMetadata} {impl : Scraper.ScraperImpl T}
    (this : Scraper.BaseScraper) (w0 w1 : World) : Prop :=
  if Scraper.cacheEnabled (Scraper.cache (Scraper.config this))
     && bool_decide (env w0 !! "USE_CACHE" = Some "true")
  then Scraper.loadFromCache this w0 = (Ret (@None T), w1)
  else w1 = w0.

(** ** Arrays *)

Module JsArray.

(** [xs.sort((a, b) => key(b) - key(a))] on whole-number keys: larger keys
    first; the sort is stable, so of two elements with the same key the one
    that came first stays first.  [insertDesc] puts an element that came
    before all of [sorted] at its place. *)
Fixpoint insertDesc {A} (key : A -> Z) (x : A) (sorted : list A) : list A :=
  match sorted with
  | [] => [x]
  | y :: rest =>
      if key y <=? key x then x :: sorted
      else y :: insertDesc key x rest
  end.

Definition sortDesc {A} (key : A -> Z) (xs : list A) : list A :=
  fold_right (insertDesc key) [] xs.

End JsArray.

(** ** DashboardGenerator: the whole dashboard *)

Module Generator.

(** *** Input *)

(** One element of [ProcessedData['indicators']]. *)
Record Indicator := {
  indType : string;
  indValue : string
}.

(** [summary.bySeverity], by member of [ThreatSeverity]; [None] where the
    object has no such key. *)
Record SeverityCounts := {
  sevCritical : option Z;
  sevHigh : option Z;
  sevMedium : option Z;
  sevLow : option Z
}.

(** [ProcessedData['summary']]; the two tables are the entries of the
    objects in the order [Object.entries] lists them. *)
Record Summary := {
  totalThreats : Z;
  bySeverity : option SeverityCounts;
  byCategory : option (list (string * Z));
  bySource : option (list (string * Z))
}.

(** A threat with the sources it was seen in. *)
Record Threat := {
  core : Dashboard.Threat;
  threatSources : option (list DataSource)       (* t.sources *)
}.

Record ProcessedData := {
  threats : list Threat;
  summary : Summary;
  indicators : option (list Indicator);
  correlation : option Dashboard.Correlation
}.

(** *** Output: [PublicDashboard] *)

Record Meta := {
  version : string;
  generatedAt : string;
  validUntil : string
}.

Record Status := {
  riskLevel : RiskLevel;
  riskScore : Q;
  trend : Trend;
  confidenceLevel : Z
}.

Record Executive := {
  headline : string;
  execSummary : string;                          (* executive.summary *)
  keyFindings : list string;
  recommendedActions : list string
}.

Record CategoryShare := {
  catName : string;
  catCount : Z;
  percentage : Q
}.

Record Metrics := {
  totalSignals : Z;
  criticalCount : Z;
  highCount : Z;
  mediumCount : Z;
  lowCount : Z;
  categories : list CategoryShare
}.

Record SourceEntry := {
  srcName : string;
  signalCount : Z;
  lastUpdate : string
}.

Record DisplayIndicators := {
  cves : list string;
  domains : list string;
  ips : list string;
  keywords : list string
}.

Record PublicDashboard := {
  meta : Meta;
  status : Status;
  executive : Executive;
  metrics : Metrics;
  timeline : list Dashboard.TimelineEntry;
  sources : list SourceEntry;
  displayed : DisplayIndicators;                 (* indicators *)
  correlationSection : option Dashboard.CorrelationSection
}.

(** The fields of the generator object. *)
Record DashboardGenerator := {
  outputDir : string;
  publicDir : string
}.

(** *** Helpers *)

(** The string a risk level is in the program. *)
Definition riskLevelName (l : RiskLevel) : string :=
  match l with
  | LvlCritical => "critical"
  | LvlElevated => "elevated"
  | LvlModerate => "moderate"
  | LvlLow => "low"
  end.

(** [count || 0] on a count that may be missing. *)
Definition orZero (c : option Z) : Z := default 0 c.

(** [summary.bySeverity?.[member] || 0]. *)
Definition severityCount (s : Summary)
    (member : SeverityCounts -> option Z) : Z :=
  orZero (bySeverity s ≫= member).

(** The part of the data the correlation block and the timeline read. *)
Definition narrow (data : ProcessedData) : Dashboard.ProcessedData :=
  {| Dashboard.threats := List.map core (threats data);
     Dashboard.correlation := correlation data |}.

(** [Object.entries(summary.byCategory || {}).sort((a, b) => b[1] - a[1])[0]] *)
Definition topCategoryOf (s : Summary) : option (string * Z) :=
  head (JsArray.sortDesc snd (default [] (byCategory s))).

(** [indicators?.filter(i => i.type === ty).length || 0] *)
Definition countOfType (ty : string) (inds : option (list Indicator)) : Z :=
  match inds with
  | Some l =>
      Z.of_nat (length (List.filter (fun i => String.eqb (indType i) ty) l))
  | None => 0
  end.

(** [s] or nothing, for a count above one. *)
Definition plural (n : Z) : string := if 1 <? n then "s" else "".

(** *** Headline, findings, actions *)

(** [generateHeadline(riskLevel, totalThreats, correlation)]. *)
Definition generateHeadline (riskLevel : string) (totalThreats : Z)
    (correlation : option Dashboard.Correlation) : string :=
  let correlated :=
    match correlation with
    | Some c =>
        if 0 <? Dashboard.correlatedSignals c then
          match List.find Dashboard.crossSource (Dashboard.signals c) with
          | Some topSignal =>
              if String.eqb riskLevel "critical"
              then Some (Dashboard.label topSignal
                           ++ " Activity Correlated Across Sources")
              else None
          | None => None
          end
        else None
    | None => None
    end in
  match correlated with
  | Some text => text
  | None =>
      if String.eqb riskLevel "critical" then
        "Critical Threat Activity Detected"
      else if String.eqb riskLevel "elevated" then
        "Elevated Threat Landscape"
      else if String.eqb riskLevel "moderate" then
        "Moderate Security Signals Observed"
      else "Baseline Threat Activity"
  end.

(** [generateActions(riskLevel, correlation)]. *)
Definition generateActions (riskLevel : string)
    (correlation : option Dashboard.Correlation) : list string :=
  let actions0 : list string :=
    match correlation with
    | Some c =>
        if 0 <? Dashboard.correlatedSignals c then
          match List.filter Dashboard.crossSource (Dashboard.signals c) with
          | topSignal :: _ =>
              if String.eqb (Dashboard.dominantPattern c) "infra-first" then
                [ "Verify " ++ Dashboard.label topSignal
                    ++ " exposure and assess potential reconnaissance activity" ]
              else if String.eqb (Dashboard.dominantPattern c) "social-first"
              then
                [ "Monitor " ++ Dashboard.label topSignal
                    ++ " services for emerging exploitation attempts" ]
              else []
          | [] => []
          end
        else []
    | None => []
    end in
  let actions1 :=
    if String.eqb riskLevel "critical" then
      List.app actions0 [ "Initiate incident response procedures";
                    "Review and patch critical vulnerabilities immediately";
                    "Increase monitoring on affected systems";
                    "Brief security leadership on current threat status" ]
    else if String.eqb riskLevel "elevated" then
      List.app actions0 [ "Prioritize vulnerability remediation for high-severity items";
                    "Review access controls and network segmentation";
                    "Increase threat hunting activities" ]
    else if String.eqb riskLevel "moderate" then
      List.app actions0 [ "Continue routine vulnerability management";
                    "Monitor for escalation indicators";
                    "Update threat intelligence feeds" ]
    else
      List.app actions0 [ "Maintain standard security operations";
                    "Continue periodic threat assessments" ] in
  List.firstn 4 actions1.

(** [calculateConfidence(data, llm)]. *)
Definition calculateConfidence (data : ProcessedData)
    (llm : option Analyzer.LLMAnalysisResult) : Z :=
  let confidence0 := 50 in
  let sourceCount :=
    Z.of_nat (length (default [] (bySource (summary data)))) in
  let confidence1 := confidence0 + sourceCount * 10 in
  let confidence2 :=
    if (10 <=? length (threats data))%nat then confidence1 + 15
    else if (5 <=? length (threats data))%nat then confidence1 + 10
    else confidence1 in
  let confidence3 :=
    match llm with
    | Some l =>
        if negb (String.eqb (Analyzer.executiveSummary l) "")
        then confidence2 + 10 else confidence2
    | None => confidence2
    end in
  Z.min 95 confidence3.

(** [extractDisplayIndicators(indicators)]. *)
Definition extractDisplayIndicators (inds : option (list Indicator))
  : DisplayIndicators :=
  let pick (ty : string) (n : nat) : list string :=
    match inds with
    | Some l =>
        List.map indValue
          (List.firstn n (List.filter (fun i => String.eqb (indType i) ty) l))
    | None => []
    end in
  {| cves := pick "cve" 10%nat;
     domains := pick "domain" 5%nat;
     ips := pick "ip" 5%nat;
     keywords := pick "keyword" 8%nat |}.

Section WithPlatform.

Context {P : Platform}.

(** [formatSource(src)]. *)
Definition formatSource (src : string) : string :=
  let table : list (string * string) :=
    [ ("x.com", "Social Intelligence (X)");
      ("shodan", "Technical Reconnaissance");
      ("misp", "MISP Threat Sharing");
      ("alienvault", "AlienVault OTX");
      ("virustotal", "VirusTotal");
      ("abuse.ch", "abuse.ch") ] in
  match List.find (fun kv => String.eqb (fst kv) (String_toLowerCase src))
                  table with
  | Some kv => snd kv
  | None => src
  end.

(** [generateFindings(data, correlation)]. *)
Definition generateFindings (data : ProcessedData)
    (correlation : option Dashboard.Correlation) : list string :=
  let findings0 : list string :=
    match correlation with
    | Some c =>
        if 0 <? Dashboard.correlatedSignals c then
          let correlatedSignals :=
            List.filter Dashboard.crossSource (Dashboard.signals c) in
          if (0 <? length correlatedSignals)%nat then
            let labels :=
              String.concat " and "
                (List.map Dashboard.label (List.firstn 2 correlatedSignals)) in
            let pattern := Dashboard.dominantPattern c in
            if String.eqb pattern "infra-first" then
              [ labels
                  ++ " infrastructure activity detected before social discussion" ]
            else if String.eqb pattern "social-first" then
              [ labels
                  ++ " social discussion preceded observable infrastructure exposure" ]
            else
              [ "Cross-source correlation detected for " ++ labels ]
          else []
        else []
    | None => []
    end in
  let cveCount := countOfType "cve" (indicators data) in
  let findings1 :=
    if 0 <? cveCount then
      List.app findings0 [ Js.string_of_Z cveCount ++ " CVE reference"
                       ++ plural cveCount
                       ++ " identified in collected intelligence" ]
    else findings0 in
  let criticalThreats := severityCount (summary data) sevCritical in
  let findings2 :=
    if 0 <? criticalThreats then
      List.app findings1 [ Js.string_of_Z criticalThreats
                       ++ " critical severity signal"
                       ++ plural criticalThreats
                       ++ " require immediate attention" ]
    else findings1 in
  let findings3 :=
    match topCategoryOf (summary data) with
    | Some topCategory =>
        if (length findings2 <? 4)%nat then
          List.app findings2 [ Dashboard.formatCategory (fst topCategory)
                           ++ " represents primary threat vector" ]
        else findings2
    | None => findings2
    end in
  let findings4 :=
    if (length findings3 =? 0)%nat
    then [ "No high-priority findings at this time" ]
    else findings3 in
  List.firstn 4 findings4.

(** [threats.filter(t => t.sources?.includes(src)).length] *)
Definition signalsFrom (src : DataSource) (ts : list Threat) : Z :=
  Z.of_nat
    (length
       (List.filter
          (fun t =>
             match threatSources t with
             | Some l => List.existsb (String.eqb src) l
             | None => false
             end)
          ts)).

(** [buildExecutiveSummary(data, llm, riskLevel)]. *)
Definition buildExecutiveSummary (data : ProcessedData)
    (llm : option Analyzer.LLMAnalysisResult) (riskLevel : string)
  : Executive :=
  let keyFindings := generateFindings data (correlation data) in
  let llmSummary :=
    match llm with
    | Some l =>
        if (20 <? String.length (Analyzer.executiveSummary l))%nat
        then Some (Analyzer.executiveSummary l) else None
    | None => None
    end in
  match llmSummary with
  | Some text =>
      {| headline :=
           generateHeadline riskLevel (totalThreats (summary data))
                            (correlation data);
         execSummary := text;
         keyFindings := keyFindings;
         recommendedActions := generateActions riskLevel (correlation data) |}
  | None =>
      let topCategory := topCategoryOf (summary data) in
      let socialSignals := signalsFrom X_COM (threats data) in
      let techSignals := signalsFrom SHODAN (threats data) in
      let hasCorrelation :=
        match correlation data with
        | Some c => 0 <? Dashboard.correlatedSignals c
        | None => false
        end in
      let summaryText :=
        if (0 <? socialSignals) && (0 <? techSignals) then
          "Analysis identified "
            ++ Js.string_of_Z (totalThreats (summary data))
            ++ " threat signals across social and technical intelligence sources. "
            ++ match topCategory with
               | Some kv =>
                   Dashboard.formatCategory (fst kv)
                     ++ " activity represents the dominant threat category ("
                     ++ Js.string_of_Z (snd kv) ++ " signals). "
               | None => ""
               end
            ++ match correlation data with
               | Some c =>
                   if hasCorrelation then
                     "Cross-source correlation detected "
                       ++ Js.string_of_Z (Dashboard.correlatedSignals c)
                       ++ " signals appearing in both infrastructure and social channels. "
                   else ""
               | None => ""
               end
            ++ "Activity level: "
            ++ (if String.eqb riskLevel "critical"
                   || String.eqb riskLevel "elevated"
                then "elevated" else "baseline")
            ++ ". "
            ++ "Assessment based on correlated multi-source intelligence."
        else if 0 <? socialSignals then
          "Social intelligence analysis detected "
            ++ Js.string_of_Z socialSignals
            ++ " threat-related discussions. Claims and reports require verification against technical indicators. Exercise caution when acting on unconfirmed social signals."
        else if 0 <? techSignals then
          "Technical reconnaissance identified "
            ++ Js.string_of_Z techSignals
            ++ " infrastructure-related signals. Exposed services and vulnerabilities detected may indicate potential attack surface. Recommend validation and remediation prioritization."
        else
          "Insufficient data for comprehensive threat assessment. Additional intelligence sources recommended for improved coverage." in
      {| headline :=
           generateHeadline riskLevel (totalThreats (summary data))
                            (correlation data);
         execSummary := summaryText;
         keyFindings := keyFindings;
         recommendedActions := generateActions riskLevel (correlation data) |}
  end.

(** The category breakdown of [buildDashboard].  (The percentage is the
    rounding of the exact quotient; the program rounds the double
    [(count / total) * 100], which can differ from it by one where the
    quotient lies within a rounding error of a half.) *)
Definition categoryBreakdown (s : Summary) (total : Z) : list CategoryShare :=
  List.map
    (fun kv =>
       {| catName := Dashboard.formatCategory (fst kv);
          catCount := snd kv;
          percentage :=
            Js.Math_round ((inject_Z (snd kv) / inject_Z total) * 100)%Q |})
    (List.firstn 6
       (JsArray.sortDesc snd
          (List.filter (fun kv => 0 <? snd kv) (default [] (byCategory s))))).

(** The sources list of [buildDashboard]; [stamp] is [now.toISOString()]. *)
Definition sourceList (s : Summary) (stamp : string) : list SourceEntry :=
  List.map
    (fun kv =>
       {| srcName := formatSource (fst kv);
          signalCount := snd kv;
          lastUpdate := stamp |})
    (List.filter (fun kv => 0 <? snd kv) (default [] (bySource s))).

(** [buildEmptyDashboard(now, validUntil)]. *)
Definition buildEmptyDashboard (now validUntil : Date) : IO PublicDashboard :=
  generated <- toISOString_io now ;;
  valid <- toISOString_io validUntil ;;
  ret {| meta := {| version := "2.0.0"; generatedAt := generated;
                    validUntil := valid |};
         status := {| riskLevel := LvlLow; riskScore := 0; trend := Stable;
                      confidenceLevel := 0 |};
         executive :=
           {| headline := "No Active Threats Detected";
              execSummary :=
                "No significant threat activity was identified during this analysis period. Continue monitoring for emerging threats.";
              keyFindings := [ "No critical vulnerabilities detected";
                               "No active campaigns identified" ];
              recommendedActions := [ "Maintain current security posture";
                                      "Continue routine monitoring" ] |};
         metrics := {| totalSignals := 0; criticalCount := 0; highCount := 0;
                       mediumCount := 0; lowCount := 0; categories := [] |};
         timeline := [];
         sources := [];
         displayed := {| cves := []; domains := []; ips := [];
                         keywords := [] |};
         correlationSection := None |}.

(** [buildDashboard(data, llm)]. *)
Definition buildDashboard (data : option ProcessedData)
    (llm : option Analyzer.LLMAnalysisResult) : IO PublicDashboard :=
  t <- Date_now ;;
  let now : Date := Some t in
  let validUntil : Date := timeClip (t + 6 * 60 * 60 * 1000) in
  match data with
  | None => buildEmptyDashboard now validUntil
  | Some data =>
      if (length (threats data) =? 0)%nat then
        buildEmptyDashboard now validUntil
      else
        let totalThreats :=
          if totalThreats (summary data) =? 0
          then Z.of_nat (length (threats data))
          else totalThreats (summary data) in
        let criticalCount := severityCount (summary data) sevCritical in
        let highCount := severityCount (summary data) sevHigh in
        let mediumCount := severityCount (summary data) sevMedium in
        let lowCount := severityCount (summary data) sevLow in
        let riskScore :=
          Dashboard.calculateRiskScore (inject_Z criticalCount)
            (inject_Z highCount) (inject_Z mediumCount) (inject_Z lowCount) in
        let riskLevel := Dashboard.determineRiskLevel riskScore in
        let executive :=
          buildExecutiveSummary data llm (riskLevelName riskLevel) in
        let categories := categoryBreakdown (summary data) totalThreats in
        let sources := sourceList (summary data) (Date_toISOString t) in
        let timeline := Dashboard.timeline (List.map core (threats data)) in
        let displayIndicators := extractDisplayIndicators (indicators data) in
        let confidenceLevel := calculateConfidence data llm in
        let correlation := Dashboard.buildCorrelationSection (narrow data) in
        generated <- toISOString_io now ;;
        valid <- toISOString_io validUntil ;;
        trend <- Dashboard.determineTrend (List.map core (threats data)) ;;
        ret {| meta := {| version := "2.0.0"; generatedAt := generated;
                          validUntil := valid |};
               status := {| riskLevel := riskLevel; riskScore := riskScore;
                            trend := trend;
                            confidenceLevel := confidenceLevel |};
               executive := executive;
               metrics := {| totalSignals := totalThreats;
                             criticalCount := criticalCount;
                             highCount := highCount;
                             mediumCount := mediumCount;
                             lowCount := lowCount;
                             categories := categories |};
               timeline := timeline;
               sources := sources;
               displayed := displayIndicators;
               correlationSection := correlation |}
  end.

(** [constructor()]. *)
Definition new : IO DashboardGenerator :=
  out <- getenv_or "CTI_OUTPUT_DIR" "./DATA/cti-output" ;;
  pub <- getenv_or "CTI_PUBLIC_DIR" "./eccentric-equator/public/data" ;;
  ret {| outputDir := out; publicDir := pub |}.

(** [loadJson<T>(filename)]; [None] is [null]. *)
Definition loadJson {T} {J : JSON T} (this : DashboardGenerator)
    (filename : string) : IO (option T) :=
  try_catch
    (raw <- fs_readFile (path_join (outputDir this) filename) ;;
     v <- JSON_parse_io (T := T) raw ;;
     ret (Some v))
    (fun _ => ret None).

Context {JD : JSON ProcessedData} {JL : JSON Analyzer.LLMAnalysisResult}
        {JP : JSON PublicDashboard}.

(** [saveDashboard(dashboard)]. *)
Definition saveDashboard (this : DashboardGenerator)
    (dashboard : PublicDashboard) : IO unit :=
  fs_mkdir (outputDir this) ;;
  fs_writeFile (path_join (outputDir this) "cti-dashboard.json")
               (JSON_stringify dashboard) ;;
  fs_mkdir (publicDir this) ;;
  fs_writeFile (path_join (publicDir this) "cti-dashboard.json")
               (JSON_stringify dashboard) ;;
  console_log ("[Dashboard] Saved to " ++ publicDir this
                 ++ "/cti-dashboard.json").

(** [generate()]. *)
Definition generate (this : DashboardGenerator) : IO PublicDashboard :=
  console_log "[Dashboard] Generating CTI dashboard..." ;;
  processedData <- loadJson (T := ProcessedData) this "processed-data.json" ;;
  llmAnalysis <-
    loadJson (T := Analyzer.LLMAnalysisResult) this "llm-analysis.json" ;;
  dashboard <- buildDashboard processedData llmAnalysis ;;
  saveDashboard this dashboard ;;
  console_log ("[Dashboard] Generated - Risk: "
                 ++ riskLevelName (riskLevel (status dashboard))
                 ++ ", Signals: "
                 ++ Js.string_of_Z (totalSignals (metrics dashboard))) ;;
  ret dashboard.

End WithPlatform.

End Generator.

(** ** Further sample inputs *)

Definition sampleSummary : Generator.Summary := {|
  Generator.totalThreats := 20;
  Generator.bySeverity :=
    Some {| Generator.sevCritical := Some 1; Generator.sevHigh := Some 2;
            Generator.sevMedium := None; Generator.sevLow := Some 4 |};
  Generator.byCategory :=
    Some [ ("malware", 3); ("phishing", 5); ("apt", 0); ("ddos", 5);
           ("other", 1); ("ransomware", 2); ("vulnerability", 1);
           ("data_breach", 1); ("supply_chain", 2) ];
  Generator.bySource := Some [ ("shodan", 12); ("x.com", 8) ]
|}.

(** The dashboard of a run with nothing to report, stamped at clock [t]. *)
Definition emptyDashboardAt {P : Platform} (t : Z) : Generator.PublicDashboard :=
  {| Generator.meta :=
       {| Generator.version := "2.0.0";
          Generator.generatedAt := Date_toISOString t;
          Generator.validUntil := Date_toISOString (t + 21600000) |};
     Generator.status :=
       {| Generator.riskLevel := LvlLow; Generator.riskScore := 0;
          Generator.trend := Stable; Generator.confidenceLevel := 0 |};
     Generator.executive :=
       {| Generator.headline := "No Active Threats Detected";
          Generator.execSummary :=
            "No significant threat activity was identified during this analysis period. Continue monitoring for emerging threats.";
          Generator.keyFindings := [ "No critical vulnerabilities detected";
                                     "No active campaigns identified" ];
          Generator.recommendedActions :=
            [ "Maintain current security posture";
              "Continue routine monitoring" ] |};
     Generator.metrics :=
       {| Generator.totalSignals := 0; Generator.criticalCount := 0;
          Generator.highCount := 0; Generator.mediumCount := 0;
          Generator.lowCount := 0; Generator.categories := [] |};
     Generator.timeline := [];
     Generator.sources := [];
     Generator.displayed :=
       {| Generator.cves := []; Generator.domains := [];
          Generator.ips := []; Generator.keywords := [] |};
     Generator.correlationSection := None |}.

(** The two places [saveDashboard] writes to. *)
Definition outputCopy (this : Generator.DashboardGenerator) : string :=
  path_join (Generator.outputDir this) "cti-dashboard.json".

Definition publicCopy (this : Generator.DashboardGenerator) : string :=
  path_join (Generator.publicDir this) "cti-dashboard.json".

(** What [loadJson] finds under a name: the parsed text of the file, if
    there is a file and its text parses. *)
Definition stored {T} {J : JSON T} (this : Generator.DashboardGenerator)
    (filename : string) (w : World) : option T :=
  files w !! path_join (Generator.outputDir this) filename ≫= JSON_parse.

(** A writable world after [saveDashboard] has stored [text] twice. *)
Definition savedTwice (this : Generator.DashboardGenerator) (text : string)
    (w : World) : World :=
  mkWorld (now w) (zone w)
          (<[publicCopy this := text]> (<[outputCopy this := text]> (files w)))
          (readOnly w) (env w) (latency w) (trace w).

(** Stand-ins for the three artifacts of the generator, for running the
    model: the processed data and the analysis are taken as unreadable,
    and a dashboard is written as its generation stamp. *)
Definition jsonNoData : JSON Generator.ProcessedData := {|
  JSON_stringify := fun _ => "{}";
  JSON_parse := fun _ => None
|}.

Definition jsonNoAnalysis : JSON Analyzer.LLMAnalysisResult := {|
  JSON_stringify := fun r => Analyzer.executiveSummary r;
  JSON_parse := fun _ => None
|}.

Definition jsonStamp : JSON Generator.PublicDashboard := {|
  JSON_stringify := fun d => Generator.generatedAt (Generator.meta d);
  JSON_parse := fun _ => None
|}.

Definition defaultGenerator : Generator.DashboardGenerator := {|
  Generator.outputDir := "./DATA/cti-output";
  Generator.publicDir := "./eccentric-equator/public/data"
|}.

(** A text without the character [sep]. *)
Definition free_of (sep : ascii) (s : string) : Prop :=
  ~ In sep (list_ascii_of_string s).

(** ** CTIAgentSystem: the extraction done in code *)

Module Extraction.

(** *** Input: the two scraped artifacts, as far as they are read here *)

Record Host := {
  ip : string;
  port : Z;
  product : option string;
  vulns : option (list string)
}.

Record ShodanScrapedData := {
  hosts : option (list Host)
}.

Record Post := {
  postId : option string;                  (* post.id *)
  username : string;                       (* post.author.username *)
  text : string;
  likes : Z;                               (* post.metrics.likes *)
  reposts : Z                              (* post.metrics.reposts *)
}.

Record XScrapedData := {
  posts : option (list Post)
}.

(** *** Output: [CTIAnalysis['extraction']] *)

Record IpEntry := {
  ipValue : string;
  ipPort : Z;
  service : string;
  ipUrl : string
}.

Record CveEntry := {
  cveId : string;
  cveSeverity : string;
  cveUrl : string
}.

(** One value of [MITRE_MAPPINGS]. *)
Record Technique := {
  techId : string;
  techName : string;
  tactic : string
}.

(** [{ ...mapping, evidence }]. *)
Record Ttp := {
  technique : Technique;
  evidence : string
}.

Record SocialPost := {
  author : string;
  postText : string;
  postUrl : string;
  engagement : Z
}.

Record Extracted := {
  ips : list IpEntry;
  cves : list CveEntry;
  ttps : list Ttp;
  socialPosts : list SocialPost
}.

(** *** [MITRE_MAPPINGS] *)

Definition remoteSSH : Technique :=
  {| techId := "T1021.004"; techName := "Remote Services: SSH";
     tactic := "Lateral Movement" |}.

Definition remoteRDP : Technique :=
  {| techId := "T1021.001"; techName := "Remote Services: RDP";
     tactic := "Lateral Movement" |}.

Definition remoteSMB : Technique :=
  {| techId := "T1021.002"; techName := "Remote Services: SMB";
     tactic := "Lateral Movement" |}.

Definition exploitPublicFacing : Technique :=
  {| techId := "T1190"; techName := "Exploit Public-Facing Application";
     tactic := "Initial Access" |}.

(** The entries of the table, in the order of [Object.entries]. *)
Definition MITRE_MAPPINGS : list (string * Technique) :=
  [ ("ssh", remoteSSH);
    ("rdp", remoteRDP);
    ("smb", remoteSMB);
    ("port 22", remoteSSH);
    ("port 3389", remoteRDP);
    ("port 445", remoteSMB);
    ("brute", {| techId := "T1110"; techName := "Brute Force";
                 tactic := "Credential Access" |});
    ("credential", {| techId := "T1078"; techName := "Valid Accounts";
                      tactic := "Defense Evasion" |});
    ("phishing", {| techId := "T1566"; techName := "Phishing";
                    tactic := "Initial Access" |});
    ("malware", {| techId := "T1204"; techName := "User Execution";
                   tactic := "Execution" |});
    ("ransomware", {| techId := "T1486";
                      techName := "Data Encrypted for Impact";
                      tactic := "Impact" |});
    ("c2", {| techId := "T1071"; techName := "Application Layer Protocol";
              tactic := "Command and Control" |});
    ("exfil", {| techId := "T1041"; techName := "Exfiltration Over C2";
                 tactic := "Exfiltration" |});
    ("scan", {| techId := "T1046"; techName := "Network Service Discovery";
                tactic := "Discovery" |});
    ("vuln", exploitPublicFacing);
    ("cve", exploitPublicFacing) ].

(** *** Helpers *)

(** [portToService(port)]. *)
Definition portToService (p : Z) : string :=
  let services : list (Z * string) :=
    [ (22, "SSH"); (23, "Telnet"); (80, "HTTP"); (443, "HTTPS");
      (445, "SMB"); (3389, "RDP"); (3306, "MySQL"); (5432, "PostgreSQL") ] in
  match List.find (fun kv => fst kv =? p) services with
  | Some kv => snd kv
  | None => "Port " ++ Js.string_of_Z p
  end.

(** The value of a decimal digit. *)
Definition digitValue (c : ascii) : Z := Z.of_nat (nat_of_ascii c) - 48.

(** Four digits at the front of a text, read as a number
    ([parseInt] of the group [(\d{4})]). *)
Definition fourDigits (s : string) : option Z :=
  match s with
  | String d1 (String d2 (String d3 (String d4 _))) =>
      if Dashboard.isDigit d1 && Dashboard.isDigit d2
         && Dashboard.isDigit d3 && Dashboard.isDigit d4
      then Some (((digitValue d1 * 10 + digitValue d2) * 10
                  + digitValue d3) * 10 + digitValue d4)
      else None
  | _ => None
  end.

(** [cve.match(/CVE-(\d{4})/)]: the year of the leftmost place where
    [CVE-] is followed by four digits. *)
Fixpoint matchCveYear (s : string) : option Z :=
  match s with
  | EmptyString => None
  | String _ rest =>
      match
        (if String.prefix "CVE-" s
         then fourDigits (String.substring 4 (String.length s - 4) s)
         else None)
      with
      | Some year => Some year
      | None => matchCveYear rest
      end
  end.

(** [guessCVESeverity(cve)]. *)
Definition guessCVESeverity (cve : string) : string :=
  match matchCveYear cve with
  | Some year =>
      if 2024 <=? year then "critical"
      else if 2022 <=? year then "high"
      else if 2020 <=? year then "medium"
      else "medium"
  | None => "medium"
  end.

(** A text is truthy when it is there and not empty. *)
Definition truthy (s : option string) : option string :=
  match s with
  | Some t => if String.eqb t "" then None else Some t
  | None => None
  end.

(** The double quote, as a text. *)
Definition dquote : string := String (ascii_of_nat 34) EmptyString.

(** *** [extractIndicators] *)

(** The body of [for (const cve of host.vulns)], and of the loop over the
    processed indicators: a new id is appended. *)
Definition addCve (cves : list CveEntry) (cve : string) : list CveEntry :=
  if List.existsb (fun c => String.eqb (cveId c) cve) cves then cves
  else (cves ++ [ {| cveId := cve;
                     cveSeverity := guessCVESeverity cve;
                     cveUrl := "https://nvd.nist.gov/vuln/detail/" ++ cve |} ])%list.

(** The body of [for (const host of shodan.hosts.slice(0, 20))]; the state
    is [seenIps], [ips] and [cves]. *)
Definition hostStep (st : gset string * list IpEntry * list CveEntry)
    (host : Host) : gset string * list IpEntry * list CveEntry :=
  let '(seenIps, ips, cves) := st in
  let '(seenIps', ips') :=
    if bool_decide (ip host ∈ seenIps) then (seenIps, ips)
    else ({[ ip host ]} ∪ seenIps,
          (ips ++ [ {| ipValue := ip host;
                       ipPort := port host;
                       service :=
                         match truthy (product host) with
                         | Some name => name
                         | None => portToService (port host)
                         end;
                       ipUrl := "https://www.shodan.io/host/" ++ ip host |} ])%list)
  in
  let cves' :=
    match vulns host with
    | Some vs => List.fold_left addCve vs cves
    | None => cves
    end in
  (seenIps', ips', cves').

(** [ports.has(p)] for [ports = new Set(shodan.hosts.map(h => h.port))]. *)
Definition portSeen (hs : list Host) (p : Z) : bool :=
  List.existsb (fun h => port h =? p) hs.

(** The techniques read off the open ports. *)
Definition portTtps (hs : list Host) : list Ttp :=
  ((if portSeen hs 22
    then [ {| technique := remoteSSH; evidence := "SSH exposed on port 22" |} ]
    else [])
   ++ (if portSeen hs 3389
       then [ {| technique := remoteRDP;
                 evidence := "RDP exposed on port 3389" |} ]
       else [])
   ++ (if portSeen hs 445
       then [ {| technique := remoteSMB;
                 evidence := "SMB exposed on port 445" |} ]
       else []))%list.

Section WithPlatform.

Context {P : Platform}.

(** The body of [for (const [keyword, mapping] of
    Object.entries(MITRE_MAPPINGS))] for one post. *)
Definition keywordStep (post : Post) (textLower : string)
    (ttps : list Ttp) (entry : string * Technique) : list Ttp :=
  let '(keyword, mapping) := entry in
  if Js.includes textLower keyword
     && negb (List.existsb
                (fun t => String.eqb (techId (technique t)) (techId mapping))
                ttps)
  then (ttps ++ [ {| technique := mapping;
                     evidence :=
                       "Mentioned in X.com post: " ++ dquote
                         ++ String.substring 0 50 (text post) ++ "..."
                         ++ dquote |} ])%list
  else ttps.

(** The body of [for (const post of sortedPosts)]; the state is
    [socialPosts] and [ttps]. *)
Definition postStep (st : list SocialPost * list Ttp) (post : Post)
  : list SocialPost * list Ttp :=
  let '(socialPosts, ttps) := st in
  let socialPosts' :=
    (socialPosts
       ++ [ {| author := "@" ++ username post;
               postText := String.substring 0 200 (text post);
               postUrl :=
                 match truthy (postId post) with
                 | Some i =>
                     "https://x.com/" ++ username post ++ "/status/" ++ i
                 | None => ""
                 end;
               engagement := likes post + reposts post |} ])%list in
  let textLower := String_toLowerCase (text post) in
  (socialPosts',
   List.fold_left (keywordStep post textLower) MITRE_MAPPINGS ttps).

(** The body of [for (const ioc of processed.indicators)]. *)
Definition iocStep (cves : list CveEntry) (ioc : Generator.Indicator)
  : list CveEntry :=
  if String.eqb (Generator.indType ioc) "cve"
  then addCve cves (Generator.indValue ioc)
  else cves.

(** [extractIndicators(processed, shodan, xData)]. *)
Definition extractIndicators
    (processed : option Generator.ProcessedData)
    (shodan : option ShodanScrapedData)
    (xData : option XScrapedData) : Extracted :=
  let ips0 : list IpEntry := [] in
  let cves0 : list CveEntry := [] in
  let ttps0 : list Ttp := [] in
  let socialPosts0 : list SocialPost := [] in
  (* Shodan *)
  let '(ips1, cves1, ttps1) :=
    match shodan ≫= hosts with
    | Some hs =>
        let '(_, ips, cves) :=
          List.fold_left hostStep (List.firstn 20 hs) (∅, ips0, cves0) in
        (ips, cves, (ttps0 ++ portTtps hs)%list)
    | None => (ips0, cves0, ttps0)
    end in
  (* X.com *)
  let '(socialPosts2, ttps2) :=
    match xData ≫= posts with
    | Some ps =>
        let sortedPosts :=
          List.firstn 10
            (JsArray.sortDesc (fun p => likes p + reposts p) ps) in
        List.fold_left postStep sortedPosts (socialPosts0, ttps1)
    | None => (socialPosts0, ttps1)
    end in
  (* processed indicators *)
  let cves3 :=
    match processed ≫= Generator.indicators with
    | Some iocs => List.fold_left iocStep iocs cves1
    | None => cves1
    end in
  {| ips := ips1; cves := cves3; ttps := ttps2; socialPosts := socialPosts2 |}.

End WithPlatform.

End Extraction.

(** The entries [extractIndicators] makes of a host, of a CVE id and of a
    post. *)
Definition ipEntryOf (h : Extraction.Host) : Extraction.IpEntry :=
  {| Extraction.ipValue := Extraction.ip h;
     Extraction.ipPort := Extraction.port h;
     Extraction.service :=
       match Extraction.truthy (Extraction.product h) with
       | Some name => name
       | None => Extraction.portToService (Extraction.port h)
       end;
     Extraction.ipUrl := "https://www.shodan.io/host/" ++ Extraction.ip h |}.

Definition cveEntryOf (cve : string) : Extraction.CveEntry :=
  {| Extraction.cveId := cve;
     Extraction.cveSeverity := Extraction.guessCVESeverity cve;
     Extraction.cveUrl := "https://nvd.nist.gov/vuln/detail/" ++ cve |}.

Definition socialPostOf (p : Extraction.Post) : Extraction.SocialPost :=
  {| Extraction.author := "@" ++ Extraction.username p;
     Extraction.postText := String.substring 0 200 (Extraction.text p);
     Extraction.postUrl :=
       match Extraction.truthy (Extraction.postId p) with
       | Some i =>
           "https://x.com/" ++ Extraction.username p ++ "/status/" ++ i
       | None => ""
       end;
     Extraction.engagement := Extraction.likes p + Extraction.reposts p |}.

(** The hosts, the posts and the indicators [extractIndicators] goes
    through. *)
Definition scannedHosts (shodan : option Extraction.ShodanScrapedData)
  : list Extraction.Host :=
  List.firstn 20 (default [] (shodan ≫= Extraction.hosts)).

Definition allHosts (shodan : option Extraction.ShodanScrapedData)
  : list Extraction.Host :=
  default [] (shodan ≫= Extraction.hosts).

Definition topPosts (xData : option Extraction.XScrapedData)
  : list Extraction.Post :=
  List.firstn 10
    (JsArray.sortDesc (fun p => Extraction.likes p + Extraction.reposts p)
       (default [] (xData ≫= Extraction.posts))).

Definition cveIndicators (processed : option Generator.ProcessedData)
  : list string :=
  List.map Generator.indValue
    (List.filter (fun i => String.eqb (Generator.indType i) "cve")
       (default [] (processed ≫= Generator.indicators))).

(** The vulnerability ids of a list of hosts, in order. *)
Definition vulnsOf (hs : list Extraction.Host) : list string :=
  List.concat (List.map (fun h => default [] (Extraction.vulns h)) hs).

(** The ids of the techniques in [MITRE_MAPPINGS], each once. *)
Definition knownTechniqueIds : list string :=
  [ "T1021.004"; "T1021.001"; "T1021.002"; "T1110"; "T1078"; "T1566";
    "T1204"; "T1486"; "T1071"; "T1041"; "T1046"; "T1190" ].

(** The id of a listed technique. *)
Definition ttpId (t : Extraction.Ttp) : string :=
  Extraction.techId (Extraction.technique t).

(** Two scans of one address and one of another, and three posts. *)
Definition sampleShodan : Extraction.ShodanScrapedData := {|
  Extraction.hosts :=
    Some [ {| Extraction.ip := "198.51.100.7"; Extraction.port := 22;
              Extraction.product := Some "OpenSSH";
              Extraction.vulns := Some ["CVE-2024-6387"; "CVE-2023-38408"] |};
           {| Extraction.ip := "198.51.100.7"; Extraction.port := 443;
              Extraction.product := None;
              Extraction.vulns := Some ["CVE-2024-6387"] |};
           {| Extraction.ip := "203.0.113.9"; Extraction.port := 3389;
              Extraction.product := Some "";
              Extraction.vulns := None |} ]
|}.

Definition sampleX : Extraction.XScrapedData := {|
  Extraction.posts :=
    Some [ {| Extraction.postId := Some "1"; Extraction.username := "a";
              Extraction.text := "new ransomware wave";
              Extraction.likes := 3; Extraction.reposts := 1 |};
           {| Extraction.postId := None; Extraction.username := "b";
              Extraction.text := "ssh brute force everywhere";
              Extraction.likes := 10; Extraction.reposts := 5 |};
           {| Extraction.postId := Some "3"; Extraction.username := "c";
              Extraction.text := "nothing to see";
              Extraction.likes := 2; Extraction.reposts := 2 |} ]
|}.

(** ** LLMAnalyzer: normalisation, prompt, and the run *)

Module LLM.

(** [s.toUpperCase()], a library function. *)
Class Casing := {
  String_toUpperCase : string -> string
}.

(** The generation endpoint and the parser of its answer.  [parseResponse]
    ends in [buildResult], which reads the clock. *)
Class Ollama := {
  callOllama : string -> IO string;
  parseResponse : string -> Analyzer.NormalizedData
                  -> IO Analyzer.LLMAnalysisResult
}.

(** The field of the analyzer object. *)
Record LLMAnalyzer := {
  outputDir : string
}.

(** [const OLLAMA_HOST = process.env.OLLAMA_HOST || 'http://localhost:11434'] *)
Definition OLLAMA_HOST : IO string :=
  getenv_or "OLLAMA_HOST" "http://localhost:11434".

(** *** Helpers *)

(** [truncate(s, len)]. *)
Definition truncate (s : string) (len : Z) : string :=
  if len <? Z.of_nat (String.length s)
  then String.substring 0 (Z.to_nat (len - 3)) s ++ "..."
  else s.

(** [getTopKey(obj)], on the entries of the object. *)
Definition getTopKey (obj : list (string * Z)) : string :=
  match head (JsArray.sortDesc snd obj) with
  | Some kv => if String.eqb (fst kv) "" then "unknown" else fst kv
  | None => "unknown"
  end.

(** [acc[ty] = (acc[ty] || 0) + 1] on the entries of [acc]: a known key
    is counted up in place, a new key goes to the end. *)
Fixpoint bump (acc : list (string * Z)) (ty : string) : list (string * Z) :=
  match acc with
  | [] => [(ty, 1)]
  | kv :: rest =>
      if String.eqb (fst kv) ty
      then (fst kv, (if snd kv =? 0 then 0 else snd kv) + 1) :: rest
      else kv :: bump rest ty
  end.

(** [[...new Set(values)]]: each value once, at its first place. *)
Definition unique (values : list string) : list string :=
  List.fold_left
    (fun seen v => if List.existsb (String.eqb v) seen then seen
                   else (seen ++ [v])%list)
    values [].

(** A [TypeError] of the runtime. *)
Definition TypeError {A} (what : string) : IO A := throw (Error what).

(** [xs.map(f)] for an [f] that can throw. *)
Fixpoint mapIO {A B} (f : A -> IO B) (xs : list A) : IO (list B) :=
  match xs with
  | [] => ret []
  | x :: rest =>
      y <- f x ;;
      ys <- mapIO f rest ;;
      ret (y :: ys)
  end.

Section WithPlatform.

Context {P : Platform} {C : Casing}.

(** [shortCategory(cat)].  Category names that are also members of
    [Object.prototype] are outside the model. *)
Definition shortCategory (cat : string) : string :=
  let table : list (string * string) :=
    [ ("malware", "MAL"); ("ransomware", "RAN"); ("phishing", "PHI");
      ("ddos", "DDOS"); ("apt", "APT"); ("vulnerability", "VUL");
      ("data_breach", "BRE"); ("supply_chain", "SUP"); ("other", "OTH") ] in
  match List.find (fun kv => String.eqb (fst kv) cat) table with
  | Some kv => snd kv
  | None => String_toUpperCase (String.substring 0 3 cat)
  end.

(** The body of the [map] over the first five threats;
    [t.severity[0]] is [undefined] for an empty severity, and calling
    [toUpperCase] on it throws. *)
Definition topThreatOf (t : Generator.Threat) : IO Analyzer.TopThreat :=
  match Dashboard.severity (Generator.core t) with
  | EmptyString =>
      TypeError "Cannot read properties of undefined (reading 'toUpperCase')"
  | String c _ =>
      ret {| Analyzer.sev := String_toUpperCase (String c EmptyString);
             Analyzer.cat :=
               shortCategory (Dashboard.category (Generator.core t));
             Analyzer.threatTitle :=
               truncate (Dashboard.title (Generator.core t)) 40 |}
  end.

(** [normalizeForLLM(data)].  The key [critical] of [summary.bySeverity] is
    taken to be [ThreatSeverity.CRITICAL], and likewise [high] and
    [medium].  Indicator types that are array indices or members of
    [Object.prototype] are outside the model. *)
Definition normalizeForLLM (data : Generator.ProcessedData)
  : IO Analyzer.NormalizedData :=
  topThreats <- mapIO topThreatOf (List.firstn 5 (Generator.threats data)) ;;
  match Generator.indicators data with
  | None => TypeError "Cannot read properties of undefined (reading 'reduce')"
  | Some indicators =>
      let iocCounts :=
        List.fold_left (fun acc i => bump acc (Generator.indType i))
                       indicators [] in
      let cves :=
        List.firstn 5
          (unique
             (List.map Generator.indValue
                (List.filter
                   (fun i => String.eqb (Generator.indType i) "cve")
                   indicators))) in
      match Generator.bySeverity (Generator.summary data) with
      | None =>
          TypeError "Cannot read properties of undefined (reading 'critical')"
      | Some counts =>
          match Generator.byCategory (Generator.summary data),
                Generator.bySource (Generator.summary data) with
          | Some categories, Some sources =>
              ret {| Analyzer.threatCount :=
                       Generator.totalThreats (Generator.summary data);
                     Analyzer.critical :=
                       Generator.orZero (Generator.sevCritical counts);
                     Analyzer.high :=
                       Generator.orZero (Generator.sevHigh counts);
                     Analyzer.medium :=
                       Generator.orZero (Generator.sevMedium counts);
                     Analyzer.topCategory := getTopKey categories;
                     Analyzer.topThreats := topThreats;
                     Analyzer.iocCounts := iocCounts;
                     Analyzer.cves := cves;
                     Analyzer.sources := List.map fst sources |}
          | _, _ => TypeError "Cannot convert undefined or null to object"
          end
      end
  end.

(** [buildCompactPrompt(d)]. *)
Definition buildCompactPrompt (d : Analyzer.NormalizedData) : string :=
  let threatList :=
    String.concat Js.nl
      (List.map
         (fun t => "[" ++ Analyzer.sev t ++ "] " ++ Analyzer.cat t ++ ": "
                     ++ Analyzer.threatTitle t)
         (Analyzer.topThreats d)) in
  let cveList :=
    let joined := String.concat ", " (Analyzer.cves d) in
    if String.eqb joined "" then "none" else joined in
  "CTI Report. Answer JSON only." ++ Js.nl
    ++ "Stats: " ++ Js.string_of_Z (Analyzer.threatCount d) ++ " threats, "
    ++ Js.string_of_Z (Analyzer.critical d) ++ " critical, "
    ++ Js.string_of_Z (Analyzer.high d) ++ " high" ++ Js.nl
    ++ "Top category: " ++ Analyzer.topCategory d ++ Js.nl
    ++ "CVEs: " ++ cveList ++ Js.nl
    ++ "IOCs: "
    ++ String.concat ", "
         (List.map (fun kv => fst kv ++ ":" ++ Js.string_of_Z (snd kv))
                   (Analyzer.iocCounts d))
    ++ Js.nl ++ Js.nl
    ++ "Threats:" ++ Js.nl
    ++ threatList ++ Js.nl ++ Js.nl
    ++ "Output format:" ++ Js.nl
    ++ "{" ++ Extraction.dquote ++ "risk" ++ Extraction.dquote ++ ":"
    ++ Extraction.dquote ++ "critical|high|medium|low" ++ Extraction.dquote
    ++ "," ++ Extraction.dquote ++ "summary" ++ Extraction.dquote ++ ":"
    ++ Extraction.dquote ++ "1 sentence" ++ Extraction.dquote
    ++ "," ++ Extraction.dquote ++ "action" ++ Extraction.dquote ++ ":"
    ++ Extraction.dquote ++ "1 priority action" ++ Extraction.dquote ++ "}".

(** [emptyResult()]. *)
Definition emptyResult : IO Analyzer.LLMAnalysisResult :=
  t <- Date_now ;;
  stamp <- toISOString_io (Some t) ;;
  ret {| Analyzer.insights := [];
         Analyzer.executiveSummary := "Sin datos para analizar.";
         Analyzer.technicalSummary := "Ejecutar scrapers primero.";
         Analyzer.recommendations :=
           [ "Ejecutar pipeline con scrapers habilitados" ];
         Analyzer.trendingTopics := [];
         Analyzer.analysisTimestamp := stamp;
         Analyzer.model := "none";
         Analyzer.tokenUsage :=
           {| Analyzer.input := 0; Analyzer.output := 0;
              Analyzer.total := 0 |} |}.

Context {JD : JSON Generator.ProcessedData}
        {JL : JSON Analyzer.LLMAnalysisResult} {O : Ollama}.

(** [constructor()]. *)
Definition new : IO LLMAnalyzer :=
  out <- getenv_or "CTI_OUTPUT_DIR" "./DATA/cti-output" ;;
  ret {| outputDir := out |}.

(** [loadData()]; [None] is [null]. *)
Definition loadData (this : LLMAnalyzer)
  : IO (option Generator.ProcessedData) :=
  try_catch
    (raw <- fs_readFile (path_join (outputDir this) "processed-data.json") ;;
     v <- JSON_parse_io (T := Generator.ProcessedData) raw ;;
     ret (Some v))
    (fun _ => ret None).

(** [saveResult(result)]. *)
Definition saveResult (this : LLMAnalyzer)
    (result : Analyzer.LLMAnalysisResult) : IO unit :=
  fs_mkdir (outputDir this) ;;
  fs_writeFile (path_join (outputDir this) "llm-analysis.json")
               (JSON_stringify result).

(** [analyze()]. *)
Definition analyze (this : LLMAnalyzer) : IO Analyzer.LLMAnalysisResult :=
  model <- Analyzer.OLLAMA_MODEL ;;
  host <- OLLAMA_HOST ;;
  console_log ("[LLM] Ollama " ++ model ++ " @ " ++ host) ;;
  data <- loadData this ;;
  match data with
  | None =>
      console_log "[LLM] No data - using empty result" ;;
      emptyResult
  | Some data =>
      if (length (Generator.threats data) =? 0)%nat then
        console_log "[LLM] No data - using empty result" ;;
        emptyResult
      else
        normalized <- normalizeForLLM data ;;
        let prompt := buildCompactPrompt normalized in
        console_log ("[LLM] Prompt: "
                       ++ Js.string_of_Z (Z.of_nat (String.length prompt))
                       ++ " chars, "
                       ++ Js.string_of_Z (Analyzer.threatCount normalized)
                       ++ " threats") ;;
        try_catch
          (response <- callOllama prompt ;;
           result <- parseResponse response normalized ;;
           saveResult this result ;;
           ret result)
          (fun _ =>
             console_log "[LLM] Ollama failed, using heuristics" ;;
             result <- Analyzer.heuristicAnalysis normalized ;;
             saveResult this result ;;
             ret result)
  end.

End WithPlatform.

End LLM.

(** The sum of the counts of a table. *)
Definition totalOf (counts : list (string * Z)) : Z :=
  List.fold_right Z.add 0 (List.map snd counts).

(** A stand-in for [toUpperCase], for running the model: it leaves the
    text as it is. *)
Definition keepCase : LLM.Casing := {|
  LLM.String_toUpperCase := fun s => s
|}.

Definition sampleProcessed : Generator.ProcessedData := {|
  Generator.threats :=
    [ {| Generator.core := maskedThreat;
         Generator.threatSources := Some [SHODAN] |};
      {| Generator.core := leakyThreat;
         Generator.threatSources := Some [X_COM] |} ];
  Generator.summary := sampleSummary;
  Generator.indicators :=
    Some [ {| Generator.indType := "cve";
              Generator.indValue := "CVE-2024-3400" |};
           {| Generator.indType := "ip";
              Generator.indValue := "203.0.113.9" |};
           {| Generator.indType := "cve";
              Generator.indValue := "CVE-2024-3400" |};
           {| Generator.indType := "cve";
              Generator.indValue := "CVE-2023-4966" |} ];
  Generator.correlation := None
|}.

(** What [loadData] finds: the parsed text of [processed-data.json], if
    the file is there and its text parses. *)
Definition analyzerInput {JD : JSON Generator.ProcessedData}
    (this : LLM.LLMAnalyzer) (w : World) : option Generator.ProcessedData :=
  files w !! path_join (LLM.outputDir this) "processed-data.json"
    ≫= JSON_parse.

(** Where [saveResult] writes. *)
Definition analysisFile (this : LLM.LLMAnalyzer) : string :=
  path_join (LLM.outputDir this) "llm-analysis.json".

(** A generation endpoint that is down. *)
Definition endpointDown (O : LLM.Ollama) : Prop :=
  forall prompt w, exists e, LLM.callOllama prompt w = (Throw e, w).

(** Stand-ins for running the analyzer: an endpoint that refuses the
    connection, processed data that parse to the sample whatever the text,
    and an analysis written as its model tag. *)
Definition refusing : LLM.Ollama := {|
  LLM.callOllama := fun _ => throw (Error "fetch failed");
  LLM.parseResponse := fun _ d => Analyzer.heuristicAnalysis (P := Fixtures.platform) d
|}.

Definition jsonSample : JSON Generator.ProcessedData := {|
  JSON_stringify := fun _ => "{}";
  JSON_parse := fun _ => Some sampleProcessed
|}.

Definition jsonModelTag : JSON Analyzer.LLMAnalysisResult := {|
  JSON_stringify := fun r => Analyzer.model r;
  JSON_parse := fun _ => None
|}.

Definition defaultAnalyzer : LLM.LLMAnalyzer := {|
  LLM.outputDir := "./DATA/cti-output"
|}.

(* ===================================================================== *)
(** * Part II. Properties                                                 *)
(* ===================================================================== *)

(** ** Numbers *)

Lemma ge_true_iff (a b : Q) : Js.ge a b = true <-> (b <= a)%Q.
Proof. unfold Js.ge. apply Qle_bool_iff. Qed.

Lemma ge_false_iff (a b : Q) : Js.ge a b = false <-> (a < b)%Q.
Proof.
  unfold Js.ge. split; intros H.
  - apply Qnot_le_lt. intros Hle. apply Qle_bool_iff in Hle. congruence.
  - destruct (Qle_bool b a) eqn:E; [|reflexivity].
    apply Qle_bool_iff in E. exfalso. exact (Qlt_not_le _ _ H E).
Qed.

Lemma gt_true_iff (a b : Q) : Js.gt a b = true <-> (b < a)%Q.
Proof.
  unfold Js.gt. rewrite negb_true_iff. exact (ge_false_iff b a).
Qed.

Lemma lt_true_iff (a b : Q) : Js.lt a b = true <-> (a < b)%Q.
Proof.
  unfold Js.lt. rewrite negb_true_iff. exact (ge_false_iff a b).
Qed.

(** [Math.round] leaves an integer unchanged. *)
Lemma Math_round_integer (n : Z) : Js.Math_round (inject_Z n) = inject_Z n.
Proof.
  unfold Js.Math_round. f_equal.
  assert (Hlo : (n <= Qfloor (inject_Z n + (1 # 2)))%Z).
  { rewrite <- (Qfloor_Z n) at 1. apply Qfloor_resp_le.
    rewrite <- (Qplus_0_r (inject_Z n)) at 1.
    apply Qplus_le_r. discriminate. }
  assert (Hhi : (Qfloor (inject_Z n + (1 # 2)) < n + 1)%Z).
  { rewrite Zlt_Qlt. eapply Qle_lt_trans; [apply Qfloor_le|].
    rewrite inject_Z_plus. apply Qplus_lt_r. reflexivity. }
  lia.
Qed.

(** [Math.round] is monotone. *)
Lemma Math_round_mono (x y : Q) :
  (x <= y)%Q -> (Js.Math_round x <= Js.Math_round y)%Q.
Proof.
  intros H. unfold Js.Math_round. rewrite <- Zle_Qle.
  apply Qfloor_resp_le. apply Qplus_le_l. exact H.
Qed.

Lemma Math_round_nonneg (x : Q) : (0 <= x)%Q -> (0 <= Js.Math_round x)%Q.
Proof.
  intros H.
  change 0%Q with (inject_Z 0). rewrite <- (Math_round_integer 0).
  apply Math_round_mono. exact H.
Qed.

(** ** Risk score and level *)

Lemma calculateRiskScore_counts (critical high medium low : Z) :
  Dashboard.calculateRiskScore
    (inject_Z critical) (inject_Z high) (inject_Z medium) (inject_Z low)
  = inject_Z (Z.min 100 (critical * 40 + high * 20 + medium * 5 + low * 1)).
Proof.
  unfold Dashboard.calculateRiskScore.
  set (n := critical * 40 + high * 20 + medium * 5 + low * 1).
  assert (Hsum : (inject_Z critical * 40 + inject_Z high * 20
                  + inject_Z medium * 5 + inject_Z low * 1 == inject_Z n)%Q).
  { unfold n. rewrite !inject_Z_plus, !inject_Z_mult. reflexivity. }
  assert (Hr : Js.Math_round (inject_Z critical * 40 + inject_Z high * 20
                  + inject_Z medium * 5 + inject_Z low * 1) = inject_Z n).
  { rewrite <- (Math_round_integer n). unfold Js.Math_round.
    f_equal. apply Qfloor_comp. rewrite Hsum. reflexivity. }
  rewrite Hr. unfold Js.Math_min, Qmin, GenericMinMax.gmin.
  change 100%Q with (inject_Z 100).
  destruct (inject_Z 100 ?= inject_Z n)%Q eqn:E.
  - apply Qeq_alt in E. unfold Qeq in E. simpl in E.
    f_equal. lia.
  - apply Qlt_alt in E. rewrite <- Zlt_Qlt in E.
    f_equal. lia.
  - apply Qgt_alt in E. rewrite <- Zlt_Qlt in E.
    f_equal. lia.
Qed.

Lemma determineRiskLevel_critical (score : Q) :
  Dashboard.determineRiskLevel score = LvlCritical <-> (75 <= score)%Q.
Proof.
  unfold Dashboard.determineRiskLevel.
  destruct (Js.ge score 75) eqn:E75.
  - apply ge_true_iff in E75. tauto.
  - apply ge_false_iff in E75.
    split.
    + destruct (Js.ge score 45); [discriminate|].
      destruct (Js.ge score 15); discriminate.
    + intros H. exfalso. exact (Qlt_not_le _ _ E75 H).
Qed.

Lemma determineRiskLevel_elevated (score : Q) :
  Dashboard.determineRiskLevel score = LvlElevated
  <-> (45 <= score)%Q /\ (score < 75)%Q.
Proof.
  unfold Dashboard.determineRiskLevel.
  destruct (Js.ge score 75) eqn:E75.
  - apply ge_true_iff in E75. split; [discriminate|].
    intros [_ H]. exfalso. exact (Qlt_not_le _ _ H E75).
  - apply ge_false_iff in E75.
    destruct (Js.ge score 45) eqn:E45.
    + apply ge_true_iff in E45. tauto.
    + apply ge_false_iff in E45. split.
      * destruct (Js.ge score 15); discriminate.
      * intros [H _]. exfalso. exact (Qlt_not_le _ _ E45 H).
Qed.

Lemma determineRiskLevel_moderate (score : Q) :
  Dashboard.determineRiskLevel score = LvlModerate
  <-> (15 <= score)%Q /\ (score < 45)%Q.
Proof.
  unfold Dashboard.determineRiskLevel.
  destruct (Js.ge score 75) eqn:E75.
  - apply ge_true_iff in E75. split; [discriminate|].
    intros [_ H]. exfalso.
    apply (Qlt_not_le _ _ H). eapply Qle_trans; [|exact E75]. discriminate.
  - destruct (Js.ge score 45) eqn:E45.
    + apply ge_true_iff in E45. split; [discriminate|].
      intros [_ H]. exfalso. exact (Qlt_not_le _ _ H E45).
    + apply ge_false_iff in E45.
      destruct (Js.ge score 15) eqn:E15.
      * apply ge_true_iff in E15. tauto.
      * apply ge_false_iff in E15. split; [discriminate|].
        intros [H _]. exfalso. exact (Qlt_not_le _ _ E15 H).
Qed.

Lemma determineRiskLevel_low (score : Q) :
  Dashboard.determineRiskLevel score = LvlLow <-> (score < 15)%Q.
Proof.
  unfold Dashboard.determineRiskLevel.
  destruct (Js.ge score 75) eqn:E75.
  - apply ge_true_iff in E75. split; [discriminate|].
    intros H. exfalso.
    apply (Qlt_not_le _ _ H). eapply Qle_trans; [|exact E75]. discriminate.
  - destruct (Js.ge score 45) eqn:E45.
    + apply ge_true_iff in E45. split; [discriminate|].
      intros H. exfalso.
      apply (Qlt_not_le _ _ H). eapply Qle_trans; [|exact E45]. discriminate.
    + destruct (Js.ge score 15) eqn:E15.
      * apply ge_true_iff in E15. split; [discriminate|].
        intros H. exfalso. exact (Qlt_not_le _ _ H E15).
      * apply ge_false_iff in E15. tauto.
Qed.

(** The four threshold values themselves fall on the upper side. *)
Example determineRiskLevel_boundaries :
  Dashboard.determineRiskLevel 75 = LvlCritical
  /\ Dashboard.determineRiskLevel 74 = LvlElevated
  /\ Dashboard.determineRiskLevel 45 = LvlElevated
  /\ Dashboard.determineRiskLevel 44 = LvlModerate
  /\ Dashboard.determineRiskLevel 15 = LvlModerate
  /\ Dashboard.determineRiskLevel 14 = LvlLow.
Proof. repeat split; reflexivity. Qed.

(** C1. For severity counts [critical], [high], [medium], [low], the score
    of [calculateRiskScore] is [min(100, round(critical*40 + high*20 +
    medium*5 + low*1))], which on integer counts is
    [min(100, critical*40 + high*20 + medium*5 + low)]; [determineRiskLevel]
    answers 'critical' exactly when [score >= 75], 'elevated' exactly when
    [45 <= score < 75], 'moderate' exactly when [15 <= score < 45] and 'low'
    exactly when [score < 15]; counts [(2, 1, 0, 0)] give score 100 and
    level 'critical'. *)
Theorem C1_risk_score_and_level :
  (forall critical high medium low : Q,
      Dashboard.calculateRiskScore critical high medium low
      = Js.Math_min 100
          (Js.Math_round (critical * 40 + high * 20 + medium * 5 + low * 1)%Q))
  /\ (forall critical high medium low : Z,
      0 <= critical -> 0 <= high -> 0 <= medium -> 0 <= low ->
      Dashboard.calculateRiskScore
        (inject_Z critical) (inject_Z high) (inject_Z medium) (inject_Z low)
      = inject_Z (Z.min 100 (critical * 40 + high * 20 + medium * 5 + low * 1)))
  /\ (forall score : Q,
      (Dashboard.determineRiskLevel score = LvlCritical <-> (75 <= score)%Q)
      /\ (Dashboard.determineRiskLevel score = LvlElevated
          <-> (45 <= score)%Q /\ (score < 75)%Q)
      /\ (Dashboard.determineRiskLevel score = LvlModerate
          <-> (15 <= score)%Q /\ (score < 45)%Q)
      /\ (Dashboard.determineRiskLevel score = LvlLow <-> (score < 15)%Q))
  /\ Dashboard.calculateRiskScore 2 1 0 0 = 100%Q
  /\ Dashboard.determineRiskLevel (Dashboard.calculateRiskScore 2 1 0 0)
     = LvlCritical.
Proof.
  split; [reflexivity|].
  split; [intros; apply calculateRiskScore_counts|].
  split.
  - intros score.
    split; [apply determineRiskLevel_critical|].
    split; [apply determineRiskLevel_elevated|].
    split; [apply determineRiskLevel_moderate|apply determineRiskLevel_low].
  - split; reflexivity.
Qed.

Lemma C1_risk_score_and_level_witness :
  Dashboard.calculateRiskScore (inject_Z 1) (inject_Z 1) (inject_Z 2) (inject_Z 3)
  = inject_Z 73
  /\ Dashboard.determineRiskLevel 75 = LvlCritical.
Proof.
  destruct C1_risk_score_and_level as (_ & Hcounts & Hlevel & _).
  split.
  - apply (Hcounts 1 1 2 3); lia.
  - apply (Hlevel 75%Q). discriminate.
Defined.

(** C8. For non-negative [critical], [high], [medium], [low], one more
    critical signal never lowers the score of [calculateRiskScore], and the
    score lies in [[0, 100]]. *)
Theorem C8_risk_score_monotone_bounded (critical high medium low : Q) :
  (0 <= critical)%Q -> (0 <= high)%Q -> (0 <= medium)%Q -> (0 <= low)%Q ->
  (Dashboard.calculateRiskScore critical high medium low
   <= Dashboard.calculateRiskScore (critical + 1) high medium low)%Q
  /\ (0 <= Dashboard.calculateRiskScore critical high medium low)%Q
  /\ (Dashboard.calculateRiskScore critical high medium low <= 100)%Q.
Proof.
  intros Hc Hh Hm Hl. unfold Dashboard.calculateRiskScore, Js.Math_min.
  split; [|split].
  - apply Q.min_le_compat_l. apply Math_round_mono. lra.
  - apply Q.min_glb; [discriminate|].
    apply Math_round_nonneg. lra.
  - apply Q.le_min_l.
Qed.

Lemma C8_risk_score_monotone_bounded_witness :
  (Dashboard.calculateRiskScore 1 1 1 1
   <= Dashboard.calculateRiskScore (1 + 1) 1 1 1)%Q
  /\ (0 <= Dashboard.calculateRiskScore 1 1 1 1)%Q
  /\ (Dashboard.calculateRiskScore 1 1 1 1 <= 100)%Q.
Proof.
  apply (C8_risk_score_monotone_bounded 1 1 1 1); discriminate.
Defined.

(** ** The IO monad *)

Lemma bind_ret_l {A B} (a : A) (k : A -> IO B) (w : World) :
  bind (ret a) k w = k a w.
Proof. reflexivity. Qed.

Lemma bind_Ret {A B} (c : IO A) (k : A -> IO B) (w w' : World) (a : A) :
  c w = (Ret a, w') -> bind c k w = k a w'.
Proof. intros E. unfold bind. rewrite E. reflexivity. Qed.

Lemma bind_Throw {A B} (c : IO A) (k : A -> IO B) (w w' : World) (e : Exn) :
  c w = (Throw e, w') -> bind c k w = (Throw e, w').
Proof. intros E. unfold bind. rewrite E. reflexivity. Qed.

Lemma returns_ret {A} (a : A) : returns (ret a).
Proof. intros w. exists a, w. reflexivity. Qed.

Lemma returns_bind {A B} (c : IO A) (k : A -> IO B) :
  returns c -> (forall a, returns (k a)) -> returns (bind c k).
Proof.
  intros Hc Hk w. destruct (Hc w) as (a & w' & E).
  destruct (Hk a w') as (b & w'' & E').
  exists b, w''. rewrite (bind_Ret _ _ _ _ _ E). exact E'.
Qed.

(** [try]/[catch] returns as soon as its handler does, whatever the body
    does. *)
Lemma returns_try_catch {A} (body : IO A) (handler : Exn -> IO A) :
  (forall e, returns (handler e)) -> returns (try_catch body handler).
Proof.
  intros Hh w. unfold try_catch.
  destruct (body w) as [[a | e] w'] eqn:E.
  - exists a, w'. reflexivity.
  - apply Hh.
Qed.

Lemma returns_emit (e : Event) : returns (emit e).
Proof. intros w. eexists _, _. reflexivity. Qed.

Lemma returns_sleep (ms : Js.Num) : returns (sleep ms).
Proof. intros w. eexists _, _. reflexivity. Qed.

Lemma returns_Date_now : returns Date_now.
Proof. intros w. eexists _, _. reflexivity. Qed.

Lemma returns_getenv (name : string) : returns (getenv name).
Proof. intros w. eexists _, _. reflexivity. Qed.

Lemma returns_if {A} (b : bool) (c1 c2 : IO A) :
  returns c1 -> returns c2 -> returns (if b then c1 else c2).
Proof. destruct b; tauto. Qed.

(** ** Rate limiting *)

Section RateLimitFacts.

Context {P : Platform} {T : Type} {impl : Scraper.ScraperImpl T}.

Lemma Qtrunc_integer (n : Z) : Qtrunc (inject_Z n) = n.
Proof. unfold Qtrunc. simpl. apply Z.quot_1_r. Qed.

Lemma Qtrunc_nonneg_floor (x : Q) : (0 <= x)%Q -> Qtrunc x = Qfloor x.
Proof.
  intros Hx. destruct x as [n d]. unfold Qtrunc, Qfloor. simpl.
  apply Z.quot_div_nonneg; [|lia].
  unfold Qle in Hx. simpl in Hx. lia.
Qed.

Lemma Qle_bool_false (a b : Q) : Qle_bool a b = false <-> (b < a)%Q.
Proof.
  split.
  - intros Hf. apply Qnot_le_lt. intros Hle.
    apply Qle_bool_iff in Hle. congruence.
  - intros Hlt. destruct (Qle_bool a b) eqn:E; [|reflexivity].
    apply Qle_bool_iff in E. exfalso. exact (Qlt_not_le _ _ Hlt E).
Qed.

(** The timer never takes less than 1 ms. *)
Lemma timerDelay_pos (ms : Js.Num) : 1 <= timerDelay ms.
Proof.
  destruct ms as [q|]; simpl; [|lia].
  destruct (Qle_bool 1 q) eqn:E1; simpl; [|lia].
  destruct (Qle_bool q (inject_Z TIMEOUT_MAX)); [|lia].
  apply Qle_bool_iff in E1.
  rewrite (Qtrunc_nonneg_floor q) by lra.
  change 1 with (Qfloor 1). apply Qfloor_resp_le. exact E1.
Qed.



Lemma timerDelay_lower (q : Q) :
  (0 <= q)%Q -> (q <= inject_Z TIMEOUT_MAX)%Q ->
  Qtrunc q <= timerDelay (Js.Finite q).
Proof.
  intros Hlo Hhi. simpl.
  destruct (Qle_bool 1 q) eqn:E1; simpl.
  - apply Qle_bool_iff in Hhi. rewrite Hhi. lia.
  - apply Qle_bool_false in E1.
    rewrite (Qtrunc_nonneg_floor q Hlo).
    assert (Qfloor q <= Qfloor 1) by (apply Qfloor_resp_le; lra).
    change (Qfloor 1) with 1 in *. lia.
Qed.

(** A delay the timer can take moves the clock by more than [ms - 1], and
    by at least [ms] when [ms] is whole. *)
Lemma sleep_advances (ms : Q) (w : World) :
  (0 <= ms)%Q -> (ms <= inject_Z TIMEOUT_MAX)%Q ->
  (inject_Z (now w) + ms - 1
   < inject_Z (now (snd (sleep (Js.Finite ms) w))))%Q.
Proof.
  intros Hms Hmax. unfold sleep. cbn [snd now].
  pose proof (timerDelay_lower ms Hms Hmax) as Hd.
  rewrite (Qtrunc_nonneg_floor _ Hms) in Hd.
  set (late := match latency w with [] => 0 | l :: _ => Z.of_N l end).
  assert (Hlate : 0 <= late) by (unfold late; destruct (latency w); lia).
  assert (Hfl : (ms < inject_Z (Qfloor ms) + 1)%Q).
  { pose proof (Qlt_floor ms) as Hfl. rewrite inject_Z_plus in Hfl.
    exact Hfl. }
  assert (Hz : (inject_Z (Qfloor ms)
                <= inject_Z (timerDelay (Js.Finite ms) + late))%Q).
  { rewrite <- Zle_Qle. lia. }
  rewrite <- Z.add_assoc. rewrite (inject_Z_plus (now w)).
  lra.
Qed.

Lemma applyRateLimit_returns (this : Scraper.BaseScraper) :
  returns (Scraper.applyRateLimit this).
Proof.
  unfold Scraper.applyRateLimit.
  apply returns_bind; [apply returns_Date_now|]. intros t0.
  apply returns_bind.
  - apply returns_if; [|apply returns_ret].
    apply returns_bind; [apply returns_emit|]. intros _. apply returns_sleep.
  - intros _. apply returns_bind; [apply returns_Date_now|].
    intros t1. apply returns_ret.
Qed.

End RateLimitFacts.

Section RateLimitSteps.

Context {P : Platform} {T : Type} {impl : Scraper.ScraperImpl T}.











End RateLimitSteps.




(** ** The cache read *)

Section CacheFacts.

Context {P : Platform} {T : Type} {JT : JSON T}
        {JM : JSON Scraper.CacheMetadata} {impl : Scraper.ScraperImpl T}.

Lemma loadFromCache_returns (this : Scraper.BaseScraper) :
  returns (Scraper.loadFromCache this).
Proof.
  unfold Scraper.loadFromCache. apply returns_try_catch. intros e.
  apply returns_bind; [apply returns_emit|]. intros _. apply returns_ret.
Qed.

(** Whatever the body of the [try] throws becomes [null]. *)
Lemma try_catch_null {A} (body : IO (option A)) (line : string)
      (w w' : World) (e : Exn) :
  body w = (Throw e, w') ->
  fst (try_catch body (fun _ => console_log line ;; ret None) w) = Ret None.
Proof. intros E. unfold try_catch. rewrite E. reflexivity. Qed.

Lemma try_catch_value {A} (body : IO A) (handler : Exn -> IO A)
      (w w' : World) (a : A) :
  body w = (Ret a, w') -> try_catch body handler w = (Ret a, w').
Proof. intros E. unfold try_catch. rewrite E. reflexivity. Qed.

Lemma Qfloor_add_Z (n : Z) (x : Q) :
  Qfloor (inject_Z n + x) = n + Qfloor x.
Proof.
  destruct x as [a d]. unfold Qfloor, Qplus, inject_Z. simpl.
  rewrite Z.mul_1_r. apply Z.div_add_l. lia.
Qed.

Lemma hour_decomposition (local : Z) :
  (local / msPerDay) * msPerDay
  + ((local / msPerHour) mod 24) * msPerHour
  + local mod msPerHour = local.
Proof.
  unfold msPerDay, msPerHour.
  pose proof (Z.div_mod local 3600000 ltac:(lia)) as H1.
  pose proof (Z.div_mod (local / 3600000) 24 ltac:(lia)) as H2.
  assert (H3 : local / 3600000 / 24 = local / 86400000).
  { rewrite Z.div_div by lia. reflexivity. }
  lia.
Qed.

(** Adding [ttl >= 0] hours through [setHours(getHours() + ttl)] moves
    the local time forward by the whole hours of [ttl]. *)
Lemma setHours_getHours_local (tz : Zone) (created : Z) (ttl : Q) :
  (0 <= ttl)%Q ->
  Date_setHours tz (Some created)
    (h ← Date_getHours tz (Some created); Some (inject_Z h + ttl)%Q)
  = timeClip (UTC tz (LocalTime tz created + Qfloor ttl * msPerHour)).
Proof.
  intros Httl. unfold Date_setHours, Date_getHours. simpl.
  set (local := LocalTime tz created).
  set (h := (local / msPerHour) mod 24).
  assert (Hh : 0 <= h).
  { unfold h, msPerHour. apply Z.mod_pos_bound. lia. }
  assert (Hsum : (0 <= inject_Z h + ttl)%Q).
  { assert (0 <= inject_Z h)%Q by (change 0%Q with (inject_Z 0);
                                    rewrite <- Zle_Qle; exact Hh).
    lra. }
  rewrite (Qtrunc_nonneg_floor _ Hsum), Qfloor_add_Z.
  f_equal. f_equal. pose proof (hour_decomposition local) as Hd.
  fold h in Hd. lia.
Qed.

(** Where no change of offset gets in the way, that is the date itself
    moved forward by the whole hours of [ttl]. *)
Lemma setHours_getHours_add (tz : Zone) (created : Z) (ttl : Q) :
  (0 <= ttl)%Q ->
  sameOffset tz created (Qfloor ttl) ->
  Date_setHours tz (Some created)
    (h ← Date_getHours tz (Some created); Some (inject_Z h + ttl)%Q)
  = timeClip (created + Qfloor ttl * msPerHour).
Proof.
  intros Httl Hsame. rewrite (setHours_getHours_local _ _ _ Httl).
  unfold UTC. unfold sameOffset in Hsame. rewrite Hsame.
  unfold LocalTime. f_equal. lia.
Qed.

Lemma sameOffset_fixed (offset t hours : Z) :
  sameOffset (fixedZone offset) t hours.
Proof. reflexivity. Qed.

Lemma timeClip_in_range (t : Z) :
  - maxTime <= t <= maxTime -> timeClip t = Some t.
Proof.
  intros Ht. unfold timeClip.
  destruct (Z.abs t <=? maxTime) eqn:E; [reflexivity|].
  apply Z.leb_gt in E. lia.
Qed.


End CacheFacts.

(** Runs a computation forward through the scrutinees the context has
    already decided. *)
Ltac io_run :=
  repeat (cbv beta iota;
          match goal with
          | E : ?x = _ |- context [match ?x with _ => _ end] => rewrite E
          end);
  cbv beta iota.




(** Within the TTL and with an intact payload the same read is a hit. *)
Example loadFromCache_hit :
  fst (Scraper.loadFromCache (P := Fixtures.platform)
         (JT := Fixtures.jsonString) (JM := Fixtures.jsonMetadata)
         (impl := Fixtures.working) (Fixtures.scraper true)
         (Fixtures.world 86401000
            [("DATA/cti-cache/shodan-cache.meta.json",
              "1000|86401000|shodan|payload");
             ("DATA/cti-cache/shodan-cache.json", "payload")] []))
  = Ret (Some "payload").
Proof. vm_compute. reflexivity. Qed.

(** ** execute *)

Section ExecuteFacts.

Context {P : Platform} {T : Type} {JT : JSON T}
        {JM : JSON Scraper.CacheMetadata} {impl : Scraper.ScraperImpl T}.

Lemma saveToCache_returns (this : Scraper.BaseScraper) (d : T) :
  returns (Scraper.saveToCache this d).
Proof.
  unfold Scraper.saveToCache. apply returns_try_catch. intros e.
  apply returns_emit.
Qed.

(** What is left of [execute] once the cache has been passed. *)
Lemma fetch_returns (this : Scraper.BaseScraper) :
  returns
    (try_catch
       (d <- Scraper.scrape this ;;
        (if Scraper.cacheEnabled (Scraper.cache (Scraper.config this))
         then Scraper.saveToCache this d
         else ret tt) ;;
        console_log (Scraper.tag ++ "Execution completed successfully.") ;;
        ret ({| Scraper.success := true; Scraper.data := Some d;
                Scraper.error := None; Scraper.fromCache := false |}, this))
       (fun e =>
          console_error (Scraper.tag ++ "Execution failed: "
                           ++ Scraper.errorMessageOf e) ;;
          ret ({| Scraper.success := false; Scraper.data := None;
                  Scraper.error := Some (Scraper.errorMessageOf e);
                  Scraper.fromCache := false |}, this))).
Proof.
  apply returns_try_catch. intros e.
  apply returns_bind; [apply returns_emit|]. intros _. apply returns_ret.
Qed.

Lemma execute_returns (this : Scraper.BaseScraper) :
  returns (Scraper.execute this).
Proof.
  unfold Scraper.execute.
  apply returns_bind; [apply returns_emit|]. intros _.
  apply returns_if.
  - apply returns_bind; [apply returns_emit|]. intros _. apply returns_ret.
  - apply returns_bind; [apply returns_getenv|]. intros useCache.
    apply returns_bind.
    + apply returns_if; [apply loadFromCache_returns|apply returns_ret].
    + intros [d|].
      * apply returns_bind; [apply returns_emit|]. intros _.
        apply returns_ret.
      * apply returns_bind; [apply applyRateLimit_returns|]. intros this'.
        apply (fetch_returns this').
Qed.

Lemma execute_disabled (this : Scraper.BaseScraper) (w : World) :
  Scraper.enabled (Scraper.config this) = false ->
  Scraper.execute this w =
  (Ret ({| Scraper.success := false; Scraper.data := None;
           Scraper.error := Some "Scraper disabled";
           Scraper.fromCache := false |}, this),
   mkWorld (now w) (zone w) (files w) (readOnly w) (env w) (latency w)
           (ConsoleLog (Scraper.tag ++ "Scraper disabled, skipping.")
              :: ConsoleLog (Scraper.tag ++ "Starting execution...")
              :: trace w)).
Proof.
  intros Hoff. unfold Scraper.execute. rewrite Hoff. reflexivity.
Qed.

(** [execute], branch by branch. *)
Lemma execute_enabled_unfold (this : Scraper.BaseScraper) (w : World) :
  Scraper.enabled (Scraper.config this) = true ->
  let w0 := printed (Scraper.tag ++ "Starting execution...") w in
  Scraper.execute this w =
  if Scraper.cacheEnabled (Scraper.cache (Scraper.config this))
     && bool_decide (env w !! "USE_CACHE" = Some "true")
  then
    match Scraper.loadFromCache this w0 with
    | (Ret (Some d), w1) =>
        (Ret ({| Scraper.success := true; Scraper.data := Some d;
                 Scraper.error := None; Scraper.fromCache := true |}, this),
         printed (Scraper.tag ++ "Using cached data.") w1)
    | (Ret None, w1) => fetchFresh this w1
    | (Throw e, w1) => (Throw e, w1)
    end
  else fetchFresh this w0.
Proof.
  intros Hon w0. unfold Scraper.execute. rewrite Hon. simpl negb. cbv iota.
  unfold bind at 1. unfold console_log at 1, emit at 1. cbv beta iota.
  fold (printed (Scraper.tag ++ "Starting execution...") w). fold w0.
  unfold bind at 1. unfold getenv at 1. cbv beta iota.
  unfold bind at 1.
  change (env w0) with (env w).
  destruct (Scraper.cacheEnabled (Scraper.cache (Scraper.config this))
            && bool_decide (env w !! "USE_CACHE" = Some "true")).
  - destruct (Scraper.loadFromCache this w0) as [[[d|]|e] w1];
      reflexivity.
  - reflexivity.
Qed.

(** The request fails: the failure is caught and reported. *)
Lemma fetchFresh_throw (this this' : Scraper.BaseScraper)
      (w1 w2 w3 : World) (e : Exn) :
  Scraper.applyRateLimit this w1 = (Ret this', w2) ->
  Scraper.scrape this' w2 = (Throw e, w3) ->
  fetchFresh this w1 =
  (Ret ({| Scraper.success := false; Scraper.data := None;
           Scraper.error := Some (Scraper.errorMessageOf e);
           Scraper.fromCache := false |}, this'),
   printedError (Scraper.tag ++ "Execution failed: "
                   ++ Scraper.errorMessageOf e) w3).
Proof.
  intros E1 E2. unfold fetchFresh. rewrite (bind_Ret _ _ _ _ _ E1).
  unfold try_catch. rewrite (bind_Throw _ _ _ _ _ E2). reflexivity.
Qed.

(** The request succeeds: whatever the cache write does, the result is a
    fresh success. *)
Lemma fetchFresh_value (this this' : Scraper.BaseScraper)
      (w1 w2 w3 : World) (d : T) :
  Scraper.applyRateLimit this w1 = (Ret this', w2) ->
  Scraper.scrape this' w2 = (Ret d, w3) ->
  exists w4,
    (if Scraper.cacheEnabled (Scraper.cache (Scraper.config this'))
     then Scraper.saveToCache this' d
     else ret tt) w3 = (Ret tt, w4)
    /\ fetchFresh this w1 =
       (Ret ({| Scraper.success := true; Scraper.data := Some d;
                Scraper.error := None; Scraper.fromCache := false |}, this'),
        printed (Scraper.tag ++ "Execution completed successfully.") w4).
Proof.
  intros E1 E2.
  assert (Hsave :
            returns
              (if Scraper.cacheEnabled (Scraper.cache (Scraper.config this'))
               then Scraper.saveToCache this' d
               else ret tt)).
  { apply returns_if; [apply saveToCache_returns|apply returns_ret]. }
  destruct (Hsave w3) as ([] & w4 & E3).
  exists w4. split; [exact E3|].
  unfold fetchFresh. rewrite (bind_Ret _ _ _ _ _ E1).
  unfold try_catch. rewrite (bind_Ret _ _ _ _ _ E2).
  rewrite (bind_Ret _ _ _ _ _ E3). reflexivity.
Qed.

(** Once the cache has given nothing, [execute] is the fresh fetch. *)
Lemma execute_fetches (this : Scraper.BaseScraper) (w w1 : World) :
  Scraper.enabled (Scraper.config this) = true ->
  cacheGaveNothing this
    (printed (Scraper.tag ++ "Starting execution...") w) w1 ->
  Scraper.execute this w = fetchFresh this w1.
Proof.
  intros Hon Hmiss. rewrite (execute_enabled_unfold this w Hon).
  unfold cacheGaveNothing in Hmiss. cbv zeta.
  change (env (printed (Scraper.tag ++ "Starting execution...") w))
    with (env w) in Hmiss.
  destruct (Scraper.cacheEnabled (Scraper.cache (Scraper.config this))
            && bool_decide (env w !! "USE_CACHE" = Some "true")).
  - rewrite Hmiss. reflexivity.
  - rewrite Hmiss. reflexivity.
Qed.

End ExecuteFacts.

(** A disabled scraper at work: the result is a failure, not a success. *)
Lemma C3_disabled_is_a_failure :
  Scraper.enabled (Scraper.config (Fixtures.scraper false)) = false
  /\ fst (Scraper.execute (P := Fixtures.platform) (JT := Fixtures.jsonString)
            (JM := Fixtures.jsonMetadata) (impl := Fixtures.working)
            (Fixtures.scraper false)
            (Fixtures.world 1700000000000 [] [("USE_CACHE", "true")]))
     = Ret ({| Scraper.success := false; Scraper.data := None;
               Scraper.error := Some "Scraper disabled";
               Scraper.fromCache := false |},
            Fixtures.scraper false).
Proof. split; vm_compute; reflexivity. Qed.

(** C3 (amended). [execute] never throws: it always returns a typed result.
    With [enabled = false] that result is the failure
    [{success: false, error: 'Scraper disabled', fromCache: false}], and
    neither the cache nor [scrape] is touched.  For an enabled scraper: when
    the cache is consulted (it is switched on and [USE_CACHE] is [true]) and
    [loadFromCache] answers data, the result is the success carrying that
    data with [fromCache = true], and the object is left as it was; when the
    cache gives nothing, the rate limit is applied and [scrape] is called,
    and if that call throws, the result is the failure
    [{success: false, error, fromCache: false}] carrying the message of what
    was thrown (the exception goes no further), and if it returns, the
    result is the success carrying what it returned with
    [fromCache = false]. *)
Theorem C3_execute_typed_results
    {P : Platform} {T : Type} {JT : JSON T}
    {JM : JSON Scraper.CacheMetadata} {impl : Scraper.ScraperImpl T}
    (this : Scraper.BaseScraper) (w : World) :
  let w0 := printed (Scraper.tag ++ "Starting execution...") w in
  (exists r this' w', Scraper.execute this w = (Ret (r, this'), w'))
  /\ (Scraper.enabled (Scraper.config this) = false ->
      Scraper.execute this w =
      (Ret ({| Scraper.success := false; Scraper.data := None;
               Scraper.error := Some "Scraper disabled";
               Scraper.fromCache := false |}, this),
       printed (Scraper.tag ++ "Scraper disabled, skipping.") w0))
  /\ (Scraper.enabled (Scraper.config this) = true ->
      Scraper.cacheEnabled (Scraper.cache (Scraper.config this)) = true ->
      env w !! "USE_CACHE" = Some "true" ->
      forall d w1,
        Scraper.loadFromCache this w0 = (Ret (Some d), w1) ->
        Scraper.execute this w =
        (Ret ({| Scraper.success := true; Scraper.data := Some d;
                 Scraper.error := None; Scraper.fromCache := true |}, this),
         printed (Scraper.tag ++ "Using cached data.") w1))
  /\ (Scraper.enabled (Scraper.config this) = true ->
      forall w1 this' w2 e w3,
        cacheGaveNothing this w0 w1 ->
        Scraper.applyRateLimit this w1 = (Ret this', w2) ->
        Scraper.scrape this' w2 = (Throw e, w3) ->
        Scraper.execute this w =
        (Ret ({| Scraper.success := false; Scraper.data := None;
                 Scraper.error := Some (Scraper.errorMessageOf e);
                 Scraper.fromCache := false |}, this'),
         printedError (Scraper.tag ++ "Execution failed: "
                         ++ Scraper.errorMessageOf e) w3))
  /\ (Scraper.enabled (Scraper.config this) = true ->
      forall w1 this' w2 d w3,
        cacheGaveNothing this w0 w1 ->
        Scraper.applyRateLimit this w1 = (Ret this', w2) ->
        Scraper.scrape this' w2 = (Ret d, w3) ->
        exists w4,
          Scraper.execute this w =
          (Ret ({| Scraper.success := true; Scraper.data := Some d;
                   Scraper.error := None; Scraper.fromCache := false |},
                this'), w4)).
Proof.
  intros w0.
  split.
  { destruct (execute_returns this w) as ([r this'] & w' & E).
    exists r, this', w'. exact E. }
  split; [intros Hoff; exact (execute_disabled this w Hoff)|].
  split; [|split].
  - intros Hon Hcache Huse d w1 Eload.
    rewrite (execute_enabled_unfold this w Hon). cbv zeta. fold w0.
    rewrite Hcache, Huse, bool_decide_eq_true_2 by reflexivity.
    cbn [andb]. rewrite Eload. reflexivity.
  - intros Hon w1 this' w2 e w3 Hmiss Elimit Escrape.
    rewrite (execute_fetches this w w1 Hon Hmiss).
    exact (fetchFresh_throw this this' w1 w2 w3 e Elimit Escrape).
  - intros Hon w1 this' w2 d w3 Hmiss Elimit Escrape.
    rewrite (execute_fetches this w w1 Hon Hmiss).
    destruct (fetchFresh_value this this' w1 w2 w3 d Elimit Escrape)
      as (w4 & _ & E).
    eexists. exact E.
Qed.

Lemma C3_execute_typed_results_witness :
  let files :=
    [("DATA/cti-cache/shodan-cache.meta.json",
      "1700000000000|1700086400000|shodan|payload");
     ("DATA/cti-cache/shodan-cache.json", "payload")] in
  (* disabled *)
  (exists w',
      Scraper.execute (P := Fixtures.platform) (JT := Fixtures.jsonString)
        (JM := Fixtures.jsonMetadata) (impl := Fixtures.failing)
        (Fixtures.scraper false) (Fixtures.world 1700000000000 [] [])
      = (Ret ({| Scraper.success := false; Scraper.data := None;
                 Scraper.error := Some "Scraper disabled";
                 Scraper.fromCache := false |}, Fixtures.scraper false), w'))
  (* enabled, the cache holds a fresh entry: the fetch that would throw is
     not called *)
  /\ (exists w',
      Scraper.execute (P := Fixtures.platform) (JT := Fixtures.jsonString)
        (JM := Fixtures.jsonMetadata) (impl := Fixtures.failing)
        (Fixtures.scraper true)
        (Fixtures.world 1700000001000 files [("USE_CACHE", "true")])
      = (Ret ({| Scraper.success := true; Scraper.data := Some "payload";
                 Scraper.error := None; Scraper.fromCache := true |},
              Fixtures.scraper true), w'))
  (* enabled, the cache is not consulted, and the fetch throws *)
  /\ (exists this' w',
      Scraper.execute (P := Fixtures.platform) (JT := Fixtures.jsonString)
        (JM := Fixtures.jsonMetadata) (impl := Fixtures.failing)
        (Fixtures.scraper true) (Fixtures.world 1700000000000 files [])
      = (Ret ({| Scraper.success := false; Scraper.data := None;
                 Scraper.error := Some "HTTP 503";
                 Scraper.fromCache := false |}, this'), w')).
Proof.
  intros files. split; [|split].
  - destruct (C3_execute_typed_results (P := Fixtures.platform)
                (JT := Fixtures.jsonString) (JM := Fixtures.jsonMetadata)
                (impl := Fixtures.failing)
                (Fixtures.scraper false) (Fixtures.world 1700000000000 [] []))
      as (_ & Hoff & _).
    eexists. exact (Hoff eq_refl).
  - destruct (C3_execute_typed_results (P := Fixtures.platform)
                (JT := Fixtures.jsonString) (JM := Fixtures.jsonMetadata)
                (impl := Fixtures.failing)
                (Fixtures.scraper true)
                (Fixtures.world 1700000001000 files [("USE_CACHE", "true")]))
      as (_ & _ & Hhit & _).
    eexists.
    apply (Hhit eq_refl eq_refl ltac:(vm_compute; reflexivity) "payload").
    vm_compute. reflexivity.
  - destruct (C3_execute_typed_results (P := Fixtures.platform)
                (JT := Fixtures.jsonString) (JM := Fixtures.jsonMetadata)
                (impl := Fixtures.failing)
                (Fixtures.scraper true)
                (Fixtures.world 1700000000000 files []))
      as (_ & _ & _ & Hthrow & _).
    eexists _, _.
    eapply (Hthrow eq_refl
              (printed (Scraper.tag (impl := Fixtures.failing)
                          ++ "Starting execution...")
                 (Fixtures.world 1700000000000 files []))
              _ _ (Error "HTTP 503")).
    + vm_compute. reflexivity.
    + vm_compute. reflexivity.
    + vm_compute. reflexivity.
Defined.

(** The same scraper with a working fetch and a writable disk: a fresh
    success, and both cache files written. *)
Example execute_fresh_success :
  let out :=
    Scraper.execute (P := Fixtures.platform) (JT := Fixtures.jsonString)
      (JM := Fixtures.jsonMetadata) (impl := Fixtures.working)
      (Fixtures.scraper true) (Fixtures.world 1700000000000 [] []) in
  (exists this',
      fst out = Ret ({| Scraper.success := true; Scraper.data := Some "payload";
                        Scraper.error := None; Scraper.fromCache := false |},
                     this'))
  /\ files (snd out) !! "DATA/cti-cache/shodan-cache.json" = Some "payload"
  /\ files (snd out) !! "DATA/cti-cache/shodan-cache.meta.json"
     = Some "1700000000000|1700086400000|shodan|payload".
Proof.
  split; [eexists; vm_compute; reflexivity|].
  split; vm_compute; reflexivity.
Qed.

(** ** Temporal interpretation *)

Example toFixed1_examples :
  Js.toFixed1 5 = "5.0" /\ Js.toFixed1 (1 # 2) = "0.5"
  /\ Js.toFixed1 (49 # 4) = "12.3" /\ Js.toFixed1 (1 # 25) = "0.0".
Proof. repeat split; vm_compute; reflexivity. Qed.




(** ** Correlated signals *)

Section CorrelationFacts.

Context {P : Platform}.

Lemma hasInfra_spec (sig : Dashboard.CorrelationSignal) :
  Dashboard.hasInfra sig = true
  <-> exists src, In src (Dashboard.sources sig)
                  /\ Dashboard.source src = SHODAN
                  /\ 0 < Dashboard.count src.
Proof.
  unfold Dashboard.hasInfra. rewrite existsb_exists.
  split; intros (src & Hin & Hsrc); exists src; (split; [exact Hin|]).
  - apply andb_true_iff in Hsrc as [Hs Hc].
    apply String.eqb_eq in Hs. apply Z.ltb_lt in Hc. tauto.
  - destruct Hsrc as [Hs Hc]. apply andb_true_iff.
    split; [apply String.eqb_eq; exact Hs|apply Z.ltb_lt; exact Hc].
Qed.

Lemma hasSocial_spec (sig : Dashboard.CorrelationSignal) :
  Dashboard.hasSocial sig = true
  <-> exists src, In src (Dashboard.sources sig)
                  /\ Dashboard.source src = X_COM
                  /\ 0 < Dashboard.count src.
Proof.
  unfold Dashboard.hasSocial. rewrite existsb_exists.
  split; intros (src & Hin & Hsrc); exists src; (split; [exact Hin|]).
  - apply andb_true_iff in Hsrc as [Hs Hc].
    apply String.eqb_eq in Hs. apply Z.ltb_lt in Hc. tauto.
  - destruct Hsrc as [Hs Hc]. apply andb_true_iff.
    split; [apply String.eqb_eq; exact Hs|apply Z.ltb_lt; exact Hc].
Qed.

Lemma In_firstn {A} (n : nat) (l : list A) (x : A) :
  In x (List.firstn n l) -> In x l.
Proof.
  revert l. induction n as [|n IH]; intros [|y l]; simpl; try tauto.
  intros [-> | Hin]; [left; reflexivity|right; apply IH; exact Hin].
Qed.

Lemma firstn_all_short {A} (n : nat) (l : list A) :
  (length l <= n)%nat -> List.firstn n l = l.
Proof.
  revert l. induction n as [|n IH]; intros [|y l]; simpl; intros Hlen;
    try reflexivity; try lia.
  f_equal. apply IH. lia.
Qed.

(** The section exists as soon as one signal passes the filter, and then
    lists the first five that do. *)
Lemma buildCorrelationSection_some
      (data : Dashboard.ProcessedData) (corr : Dashboard.Correlation)
      (sig : Dashboard.CorrelationSignal) :
  Dashboard.correlation data = Some corr ->
  In sig (List.filter Dashboard.crossSource (Dashboard.signals corr)) ->
  exists out,
    Dashboard.buildCorrelationSection data = Some out
    /\ Dashboard.sectionSignals out
       = List.map Dashboard.buildSignal
           (List.firstn 5
              (List.filter Dashboard.crossSource (Dashboard.signals corr))).
Proof.
  intros Hcorr Hin. unfold Dashboard.buildCorrelationSection.
  rewrite Hcorr.
  destruct (Dashboard.signals corr) as [|s0 rest] eqn:Es;
    [simpl in Hin; contradiction|].
  simpl length at 1. simpl Nat.eqb at 1. cbv iota.
  destruct (List.filter Dashboard.crossSource (s0 :: rest)) as [|c0 crest]
    eqn:Ef; [simpl in Hin; contradiction|].
  simpl length at 1. simpl Nat.eqb at 1. cbv iota.
  eexists. split; reflexivity.
Qed.

Lemma buildCorrelationSection_inv
      (data : Dashboard.ProcessedData) (out : Dashboard.CorrelationSection) :
  Dashboard.buildCorrelationSection data = Some out ->
  exists corr,
    Dashboard.correlation data = Some corr
    /\ Dashboard.sectionSignals out
       = List.map Dashboard.buildSignal
           (List.firstn 5
              (List.filter Dashboard.crossSource (Dashboard.signals corr))).
Proof.
  unfold Dashboard.buildCorrelationSection.
  destruct (Dashboard.correlation data) as [corr|]; [|discriminate].
  destruct (length (Dashboard.signals corr) =? 0)%nat; [discriminate|].
  destruct (length (List.filter _ _) =? 0)%nat; [discriminate|].
  intros [= <-]. exists corr. split; reflexivity.
Qed.

End CorrelationFacts.

(** The sixth label present with positive counts under both sources does
    not reach [correlation.signals]. *)
Lemma C2_sixth_correlated_label_dropped :
  In (bothSources "telnet")
     (from_option Dashboard.signals []
        (Dashboard.correlation sixCorrelated))
  /\ Dashboard.hasInfra (bothSources "telnet") = true
  /\ Dashboard.hasSocial (bothSources "telnet") = true
  /\ option_map
       (fun out => List.map Dashboard.sigLabel (Dashboard.sectionSignals out))
       (Dashboard.buildCorrelationSection (P := Fixtures.platform)
          sixCorrelated)
     = Some ["ssh"; "rdp"; "smb"; "ftp"; "vnc"].
Proof.
  split; [simpl; tauto|].
  split; [reflexivity|]. split; [reflexivity|].
  vm_compute. reflexivity.
Qed.

(** C2 (amended). Every entry of [correlation.signals] comes from an input
    signal that has a positive count under the infrastructure source and a
    positive count under the social source, so a label seen under one source
    only never appears; and an input signal with both appears whenever it
    is among the first five such signals (the list is cut after five), in
    particular whenever at most five signals have both. *)
Theorem C2_correlation_threshold
    {P : Platform} (data : Dashboard.ProcessedData) :
  (forall out s,
      Dashboard.buildCorrelationSection data = Some out ->
      In s (Dashboard.sectionSignals out) ->
      exists corr sig,
        Dashboard.correlation data = Some corr
        /\ In sig (Dashboard.signals corr)
        /\ Dashboard.sigId s = Dashboard.id sig
        /\ Dashboard.sigLabel s = Dashboard.label sig
        /\ (exists src, In src (Dashboard.sources sig)
                        /\ Dashboard.source src = SHODAN
                        /\ 0 < Dashboard.count src)
        /\ (exists src, In src (Dashboard.sources sig)
                        /\ Dashboard.source src = X_COM
                        /\ 0 < Dashboard.count src))
  /\ (forall corr sig,
         Dashboard.correlation data = Some corr ->
         In sig (List.firstn 5
                   (List.filter Dashboard.crossSource (Dashboard.signals corr))) ->
         exists out,
           Dashboard.buildCorrelationSection data = Some out
           /\ In (Dashboard.buildSignal sig) (Dashboard.sectionSignals out)
           /\ In (Dashboard.label sig)
                 (List.map Dashboard.sigLabel (Dashboard.sectionSignals out)))
  /\ (forall corr sig,
         Dashboard.correlation data = Some corr ->
         (length (List.filter Dashboard.crossSource (Dashboard.signals corr))
          <= 5)%nat ->
         In sig (Dashboard.signals corr) ->
         Dashboard.hasInfra sig = true -> Dashboard.hasSocial sig = true ->
         exists out,
           Dashboard.buildCorrelationSection data = Some out
           /\ In (Dashboard.label sig)
                 (List.map Dashboard.sigLabel (Dashboard.sectionSignals out))).
Proof.
  assert (Hcap : forall corr sig,
             Dashboard.correlation data = Some corr ->
             In sig (List.firstn 5
                       (List.filter Dashboard.crossSource
                          (Dashboard.signals corr))) ->
             exists out,
               Dashboard.buildCorrelationSection data = Some out
               /\ In (Dashboard.buildSignal sig) (Dashboard.sectionSignals out)
               /\ In (Dashboard.label sig)
                     (List.map Dashboard.sigLabel
                        (Dashboard.sectionSignals out))).
  { intros corr sig Hcorr Hin.
    destruct (buildCorrelationSection_some data corr sig Hcorr
                (In_firstn _ _ _ Hin)) as (out & Hout & Hsigs).
    exists out. split; [exact Hout|].
    assert (Hb : In (Dashboard.buildSignal sig) (Dashboard.sectionSignals out)).
    { rewrite Hsigs. apply in_map. exact Hin. }
    split; [exact Hb|].
    change (Dashboard.label sig)
      with (Dashboard.sigLabel (Dashboard.buildSignal sig)).
    apply in_map. exact Hb. }
  split; [|split].
  - intros out s Hout Hs.
    destruct (buildCorrelationSection_inv data out Hout) as (corr & Hcorr & Hsigs).
    rewrite Hsigs in Hs. apply in_map_iff in Hs as (sig & <- & Hin).
    apply In_firstn in Hin. apply filter_In in Hin as [Hin Hcross].
    apply andb_true_iff in Hcross as [Hi Hsoc].
    exists corr, sig.
    split; [exact Hcorr|]. split; [exact Hin|].
    split; [reflexivity|]. split; [reflexivity|].
    split; [apply hasInfra_spec; exact Hi|apply hasSocial_spec; exact Hsoc].
  - exact Hcap.
  - intros corr sig Hcorr Hlen Hin Hi Hsoc.
    destruct (Hcap corr sig Hcorr) as (out & Hout & _ & Hlabel).
    { rewrite (firstn_all_short _ _ Hlen). apply filter_In.
      split; [exact Hin|]. unfold Dashboard.crossSource. rewrite Hi, Hsoc.
      reflexivity. }
    exists out. split; [exact Hout|exact Hlabel].
Qed.

Lemma C2_correlation_threshold_witness :
  exists out,
    Dashboard.buildCorrelationSection (P := Fixtures.platform) sixCorrelated
    = Some out
    /\ In "smb" (List.map Dashboard.sigLabel (Dashboard.sectionSignals out))
    /\ ~ In "mysql" (List.map Dashboard.sigLabel (Dashboard.sectionSignals out)).
Proof.
  destruct (C2_correlation_threshold (P := Fixtures.platform) sixCorrelated)
    as (Hsound & Hcap & _).
  destruct (Hcap _ (bothSources "smb") eq_refl) as (out & Hout & _ & Hlabel).
  { vm_compute. tauto. }
  exists out. split; [exact Hout|]. split; [exact Hlabel|].
  intros Hin. apply in_map_iff in Hin as (s & Hs & Hin).
  destruct (Hsound out s Hout Hin)
    as (corr & sig & Hcorr & Hsig & _ & Hl & _ & (src & Hsrc & Hx & Hc)).
  injection Hcorr as <-. rewrite Hs in Hl.
  simpl in Hsig.
  destruct Hsig as [<- | [<- | [<- | [<- | [<- | [<- | [<- | []]]]]]]];
    try discriminate Hl.
  simpl in Hsrc. destruct Hsrc as [<- | [<- | []]].
  - discriminate Hx.
  - simpl in Hc. lia.
Defined.

(** ** Trend *)

(** A single threat stamped a day ahead of the clock: it is not within the
    last hour, so that bucket is empty and the trend it gives is
    'decreasing'; [determineTrend] counts it as recent and answers
    'increasing'. *)
Lemma C9_timestamp_ahead_of_the_clock_counts_as_recent :
  let t : Dashboard.Threat :=
    {| Dashboard.threatId := "t"; Dashboard.title := "x";
       Dashboard.severity := "high"; Dashboard.category := "malware";
       Dashboard.timestamp := "96400000" |} in
  let w := Fixtures.world 10000000 [] [] in
  withinLastHour (P := Fixtures.platform) (now w) t = false
  /\ trendByLastHour (P := Fixtures.platform) (now w) [t] = Decreasing
  /\ fst (Dashboard.determineTrend (P := Fixtures.platform) [t] w)
     = Ret Increasing.
Proof. repeat split; vm_compute; reflexivity. Qed.

(** C9 (amended). [determineTrend] counts as recent the threats whose
    timestamp is a date later than one hour before the clock: the test is
    [time > now - 3600000], so the recent bucket holds the timestamps of
    the last hour and also those ahead of the clock.  It returns, without
    throwing and without touching the world, 'increasing' exactly when
    [recent > 0.5 * total], 'decreasing' exactly when
    [recent < 0.2 * total], and 'stable' otherwise; an empty list gives
    'stable'.  When no timestamp is ahead of the clock, the result is the
    trend of the last-hour bucket. *)
Theorem C9_trend_classification
    {P : Platform} (ts : list Dashboard.Threat) (w : World) :
  let hourAgo := now w - 3600000 in
  let recent :=
    inject_Z (Z.of_nat (length (List.filter (Dashboard.isRecent hourAgo) ts))) in
  let total := inject_Z (Z.of_nat (length ts)) in
  (forall t, Dashboard.isRecent hourAgo t = true
             <-> exists ms, Date_parse (Dashboard.timestamp t) = Some ms
                            /\ now w - 3600000 < ms)
  /\ (forall t, Dashboard.isRecent hourAgo t = true
                <-> withinLastHour (now w) t = true
                    \/ exists ms, Date_parse (Dashboard.timestamp t) = Some ms
                                  /\ now w < ms)
  /\ exists trend,
      Dashboard.determineTrend ts w = (Ret trend, w)
      /\ (trend = Increasing <-> ((1 # 2) * total < recent)%Q)
      /\ (trend = Decreasing <-> (recent < (1 # 5) * total)%Q)
      /\ (trend = Stable
          <-> ~ ((1 # 2) * total < recent)%Q /\ ~ (recent < (1 # 5) * total)%Q)
      /\ (ts = [] -> trend = Stable)
      /\ ((forall t ms, In t ts ->
                        Date_parse (Dashboard.timestamp t) = Some ms ->
                        ms <= now w) ->
          trend = trendByLastHour (now w) ts).
Proof.
  intros hourAgo recent total. split; [|split].
  - intros t. unfold Dashboard.isRecent.
    destruct (Date_parse (Dashboard.timestamp t)) as [ms|].
    + rewrite Z.ltb_lt. split.
      * intros Hlt. exists ms. split; [reflexivity|exact Hlt].
      * intros (ms' & [= <-] & Hlt). exact Hlt.
    + split; [discriminate|]. intros (ms & Hms & _). discriminate.
  - intros t. unfold Dashboard.isRecent, withinLastHour, hourAgo.
    destruct (Date_parse (Dashboard.timestamp t)) as [ms|].
    + rewrite andb_true_iff, Z.ltb_lt, Z.leb_le. split.
      * intros Hlt. destruct (Z_le_gt_dec ms (now w)) as [Hle | Hgt].
        -- left. split; assumption.
        -- right. exists ms. split; [reflexivity|lia].
      * intros [[Hlt _] | (ms' & [= <-] & Hgt)]; lia.
    + split; [discriminate|].
      intros [H | (ms & H & _)]; discriminate.
  - assert (Hrecent : (0 <= recent)%Q).
    { unfold recent. change 0%Q with (inject_Z 0). rewrite <- Zle_Qle. lia. }
    assert (Htotal : (0 <= total)%Q).
    { unfold total. change 0%Q with (inject_Z 0). rewrite <- Zle_Qle. lia. }
    assert (Hempty : ts = [] -> (recent == 0)%Q /\ (total == 0)%Q).
    { intros ->. split; reflexivity. }
    assert (Hsame :
              (forall t ms, In t ts ->
                            Date_parse (Dashboard.timestamp t) = Some ms ->
                            ms <= now w) ->
              trendByLastHour (now w) ts
              = if Js.gt recent (total * (1 # 2)) then Increasing
                else if Js.lt recent (total * (1 # 5)) then Decreasing
                else Stable).
    { intros Hpast. unfold trendByLastHour. fold total.
      replace (List.filter (withinLastHour (now w)) ts)
        with (List.filter (Dashboard.isRecent hourAgo) ts);
        [reflexivity|].
      apply List.filter_ext_in. intros t Hin.
      unfold Dashboard.isRecent, withinLastHour, hourAgo.
      destruct (Date_parse (Dashboard.timestamp t)) as [ms|] eqn:E;
        [|reflexivity].
      specialize (Hpast t ms Hin E).
      apply Z.leb_le in Hpast. rewrite Hpast, andb_true_r. reflexivity. }
    unfold Dashboard.determineTrend, bind, Date_now.
    fold hourAgo. fold recent. fold total.
    destruct (Js.gt recent (total * (1 # 2))) eqn:Egt.
    + apply gt_true_iff in Egt.
      exists Increasing. split; [reflexivity|].
      split; [split; [intros _; lra|reflexivity]|].
      split; [split; [discriminate|intros Hlt; lra]|].
      split; [split; [discriminate|intros [Hn _]; exfalso; apply Hn; lra]|].
      split; [|intros Hpast; rewrite (Hsame Hpast); reflexivity].
      intros He. destruct (Hempty He) as [Hr Ht]. lra.
    + assert (Hle : (recent <= total * (1 # 2))%Q).
      { apply Qnot_lt_le. intros Hlt. apply gt_true_iff in Hlt. congruence. }
      destruct (Js.lt recent (total * (1 # 5))) eqn:Elt.
      * apply lt_true_iff in Elt.
        exists Decreasing. split; [reflexivity|].
        split; [split; [discriminate|intros Hgt; lra]|].
        split; [split; [intros _; lra|reflexivity]|].
        split; [split; [discriminate|intros [_ Hn]; exfalso; apply Hn; lra]|].
        split; [|intros Hpast; rewrite (Hsame Hpast); reflexivity].
        intros He. destruct (Hempty He) as [Hr Ht]. lra.
      * assert (Hge : (total * (1 # 5) <= recent)%Q).
        { apply Qnot_lt_le. intros Hlt. apply lt_true_iff in Hlt. congruence. }
        exists Stable. split; [reflexivity|].
        split; [split; [discriminate|intros Hgt; lra]|].
        split; [split; [discriminate|intros Hlt; lra]|].
        split; [|split; [reflexivity|]].
        -- split; [|reflexivity].
           intros _. split; intros Hc; lra.
        -- intros Hpast. rewrite (Hsame Hpast). reflexivity.
Qed.

Lemma C9_trend_classification_witness :
  let at_ (ms : string) : Dashboard.Threat :=
    {| Dashboard.threatId := "t"; Dashboard.title := "x";
       Dashboard.severity := "high"; Dashboard.category := "malware";
       Dashboard.timestamp := ms |} in
  let w := Fixtures.world 10000000 [] [] in
  (* no threats *)
  Dashboard.determineTrend (P := Fixtures.platform) [] w = (Ret Stable, w)
  (* three of four in the last hour, none ahead of the clock *)
  /\ Dashboard.determineTrend (P := Fixtures.platform)
       [at_ "9000000"; at_ "9999999"; at_ "6400001"; at_ "100"] w
     = (Ret Increasing, w)
  /\ trendByLastHour (P := Fixtures.platform) (now w)
       [at_ "9000000"; at_ "9999999"; at_ "6400001"; at_ "100"]
     = Increasing.
Proof.
  intros at_ w. split; [|split].
  - destruct (C9_trend_classification (P := Fixtures.platform) [] w)
      as (_ & _ & trend & E & _ & _ & _ & Hempty & _).
    rewrite E. rewrite (Hempty eq_refl). reflexivity.
  - destruct (C9_trend_classification (P := Fixtures.platform)
                [at_ "9000000"; at_ "9999999"; at_ "6400001"; at_ "100"] w)
      as (_ & _ & trend & E & Hinc & _).
    rewrite E. f_equal. f_equal. apply Hinc. vm_compute. reflexivity.
  - destruct (C9_trend_classification (P := Fixtures.platform)
                [at_ "9000000"; at_ "9999999"; at_ "6400001"; at_ "100"] w)
      as (_ & _ & trend & E & Hinc & _ & _ & _ & Hpast).
    rewrite <- Hpast.
    + apply Hinc. vm_compute. reflexivity.
    + intros t ms Hin Hms.
      destruct Hin as [<- | [<- | [<- | [<- | []]]]];
        vm_compute in Hms; injection Hms as <-; vm_compute; discriminate.
Defined.

(** Three of four threats in the last hour: increasing; none of four:
    decreasing; one of four: stable. *)
Example determineTrend_examples :
  let at_ (ms : string) : Dashboard.Threat :=
    {| Dashboard.threatId := "t"; Dashboard.title := "x";
       Dashboard.severity := "high"; Dashboard.category := "malware";
       Dashboard.timestamp := ms |} in
  let w := Fixtures.world 10000000 [] [] in
  fst (Dashboard.determineTrend (P := Fixtures.platform)
         [at_ "9000000"; at_ "9999999"; at_ "6400001"; at_ "100"] w)
  = Ret Increasing
  /\ fst (Dashboard.determineTrend (P := Fixtures.platform)
            [at_ "6400000"; at_ "1"; at_ "not a date"; at_ "100"] w)
     = Ret Decreasing
  /\ fst (Dashboard.determineTrend (P := Fixtures.platform)
            [at_ "9000000"; at_ "1"; at_ "2"; at_ "100"] w)
     = Ret Stable.
Proof. repeat split; vm_compute; reflexivity. Qed.

(** ** Enrichment fallback *)

(** Two runs of [heuristicAnalysis] on the same data, one millisecond
    apart, differ. *)
Lemma C7_heuristic_output_differs_across_runs :
  fst (Analyzer.heuristicAnalysis (P := Fixtures.platform) sampleData
         (Fixtures.world 1700000000000 [] []))
  <> fst (Analyzer.heuristicAnalysis (P := Fixtures.platform) sampleData
            (Fixtures.world 1700000000001 [] [])).
Proof. vm_compute. discriminate. Qed.

Example heuristicAnalysis_sample :
  option_map
    (fun r => (Analyzer.insightId <$> Analyzer.insights r,
               Analyzer.executiveSummary r, Analyzer.technicalSummary r,
               Analyzer.recommendations r, Analyzer.model r))
    (match fst (Analyzer.heuristicAnalysis (P := Fixtures.platform) sampleData
                  (Fixtures.world 1700000000000 [] []))
     with Ret r => Some r | Throw _ => None end)
  = Some (["insight_1700000000000"],
          "12 amenazas detectadas, 2 críticas. Foco: ransomware.",
          "IOCs: 2 cve, 5 ip. CVEs: 2. Fuentes: shodan, x.com.",
          ["Revisar amenazas críticas inmediatamente"],
          "qwen2:0.5b-heuristic").
Proof. vm_compute. reflexivity. Qed.

Example fallbackAnalysis_examples :
  Agents.riskScore (Agents.fallbackAnalysis "  Critical: 3") = 70
  /\ Agents.riskScore (Agents.fallbackAnalysis "  Critical: 0") = 50
  /\ Agents.riskScore (Agents.fallbackAnalysis "no counts") = 50
  /\ Agents.keyFindings (Agents.fallbackAnalysis "  - CVE-2024-3400 (critical)")
     = [ "Known vulnerabilities detected in exposed infrastructure";
         "Remote access services (SSH/RDP/SMB) exposed to internet";
         "Social media monitoring active for threat indicators" ].
Proof. repeat split; vm_compute; reflexivity. Qed.

(** C7 (amended). With an endpoint that fails on every request,
    [runLLMAnalysis] returns [fallbackAnalysis(context)] whatever the state
    of the world, so two runs on the same context give the same analysis.
    [heuristicAnalysis] always returns, and two runs on the same data agree
    on every field except the insight id and [analysisTimestamp], which
    carry the clock, and the model tag, which carries the configured model
    name; with the same clock and the same configured model the two results
    are identical. *)
Theorem C7_fallback_determinism {P : Platform} {E : Agents.Endpoint} :
  (forall context : string,
      (forall prompt w, exists e w', Agents.callOllama prompt w = (Throw e, w')) ->
      forall w1 w2 : World,
        fst (Agents.runLLMAnalysis context w1)
        = Ret (Agents.fallbackAnalysis context)
        /\ fst (Agents.runLLMAnalysis context w2)
           = fst (Agents.runLLMAnalysis context w1))
  /\ (forall (d : Analyzer.NormalizedData) (w1 w2 : World),
         exists r1 r2,
           Analyzer.heuristicAnalysis d w1 = (Ret r1, w1)
           /\ Analyzer.heuristicAnalysis d w2 = (Ret r2, w2)
           /\ Analyzer.executiveSummary r1 = Analyzer.executiveSummary r2
           /\ Analyzer.technicalSummary r1 = Analyzer.technicalSummary r2
           /\ Analyzer.recommendations r1 = Analyzer.recommendations r2
           /\ Analyzer.trendingTopics r1 = Analyzer.trendingTopics r2
           /\ Analyzer.tokenUsage r1 = Analyzer.tokenUsage r2
           /\ List.map (fun i => (Analyzer.insightType i, Analyzer.insightTitle i,
                                  Analyzer.content i, Analyzer.confidence i,
                                  Analyzer.relatedThreats i))
                       (Analyzer.insights r1)
              = List.map (fun i => (Analyzer.insightType i, Analyzer.insightTitle i,
                                    Analyzer.content i, Analyzer.confidence i,
                                    Analyzer.relatedThreats i))
                         (Analyzer.insights r2)
           /\ (now w1 = now w2 ->
               env w1 !! "OLLAMA_MODEL" = env w2 !! "OLLAMA_MODEL" ->
               r1 = r2)).
Proof.
  split.
  - intros context Hfails.
    assert (Hrun : forall w, fst (Agents.runLLMAnalysis context w)
                             = Ret (Agents.fallbackAnalysis context)).
    { intros w. unfold Agents.runLLMAnalysis, try_catch.
      destruct (Hfails (Agents.promptFor context) w) as (e & w' & Ecall).
      rewrite (bind_Throw _ _ _ _ _ Ecall). reflexivity. }
    intros w1 w2. split; [apply Hrun|]. rewrite !Hrun. reflexivity.
  - intros d w1 w2.
    unfold Analyzer.heuristicAnalysis, Analyzer.buildResult,
      Analyzer.OLLAMA_MODEL, getenv_or, getenv, bind, Date_now, ret.
    eexists _, _. split; [reflexivity|]. split; [reflexivity|].
    cbn [Analyzer.executiveSummary Analyzer.technicalSummary
         Analyzer.recommendations Analyzer.trendingTopics Analyzer.tokenUsage
         Analyzer.insights List.map Analyzer.insightType Analyzer.insightTitle
         Analyzer.content Analyzer.confidence Analyzer.relatedThreats].
    repeat (split; [reflexivity|]).
    intros Hnow Henv. rewrite Hnow, Henv. reflexivity.
Qed.

Lemma C7_fallback_determinism_witness :
  fst (Agents.runLLMAnalysis (E := timingOut) "  Critical: 3"
         (Fixtures.world 1700000000000 [] []))
  = fst (Agents.runLLMAnalysis (E := timingOut) "  Critical: 3"
           (Fixtures.world 1800000000000 [] [("OLLAMA_MODEL", "qwen2.5:3b")]))
  /\ Analyzer.heuristicAnalysis (P := Fixtures.platform) sampleData
       (Fixtures.world 1700000000000 [] [])
     = Analyzer.heuristicAnalysis (P := Fixtures.platform) sampleData
         (Fixtures.world 1700000000000 [] []).
Proof.
  destruct (C7_fallback_determinism (P := Fixtures.platform) (E := timingOut))
    as [Hagents Hheur].
  split.
  - destruct (Hagents "  Critical: 3"
                ltac:(intros prompt w; eexists _, _; reflexivity)
                (Fixtures.world 1800000000000 [] [("OLLAMA_MODEL", "qwen2.5:3b")])
                (Fixtures.world 1700000000000 [] []))
      as [_ Hsame].
    exact Hsame.
  - destruct (Hheur sampleData (Fixtures.world 1700000000000 [] [])
                (Fixtures.world 1700000000000 [] []))
      as (r1 & r2 & E1 & E2 & _ & _ & _ & _ & _ & _ & Hfull).
    rewrite E1 at 1. rewrite E2.
    rewrite (Hfull eq_refl eq_refl). reflexivity.
Defined.

(** ** Titles *)

Example sanitizeTitle_examples :
  Dashboard.sanitizeTitle "Host 192.168.1.10 exposed on port 22"
  = "Host [IP] exposed on port 22"
  /\ Dashboard.sanitizeTitle "1.2.3.4.5.6.7.8" = "[IP].[IP]"
  /\ Dashboard.sanitizeTitle "999.999.999.999" = "[IP]"
  /\ Dashboard.sanitizeTitle "C2 at 10.0.0.1, 10.0.0.2." = "C2 at [IP], [IP]."
  /\ Dashboard.sanitizeTitle "nginx v1.2.3.4" = "nginx v1.2.3.4"
  /\ Dashboard.sanitizeTitle "1234.1.1.1" = "1234.1.1.1"
  /\ Dashboard.sanitizeTitle "1.2.3.4x" = "1.2.3.4x"
  /\ Dashboard.sanitizeTitle "1.2.3" = "1.2.3"
  /\ Dashboard.sanitizeTitle "a-1.22.333.4-b" = "a-[IP]-b".
Proof. repeat split; vm_compute; reflexivity. Qed.

Section RegexFacts.

Import Dashboard RegexSpec.
Local Open Scope list_scope.

Lemma isDigit_isWord (c : ascii) : isDigit c = true -> isWord c = true.
Proof. intros Hd. unfold isWord. rewrite Hd. reflexivity. Qed.

Lemma isDigit_not_dot (c : ascii) :
  isDigit c = true -> Ascii.eqb c "." = false.
Proof.
  intros Hd. destruct (Ascii.eqb_spec c "."%char) as [-> | Hne];
    [discriminate Hd|reflexivity].
Qed.

Lemma takeDigits_inv (k : nat) :
  forall s last s',
    takeDigits k s = Some (last, s') ->
    exists o, s = o ++ last :: s' /\ S (length o) = k
              /\ forallb isDigit (o ++ [last]) = true.
Proof.
  induction k as [|k IH]; intros s last s' Ht; [discriminate|].
  destruct s as [|c rest]; [destruct k; discriminate|].
  simpl in Ht. destruct (isDigit c) eqn:Hc.
  - destruct k as [|k].
    + injection Ht as <- <-. exists []. simpl. rewrite Hc. auto.
    + destruct (IH rest last s' Ht) as (o & -> & Hlen & Hall).
      exists (c :: o). simpl. rewrite Hc. auto.
  - destruct k; discriminate.
Qed.

Lemma takeDigits_app (o : list ascii) (last : ascii) (s' : list ascii) :
  forallb isDigit (o ++ [last]) = true ->
  takeDigits (S (length o)) (o ++ last :: s') = Some (last, s').
Proof.
  induction o as [|c o IH]; simpl; intros Hall.
  - rewrite andb_true_r in Hall. rewrite Hall. reflexivity.
  - apply andb_true_iff in Hall as [Hc Hall]. rewrite Hc.
    specialize (IH Hall). simpl in IH. exact IH.
Qed.

Lemma takeDigits_short (o : list ascii) :
  forall (k : nat) (s' : list ascii),
    headDigit s' = false -> (length o < k)%nat ->
    takeDigits k (o ++ s') = None.
Proof.
  induction o as [|c o IH]; intros k s' Hhead Hlen; simpl in *.
  - destruct k as [|k]; [lia|].
    destruct s' as [|x r]; [destruct k; reflexivity|].
    simpl in Hhead. simpl. rewrite Hhead. destruct k; reflexivity.
  - destruct k as [|k]; [lia|].
    simpl. destruct (isDigit c); [|destruct k; reflexivity].
    destruct k as [|k]; [lia|].
    apply IH; [exact Hhead|lia].
Qed.

Lemma matchAtoms_digits (rest : list Atom) (p : option ascii)
      (s : list ascii) :
  matchAtoms (Digits1to3 :: rest) p s =
  match attempt rest s 3 with
  | Some n => Some n
  | None =>
      match attempt rest s 2 with
      | Some n => Some n
      | None => attempt rest s 1
      end
  end.
Proof. reflexivity. Qed.

Lemma attempt_Some (rest : list Atom) (s : list ascii) (k n : nat) :
  attempt rest s k = Some n ->
  exists o last s' n',
    s = o ++ last :: s' /\ S (length o) = k
    /\ forallb isDigit (o ++ [last]) = true
    /\ matchAtoms rest (Some last) s' = Some n'
    /\ n = (k + n')%nat.
Proof.
  unfold attempt. intros Ha.
  destruct (takeDigits k s) as [[last s']|] eqn:Et; [|discriminate].
  destruct (matchAtoms rest (Some last) s') as [n'|] eqn:Ek; [|discriminate].
  injection Ha as <-.
  destruct (takeDigits_inv k s last s' Et) as (o & -> & Hlen & Hall).
  exists o, last, s', n'. auto.
Qed.

Lemma attempt_exact (rest : list Atom) (o : list ascii) (last : ascii)
      (s' : list ascii) :
  forallb isDigit (o ++ [last]) = true ->
  attempt rest (o ++ last :: s') (S (length o))
  = option_map (Nat.add (S (length o))) (matchAtoms rest (Some last) s').
Proof.
  intros Hall. unfold attempt. rewrite (takeDigits_app o last s' Hall).
  reflexivity.
Qed.

Lemma attempt_long (rest : list Atom) (o : list ascii) (last : ascii)
      (s' : list ascii) (k : nat) :
  headDigit s' = false -> (S (length o) < k)%nat ->
  attempt rest (o ++ last :: s') k = None.
Proof.
  intros Hhead Hlen. unfold attempt.
  replace (o ++ last :: s') with ((o ++ [last]) ++ s')
    by (rewrite <- app_assoc; reflexivity).
  rewrite takeDigits_short; [reflexivity|exact Hhead|].
  rewrite length_app. simpl. lia.
Qed.

Lemma rejects_dot (rest : list Atom) : rejectsDigit (Dot :: rest).
Proof.
  intros d c s' _ Hc. simpl. rewrite (isDigit_not_dot c Hc). reflexivity.
Qed.

Lemma rejects_boundary : rejectsDigit [WordBoundary].
Proof.
  intros d c s' Hd Hc. simpl. unfold atBoundary. simpl.
  rewrite (isDigit_isWord d Hd), (isDigit_isWord c Hc). reflexivity.
Qed.

Lemma digitsDelimited_rejects (rest : list Atom) :
  digitsDelimited (Digits1to3 :: rest) = true -> rejectsDigit rest.
Proof.
  simpl. destruct rest as [|[| |] rest]; try discriminate.
  - destruct rest; [intros _; apply rejects_boundary|discriminate].
  - intros _. apply rejects_dot.
Qed.

Lemma digitsDelimited_tail (a : Atom) (rest : list Atom) :
  digitsDelimited (a :: rest) = true -> digitsDelimited rest = true.
Proof.
  destruct a; simpl; try tauto.
  destruct rest as [|[| |] rest]; try discriminate; try tauto.
  destruct rest; [reflexivity|discriminate].
Qed.

Lemma last_digit (o : list ascii) (last : ascii) :
  forallb isDigit (o ++ [last]) = true -> isDigit last = true.
Proof.
  rewrite forallb_app. simpl. rewrite andb_true_r.
  intros H. apply andb_true_iff in H. tauto.
Qed.

(** The greedy, backtracking [\d{1,3}] takes the whole run of digits or
    fails. *)
Lemma digits_then_iff (rest : list Atom) (p : option ascii)
      (s : list ascii) (n : nat) :
  rejectsDigit rest ->
  matchAtoms (Digits1to3 :: rest) p s = Some n
  <-> exists o last s' n',
      s = o ++ last :: s'
      /\ (length o < 3)%nat
      /\ forallb isDigit (o ++ [last]) = true
      /\ matchAtoms rest (Some last) s' = Some n'
      /\ n = (S (length o) + n')%nat.
Proof.
  intros Hrej. rewrite matchAtoms_digits. split.
  - intros Hm.
    assert (Hsome : exists k, (k <= 3)%nat /\ attempt rest s k = Some n).
    { destruct (attempt rest s 3) eqn:E3; [exists 3%nat; split; [lia|congruence]|].
      destruct (attempt rest s 2) eqn:E2; [exists 2%nat; split; [lia|congruence]|].
      exists 1%nat. split; [lia|exact Hm]. }
    destruct Hsome as (k & Hk & Ha).
    destruct (attempt_Some rest s k n Ha) as (o & last & s' & n' & -> & Hlen & Hall & Hrest & ->).
    exists o, last, s', n'. subst k. repeat split; auto; lia.
  - intros (o & last & s' & n' & -> & Hlen & Hall & Hrest & ->).
    assert (Hhead : headDigit s' = false).
    { destruct s' as [|c r]; [reflexivity|]. simpl.
      destruct (isDigit c) eqn:Hc; [|reflexivity].
      rewrite (Hrej last c r (last_digit o last Hall) Hc) in Hrest.
      discriminate. }
    pose proof (attempt_exact rest o last s' Hall) as Hex.
    rewrite Hrest in Hex. simpl option_map in Hex.
    destruct o as [|c0 [|c1 [|c2 o]]]; simpl length in *; try lia.
    + rewrite (attempt_long rest [] last s' 3 Hhead) by (simpl; lia).
      rewrite (attempt_long rest [] last s' 2 Hhead) by (simpl; lia).
      exact Hex.
    + rewrite (attempt_long rest [c0] last s' 3 Hhead) by (simpl; lia).
      rewrite Hex. reflexivity.
    + rewrite Hex. reflexivity.
Qed.

(** The matcher and its backtracking-free description agree. *)
Lemma matchAtoms_Parses (atoms : list Atom) :
  digitsDelimited atoms = true ->
  forall p s n, matchAtoms atoms p s = Some n <-> Parses atoms p s n.
Proof.
  induction atoms as [|a rest IH]; intros Hwf p s n.
  - simpl. split; [intros [= <-]; reflexivity|intros ->; reflexivity].
  - pose proof (IH (digitsDelimited_tail a rest Hwf)) as IHr.
    destruct a.
    + simpl. destruct (atBoundary p s).
      * rewrite IHr. tauto.
      * split; [discriminate|intros [? _]; discriminate].
    + rewrite (digits_then_iff rest p s n (digitsDelimited_rejects rest Hwf)).
      simpl. split.
      * intros (o & last & s' & n' & Hs & Hlen & Hall & Hrest & Hn).
        exists o, last, s', n'. rewrite <- IHr. auto.
      * intros (o & last & s' & n' & Hs & Hlen & Hall & Hrest & Hn).
        exists o, last, s', n'. rewrite IHr. auto.
    + simpl. destruct s as [|c s'].
      * split; [discriminate|intros (? & ? & ? & _); discriminate].
      * destruct (Ascii.eqb_spec c "."%char) as [-> | Hne].
        -- split.
           ++ intros Hm.
              destruct (matchAtoms rest (Some "."%char) s') as [n'|] eqn:Ek;
                [|discriminate].
              injection Hm as <-. exists s', n'.
              rewrite <- IHr. auto.
           ++ intros (s2 & n' & [= <-] & Hrest & ->).
              apply IHr in Hrest. rewrite Hrest. reflexivity.
        -- split; [discriminate|].
           intros (s2 & n' & [= -> _] & _). contradiction.
Qed.

Lemma ipPattern_delimited : digitsDelimited ipPattern = true.
Proof. reflexivity. Qed.

(** *** What a match looks like *)

Lemma skipn_app_exact {A} (a l : list A) (k : nat) :
  skipn (length a + k) (a ++ l) = skipn k l.
Proof. induction a as [|x a IH]; simpl; [reflexivity|exact IH]. Qed.

Lemma firstn_app_exact {A} (a l : list A) (k : nat) :
  firstn (length a + k) (a ++ l) = a ++ firstn k l.
Proof. induction a as [|x a IH]; simpl; [reflexivity|rewrite IH; reflexivity]. Qed.

Lemma firstn_app_inv {A} (a : list A) :
  forall (k : nat) (l b : list A),
    firstn (length a + k) l = a ++ b ->
    exists l', l = a ++ l' /\ firstn k l' = b.
Proof.
  induction a as [|x a IH]; intros k l b Hf; simpl in *.
  - exists l. auto.
  - destruct l as [|y l]; [discriminate|].
    injection Hf as -> Hf.
    destruct (IH k l b Hf) as (l' & -> & Hb).
    exists l'. auto.
Qed.











(** *** The replaced text *)










End RegexFacts.

(** *** Addresses, in the words of the statement *)

Section MaskedFacts.

Import Dashboard RegexSpec.
Local Open Scope list_scope.

Lemma group_split (g : list ascii) :
  isGroup g ->
  exists o last,
    g = o ++ [last] /\ (length o < 3)%nat
    /\ forallb isDigit (o ++ [last]) = true.
Proof.
  intros [Hlen Hall].
  destruct (exists_last (l := g)) as (o & last & ->).
  { intros ->. simpl in Hlen. lia. }
  exists o, last. rewrite length_app in Hlen. simpl in Hlen.
  split; [reflexivity|]. split; [lia|exact Hall].
Qed.

Lemma group_join (o : list ascii) (last : ascii) :
  (length o < 3)%nat -> forallb isDigit (o ++ [last]) = true ->
  isGroup (o ++ [last]).
Proof.
  intros Hlen Hall. split; [|exact Hall].
  rewrite length_app. simpl. lia.
Qed.


Lemma boundary_before_digit (p : option ascii) (c : ascii) (s : list ascii) :
  isDigit c = true ->
  atBoundary p (c :: s) = true <-> wordBefore p = false.
Proof.
  intros Hc. unfold atBoundary. fold (wordBefore p).
  rewrite (isDigit_isWord c Hc). destruct (wordBefore p); simpl; split;
    congruence.
Qed.

Lemma boundary_after_digit (d : ascii) (s : list ascii) :
  isDigit d = true ->
  atBoundary (Some d) s = true <-> headWord s = false.
Proof.
  intros Hd. unfold atBoundary. simpl. rewrite (isDigit_isWord d Hd).
  fold (headWord s). destruct (headWord s); simpl; split; congruence.
Qed.

Lemma group_head (o : list ascii) (last : ascii) (s : list ascii) :
  forallb isDigit (o ++ [last]) = true ->
  exists c r, o ++ last :: s = c :: r /\ isDigit c = true.
Proof.
  intros Hall. destruct o as [|c o]; simpl in *.
  - exists last, s. rewrite andb_true_r in Hall. auto.
  - apply andb_true_iff in Hall as [Hc _]. exists c, (o ++ last :: s). auto.
Qed.

(** The pattern matches exactly the addresses. *)
Lemma Parses_Address (p : option ascii) (s : list ascii) (n : nat) :
  Parses ipPattern p s n
  <-> exists m rest, s = m ++ rest /\ length m = n /\ Address p m rest.
Proof.
  split.
  - intros [Hb (o1 & l1 & s1 & n1 & -> & Hl1 & Hd1
               & (s1' & n1' & -> & (o2 & l2 & s2 & n2 & -> & Hl2 & Hd2
               & (s2' & n2' & -> & (o3 & l3 & s3 & n3 & -> & Hl3 & Hd3
               & (s3' & n3' & -> & (o4 & l4 & s4 & n4 & -> & Hl4 & Hd4
               & [He ->] & ->) & ->) & ->) & ->) & ->) & ->) & ->)].
    exists ((o1 ++ [l1]) ++ "."%char :: (o2 ++ [l2]) ++ "."%char
            :: (o3 ++ [l3]) ++ "."%char :: (o4 ++ [l4])), s4.
    split; [|split; [|split; [|split]]].
    + repeat (rewrite <- ?app_assoc; cbn [app]). reflexivity.
    + repeat (rewrite ?length_app; cbn [length]). lia.
    + exists (o1 ++ [l1]), (o2 ++ [l2]), (o3 ++ [l3]), (o4 ++ [l4]).
      split; [reflexivity|].
      repeat split; try (rewrite length_app; simpl; lia); assumption.
    + destruct (group_head o1 l1 ("."%char :: o2 ++ l2 :: "."%char
                                  :: o3 ++ l3 :: "."%char :: o4 ++ l4 :: s4)
                  Hd1) as (c & r & E & Hc).
      rewrite E in Hb. apply (boundary_before_digit p c r Hc). exact Hb.
    + apply (boundary_after_digit l4 s4 (last_digit o4 l4 Hd4)). exact He.
  - intros (m & rest & -> & <- & (a & b & c & d & -> & Ha & Hb & Hc & Hd)
            & Hp & Hr).
    destruct (group_split a Ha) as (o1 & l1 & -> & Hl1 & Hd1).
    destruct (group_split b Hb) as (o2 & l2 & -> & Hl2 & Hd2).
    destruct (group_split c Hc) as (o3 & l3 & -> & Hl3 & Hd3).
    destruct (group_split d Hd) as (o4 & l4 & -> & Hl4 & Hd4).
    replace (((o1 ++ [l1]) ++ "."%char :: (o2 ++ [l2]) ++ "."%char
              :: (o3 ++ [l3]) ++ "."%char :: o4 ++ [l4]) ++ rest)
      with (o1 ++ l1 :: "."%char :: o2 ++ l2 :: "."%char
            :: o3 ++ l3 :: "."%char :: o4 ++ l4 :: rest)
      by (repeat (rewrite <- ?app_assoc; cbn [app]); reflexivity).
    replace (length ((o1 ++ [l1]) ++ "."%char :: (o2 ++ [l2]) ++ "."%char
                     :: (o3 ++ [l3]) ++ "."%char :: o4 ++ [l4]))
      with (S (length o1)
            + S (S (length o2) + S (S (length o3) + S (S (length o4) + 0))))%nat
      by (repeat (rewrite ?length_app; cbn [length]); lia).
    split.
    + destruct (group_head o1 l1 ("."%char :: o2 ++ l2 :: "."%char
                                  :: o3 ++ l3 :: "."%char :: o4 ++ l4 :: rest)
                  Hd1) as (x & r & E & Hx).
      rewrite E. apply (boundary_before_digit p x r Hx). exact Hp.
    + eexists o1, l1, _, _. split; [reflexivity|].
      split; [exact Hl1|]. split; [exact Hd1|]. split; [|reflexivity].
      eexists _, _. split; [reflexivity|]. split; [|reflexivity].
      eexists o2, l2, _, _. split; [reflexivity|].
      split; [exact Hl2|]. split; [exact Hd2|]. split; [|reflexivity].
      eexists _, _. split; [reflexivity|]. split; [|reflexivity].
      eexists o3, l3, _, _. split; [reflexivity|].
      split; [exact Hl3|]. split; [exact Hd3|]. split; [|reflexivity].
      eexists _, _. split; [reflexivity|]. split; [|reflexivity].
      eexists o4, l4, rest, 0%nat. split; [reflexivity|].
      split; [exact Hl4|]. split; [exact Hd4|].
      split; [|reflexivity].
      split; [|reflexivity].
      apply (boundary_after_digit l4 rest (last_digit o4 l4 Hd4)). exact Hr.
Qed.

Lemma match_ip_Address (p : option ascii) (s : list ascii) (n : nat) :
  matchAtoms ipPattern p s = Some n
  <-> exists m rest, s = m ++ rest /\ length m = n /\ Address p m rest.
Proof.
  rewrite (matchAtoms_Parses _ ipPattern_delimited). apply Parses_Address.
Qed.

(** At most one address starts at a place. *)
Lemma Address_unique (p : option ascii) (m m' rest rest' : list ascii) :
  m ++ rest = m' ++ rest' -> Address p m rest -> Address p m' rest' ->
  m = m' /\ rest = rest'.
Proof.
  intros Heq Ha Ha'.
  assert (H1 : matchAtoms ipPattern p (m ++ rest) = Some (length m)).
  { apply match_ip_Address. exists m, rest. auto. }
  assert (H2 : matchAtoms ipPattern p (m ++ rest) = Some (length m')).
  { apply match_ip_Address. exists m', rest'. auto. }
  rewrite H1 in H2. injection H2 as Hlen.
  apply app_eq_app in Heq as (l & [[-> ->] | [-> ->]]).
  - rewrite length_app in Hlen.
    destruct l; [rewrite !app_nil_r; auto|simpl in Hlen; lia].
  - rewrite length_app in Hlen.
    destruct l; [rewrite !app_nil_r; auto|simpl in Hlen; lia].
Qed.











End MaskedFacts.

Lemma substring_0_length (m : nat) :
  forall s : string, (String.length (String.substring 0 m s) <= m)%nat.
Proof.
  induction m as [|m IH]; intros [|c s]; simpl; try lia.
  specialize (IH s). lia.
Qed.





(** Cutting at 80 characters can leave the start of a longer number that
    reads as a dotted quad, which is why the last part of the statement
    asks that nothing be cut off. *)
Example sanitizeTitle_cut_inside_number :
  let t :=
    "Exposure summary for the quarter, build identifiers follow in order :    1.2.3.4567" in
  Dashboard.sanitizeTitle t
  = "Exposure summary for the quarter, build identifiers follow in order :    1.2.3.4"
  /\ Dashboard.containsIP None (list_ascii_of_string t) = false
  /\ Dashboard.containsIP None
       (list_ascii_of_string (Dashboard.sanitizeTitle t)) = true.
Proof. repeat split; vm_compute; reflexivity. Qed.

(** Written by one run, read back by the next: with [USE_CACHE] set, a
    second [execute] within the TTL is a cache hit carrying the same
    payload, and the fetch is not called again. *)
Example execute_then_cache_hit :
  let w0 := Fixtures.world 1700000000000 [] [("USE_CACHE", "true")] in
  let w1 :=
    snd (Scraper.execute (P := Fixtures.platform) (JT := Fixtures.jsonString)
           (JM := Fixtures.jsonMetadata) (impl := Fixtures.working)
           (Fixtures.scraper true) w0) in
  fst (Scraper.execute (P := Fixtures.platform) (JT := Fixtures.jsonString)
         (JM := Fixtures.jsonMetadata) (impl := Fixtures.failing)
         (Fixtures.scraper true) w1)
  = Ret ({| Scraper.success := true; Scraper.data := Some "payload";
            Scraper.error := None; Scraper.fromCache := true |},
         Fixtures.scraper true).
Proof. vm_compute. reflexivity. Qed.

(* ===================================================================== *)
(** * Part III. Further properties of the embedded code                   *)
(* ===================================================================== *)

(** ** Computations that only print *)

Lemma sameButTrace_refl (w : World) : sameButTrace w w.
Proof. repeat split. Qed.

Lemma sameButTrace_trans (w1 w2 w3 : World) :
  sameButTrace w1 w2 -> sameButTrace w2 w3 -> sameButTrace w1 w3.
Proof.
  unfold sameButTrace.
  intros (? & ? & ? & ? & ? & ?) (? & ? & ? & ? & ? & ?).
  repeat split; congruence.
Qed.

Lemma quiet_ret {A} (a : A) : quiet (ret a).
Proof. intros w o w' [= <- <-]. apply sameButTrace_refl. Qed.

Lemma quiet_throw {A} (e : Exn) : quiet (throw (A := A) e).
Proof. intros w o w' [= <- <-]. apply sameButTrace_refl. Qed.

Lemma quiet_bind {A B} (c : IO A) (k : A -> IO B) :
  quiet c -> (forall a, quiet (k a)) -> quiet (bind c k).
Proof.
  intros Hc Hk w o w' E. unfold bind in E.
  destruct (c w) as [[a | e] w1] eqn:Ec.
  - apply (sameButTrace_trans _ w1); [exact (Hc _ _ _ Ec)|exact (Hk _ _ _ _ E)].
  - injection E as <- <-. exact (Hc _ _ _ Ec).
Qed.

Lemma quiet_try_catch {A} (body : IO A) (handler : Exn -> IO A) :
  quiet body -> (forall e, quiet (handler e)) -> quiet (try_catch body handler).
Proof.
  intros Hb Hh w o w' E. unfold try_catch in E.
  destruct (body w) as [[a | e] w1] eqn:Eb.
  - injection E as <- <-. exact (Hb _ _ _ Eb).
  - apply (sameButTrace_trans _ w1); [exact (Hb _ _ _ Eb)|exact (Hh _ _ _ _ E)].
Qed.

Lemma quiet_emit (e : Event) : quiet (emit e).
Proof. intros w o w' [= <- <-]. repeat split. Qed.

Lemma quiet_Date_now : quiet Date_now.
Proof. intros w o w' [= <- <-]. apply sameButTrace_refl. Qed.

Lemma quiet_timezone : quiet timezone.
Proof. intros w o w' [= <- <-]. apply sameButTrace_refl. Qed.

Lemma quiet_getenv (name : string) : quiet (getenv name).
Proof. intros w o w' [= <- <-]. apply sameButTrace_refl. Qed.

Lemma quiet_fs_access (path : string) : quiet (fs_access path).
Proof.
  intros w o w'. unfold fs_access.
  destruct (files w !! path); intros [= <- <-]; apply sameButTrace_refl.
Qed.

Lemma quiet_fs_readFile (path : string) : quiet (fs_readFile path).
Proof.
  intros w o w'. unfold fs_readFile.
  destruct (files w !! path); intros [= <- <-]; apply sameButTrace_refl.
Qed.

Lemma quiet_JSON_parse_io {T} {J : JSON T} (raw : string) :
  quiet (JSON_parse_io (T := T) raw).
Proof.
  unfold JSON_parse_io. destruct (JSON_parse raw);
    [apply quiet_ret|apply quiet_throw].
Qed.

Lemma quiet_if {A} (b : bool) (c1 c2 : IO A) :
  quiet c1 -> quiet c2 -> quiet (if b then c1 else c2).
Proof. destruct b; tauto. Qed.

Section CacheReadOnly.

Context {P : Platform} {T : Type} {JT : JSON T}
        {JM : JSON Scraper.CacheMetadata} {impl : Scraper.ScraperImpl T}.

Lemma loadFromCache_quiet (this : Scraper.BaseScraper) :
  quiet (Scraper.loadFromCache this).
Proof.
  unfold Scraper.loadFromCache. apply quiet_try_catch.
  - apply quiet_bind; [apply quiet_fs_access|]. intros _.
    apply quiet_bind; [apply quiet_fs_access|]. intros _.
    apply quiet_bind; [apply quiet_fs_readFile|]. intros metadataRaw.
    apply quiet_bind; [apply quiet_JSON_parse_io|]. intros metadata.
    apply quiet_bind; [apply quiet_getenv|]. intros envTtl.
    apply quiet_bind; [apply quiet_timezone|]. intros tz.
    apply quiet_bind; [apply quiet_Date_now|]. intros t.
    apply quiet_if.
    + apply quiet_bind; [apply quiet_emit|]. intros _. apply quiet_ret.
    + apply quiet_bind; [apply quiet_fs_readFile|]. intros dataRaw.
      apply quiet_if.
      * apply quiet_bind; [apply quiet_emit|]. intros _. apply quiet_ret.
      * apply quiet_bind; [apply quiet_JSON_parse_io|]. intros d.
        apply quiet_ret.
  - intros e. apply quiet_bind; [apply quiet_emit|]. intros _. apply quiet_ret.
Qed.

End CacheReadOnly.

(** X1. Reading the cache changes nothing but the console: whatever
    [loadFromCache] answers (and it always answers), the clock, the files,
    the environment and the pending timers are as before. *)
Theorem X1_cache_read_is_read_only
    {P : Platform} {T : Type} {JT : JSON T}
    {JM : JSON Scraper.CacheMetadata} {impl : Scraper.ScraperImpl T}
    (this : Scraper.BaseScraper) (w : World) :
  exists r w',
    Scraper.loadFromCache this w = (Ret r, w')
    /\ now w' = now w /\ files w' = files w /\ env w' = env w
    /\ readOnly w' = readOnly w /\ latency w' = latency w.
Proof.
  destruct (loadFromCache_returns this w) as (r & w' & E).
  exists r, w'. split; [exact E|].
  destruct (loadFromCache_quiet this w _ _ E) as (Hn & _ & Hf & Hr & He & Hl).
  repeat (split; [assumption|]). assumption.
Qed.

(** ** Cache files *)

Lemma append_inj_l (s a b : string) : s ++ a = s ++ b -> a = b.
Proof.
  induction s as [|c s IH]; simpl; [tauto|].
  intros [= H]. exact (IH H).
Qed.

Lemma list_ascii_of_string_app (a b : string) :
  list_ascii_of_string (a ++ b)
  = (list_ascii_of_string a ++ list_ascii_of_string b)%list.
Proof. induction a as [|c a IH]; simpl; [reflexivity|rewrite IH; reflexivity]. Qed.

Lemma list_ascii_of_string_inj (a b : string) :
  list_ascii_of_string a = list_ascii_of_string b -> a = b.
Proof.
  intros H. rewrite <- (string_of_list_ascii_of_string a),
              <- (string_of_list_ascii_of_string b), H.
  reflexivity.
Qed.

Lemma append_inj_r (a b s : string) : a ++ s = b ++ s -> a = b.
Proof.
  intros H. apply list_ascii_of_string_inj.
  apply (f_equal list_ascii_of_string) in H.
  rewrite !list_ascii_of_string_app in H.
  exact (app_inv_tail _ _ _ H).
Qed.

Lemma append_empty_r (s : string) : s ++ "" = s.
Proof.
  induction s as [|c s IH]; [reflexivity|].
  change (String c (s ++ "") = String c s). rewrite IH. reflexivity.
Qed.

Lemma append_assoc (a b c : string) : (a ++ b) ++ c = a ++ b ++ c.
Proof.
  induction a as [|x a IH]; [reflexivity|].
  change (String x ((a ++ b) ++ c) = String x (a ++ b ++ c)).
  rewrite IH. reflexivity.
Qed.

Lemma length_append (a b : string) :
  String.length (a ++ b) = (String.length a + String.length b)%nat.
Proof. induction a as [|c a IH]; simpl; [reflexivity|rewrite IH; reflexivity]. Qed.

Lemma split_free (sep : ascii) (a : string) :
  free_of sep a -> Js.split sep a = [a].
Proof.
  unfold free_of. induction a as [|c a IH]; simpl; [reflexivity|].
  intros Hfree.
  destruct (Ascii.eqb_spec c sep) as [-> | Hne]; [tauto|].
  rewrite IH by tauto. reflexivity.
Qed.

(** No name ends both in [-cache.json] and in [-cache.meta.json]. *)
Lemma payload_name_not_metadata_name (a b : string) :
  a ++ "-cache.json" <> b ++ "-cache.meta.json".
Proof.
  intros H. apply (f_equal list_ascii_of_string) in H.
  rewrite !list_ascii_of_string_app in H.
  apply (f_equal (@rev ascii)) in H. rewrite !rev_app_distr in H.
  apply (f_equal (firstn 6)) in H.
  simpl in H. discriminate H.
Qed.

(** *** Normalised paths *)

Lemma split_nonempty (sep : ascii) (s : string) : Js.split sep s <> [].
Proof.
  destruct s as [|c s]; simpl; [discriminate|].
  destruct (Ascii.eqb c sep); [discriminate|].
  destruct (Js.split sep s); discriminate.
Qed.

(** Splitting at the separator that joins two texts. *)
Lemma split_app_sep (sep : ascii) (a b : string) :
  Js.split sep (a ++ String sep b)
  = (Js.split sep a ++ Js.split sep b)%list.
Proof.
  induction a as [|c a IH].
  - simpl. rewrite Ascii.eqb_refl. reflexivity.
  - change (String c a ++ String sep b) with (String c (a ++ String sep b)).
    cbn [Js.split]. rewrite IH.
    destruct (Ascii.eqb c sep); [reflexivity|].
    pose proof (split_nonempty sep a) as Hne.
    destruct (Js.split sep a) as [|p ps]; [contradiction|reflexivity].
Qed.

(** The last segment of a text that ends in a text free of separators
    ends in it too. *)
Lemma split_app_free (sep : ascii) (a t : string) :
  free_of sep t ->
  exists pre seg, Js.split sep (a ++ t) = List.app pre [seg ++ t].
Proof.
  intros Hfree. induction a as [|c a (pre & seg & IH)].
  - exists [], "". simpl. apply split_free. exact Hfree.
  - change (String c a ++ t) with (String c (a ++ t)).
    cbn [Js.split]. rewrite IH.
    destruct (Ascii.eqb c sep).
    + exists ("" :: pre), seg. reflexivity.
    + destruct pre as [|p ps].
      * exists [], (String c seg). reflexivity.
      * exists (String c p :: ps), seg. reflexivity.
Qed.

Lemma lastChar_app (a t : string) :
  t <> "" -> lastChar (a ++ t) = lastChar t.
Proof.
  intros Ht. induction a as [|c a IH]; [reflexivity|].
  change (String c a ++ t) with (String c (a ++ t)).
  cbn [lastChar]. rewrite IH.
  destruct (a ++ t) eqn:E; [|reflexivity].
  destruct a; simpl in E; [contradiction|discriminate].
Qed.

Lemma concat_snoc (sep : string) (l : list string) (x : string) :
  String.concat sep (l ++ [x])
  = match l with
    | [] => x
    | _ => String.concat sep l ++ sep ++ x
    end.
Proof.
  induction l as [|y l IH]; [reflexivity|].
  destruct l as [|z l].
  - reflexivity.
  - change (String.concat sep ((y :: z :: l) ++ [x]))
      with (y ++ sep ++ String.concat sep ((z :: l) ++ [x])).
    rewrite IH.
    change (String.concat sep (y :: z :: l))
      with (y ++ sep ++ String.concat sep (z :: l)).
    rewrite !append_assoc. reflexivity.
Qed.

(** A segment of three characters or more is kept as it is. *)
Lemma normalizeStep_plain (above : bool) (kept : list string) (x : string) :
  (3 <= String.length x)%nat -> normalizeStep above kept x = x :: kept.
Proof.
  intros Hlen. unfold normalizeStep.
  destruct (String.eqb_spec x "") as [-> | _]; [simpl in Hlen; lia|].
  destruct (String.eqb_spec x ".") as [-> | _]; [simpl in Hlen; lia|].
  destruct (String.eqb_spec x "..") as [-> | _]; [simpl in Hlen; lia|].
  reflexivity.
Qed.

(** What comes before the last segment of a normalised path. *)
Definition keptPrefix (absolute : bool) (kept : list string) : string :=
  (if absolute then "/" else "")
  ++ match kept with
     | [] => ""
     | _ => String.concat "/" (rev kept) ++ "/"
     end.

(** A path whose last segment has three characters or more keeps it as its
    last segment; what comes before depends on the segments before only. *)
Lemma path_normalize_last (p : string) (pre : list string) (x : string) :
  Js.split "/" p = (pre ++ [x])%list ->
  (3 <= String.length x)%nat ->
  endsWithSlash p = false ->
  path_normalize p
  = keptPrefix (startsWithSlash p)
      (fold_left (normalizeStep (negb (startsWithSlash p))) pre []) ++ x.
Proof.
  intros Hsplit Hlen Hend. unfold path_normalize.
  destruct (String.eqb_spec p "") as [-> | _].
  { simpl in Hsplit. destruct pre as [|? [|]]; try discriminate.
    injection Hsplit as <-. simpl in Hlen. lia. }
  rewrite Hsplit, Hend, fold_left_app. cbn [fold_left].
  rewrite (normalizeStep_plain _ _ _ Hlen).
  set (kept := fold_left _ pre []).
  cbn [rev]. rewrite concat_snoc.
  assert (Hbody : (match rev kept with
                   | [] => x
                   | _ => String.concat "/" (rev kept) ++ "/" ++ x
                   end)
                  = match kept with
                    | [] => ""
                    | _ => String.concat "/" (rev kept) ++ "/"
                    end ++ x).
  { destruct kept as [|k ks]; [reflexivity|].
    destruct (rev (k :: ks)) eqn:E.
    - apply (f_equal (@length string)) in E. rewrite length_rev in E.
      discriminate E.
    - rewrite append_assoc. reflexivity. }
  rewrite Hbody.
  set (body := match kept with [] => "" | _ => _ end ++ x).
  destruct (String.eqb_spec body "") as [Hb | _].
  { apply (f_equal String.length) in Hb. unfold body in Hb.
    rewrite length_append in Hb. simpl in Hb. lia. }
  rewrite append_empty_r. unfold keptPrefix, body.
  rewrite append_assoc. reflexivity.
Qed.

Lemma endsWithSlash_app (a t : string) :
  t <> "" -> endsWithSlash (a ++ t) = endsWithSlash t.
Proof. intros Ht. unfold endsWithSlash. rewrite lastChar_app by exact Ht. reflexivity. Qed.

(** A path joined from a directory and a name that ends in a suffix of
    three characters or more, free of separators, ends in that suffix. *)
Lemma path_join_ends (dir name suffix : string) :
  free_of "/" suffix -> (3 <= String.length suffix)%nat ->
  endsWithSlash suffix = false ->
  exists q, path_join dir (name ++ suffix) = q ++ suffix.
Proof.
  intros Hfree Hlen Hend.
  assert (Hsuffix : suffix <> "").
  { intros ->. simpl in Hlen. lia. }
  assert (Hname : name ++ suffix <> "").
  { intros H. apply (f_equal String.length) in H.
    rewrite length_append in H. simpl in H. lia. }
  assert (Hnorm : forall a, exists q, path_normalize (a ++ suffix) = q ++ suffix).
  { intros a. destruct (split_app_free "/" a suffix Hfree) as (pre & seg & Hs).
    rewrite (path_normalize_last _ pre (seg ++ suffix) Hs).
    - eexists. rewrite <- append_assoc. reflexivity.
    - rewrite length_append. lia.
    - rewrite endsWithSlash_app by exact Hsuffix. exact Hend. }
  unfold path_join.
  destruct (String.eqb_spec (name ++ suffix) "") as [H | _]; [contradiction|].
  destruct (String.eqb dir "").
  - apply Hnorm.
  - replace (dir ++ "/" ++ name ++ suffix) with ((dir ++ "/" ++ name) ++ suffix)
      by (rewrite !append_assoc; reflexivity).
    apply Hnorm.
Qed.

(** What [path.join] puts before a name that is one segment. *)
Definition dirPrefix (dir : string) : string :=
  if String.eqb dir "" then ""
  else keptPrefix (startsWithSlash dir)
         (fold_left (normalizeStep (negb (startsWithSlash dir)))
                    (Js.split "/" dir) []).

Lemma startsWithSlash_free (x : string) :
  free_of "/" x -> startsWithSlash x = false.
Proof.
  unfold free_of. destruct x as [|c x]; [reflexivity|]. simpl.
  intros Hfree. destruct (Ascii.eqb_spec c "/") as [-> | _]; [|reflexivity].
  exfalso. apply Hfree. left. reflexivity.
Qed.

Lemma startsWithSlash_app (a b : string) :
  a <> "" -> startsWithSlash (a ++ b) = startsWithSlash a.
Proof. destruct a; [contradiction|reflexivity]. Qed.

(** A name of one segment, three characters or more, is appended to a
    prefix that the directory alone decides. *)
Lemma path_join_segment (dir x : string) :
  free_of "/" x -> (3 <= String.length x)%nat ->
  path_join dir x = dirPrefix dir ++ x.
Proof.
  intros Hfree Hlen.
  assert (Hx : x <> "").
  { intros ->. simpl in Hlen. lia. }
  assert (Hend : endsWithSlash x = false).
  { unfold endsWithSlash. destruct (lastChar x) as [c|] eqn:E; [|reflexivity].
    destruct (Ascii.eqb_spec c "/") as [-> | _]; [|reflexivity].
    exfalso. clear Hlen Hx. unfold free_of in Hfree.
    induction x as [|c x IH]; [discriminate|].
    simpl in E. destruct x as [|c' x'].
    - injection E as ->. apply Hfree. left. reflexivity.
    - apply IH; [|exact E]. intros Hin. apply Hfree. right. exact Hin. }
  unfold path_join, dirPrefix.
  destruct (String.eqb_spec x "") as [H | _]; [contradiction|].
  destruct (String.eqb_spec dir "") as [-> | Hdir].
  - rewrite (path_normalize_last x [] x (split_free _ _ Hfree) Hlen Hend).
    rewrite (startsWithSlash_free x Hfree). reflexivity.
  - change (dir ++ "/" ++ x) with (dir ++ String "/" x).
    rewrite (path_normalize_last (dir ++ String "/" x) (Js.split "/" dir) x).
    + rewrite (startsWithSlash_app dir _ Hdir). reflexivity.
    + rewrite split_app_sep, (split_free _ _ Hfree). reflexivity.
    + exact Hlen.
    + replace (dir ++ String "/" x) with ((dir ++ "/") ++ x)
        by (rewrite append_assoc; reflexivity).
      rewrite endsWithSlash_app by exact Hx. exact Hend.
Qed.

Lemma free_of_app (sep : ascii) (a b : string) :
  free_of sep a -> free_of sep b -> free_of sep (a ++ b).
Proof.
  unfold free_of. rewrite list_ascii_of_string_app, in_app_iff. tauto.
Qed.

Lemma cache_path_not_metadata_path_of (a b : Scraper.BaseScraper) :
  Scraper.cacheDir a = Scraper.cacheDir b ->
  Scraper.getCachePath a <> Scraper.getCacheMetadataPath b.
Proof.
  intros Hdir H.
  unfold Scraper.getCachePath, Scraper.getCacheMetadataPath in H.
  destruct (path_join_ends (Scraper.cacheDir a)
              (Scraper.source (Scraper.config a)) "-cache.json")
    as (q1 & E1);
    [unfold free_of; simpl; intuition discriminate|simpl; lia|reflexivity|].
  destruct (path_join_ends (Scraper.cacheDir b)
              (Scraper.source (Scraper.config b)) "-cache.meta.json")
    as (q2 & E2);
    [unfold free_of; simpl; intuition discriminate|simpl; lia|reflexivity|].
  rewrite E1, E2 in H.
  exact (payload_name_not_metadata_name _ _ H).
Qed.

Lemma cache_path_not_metadata_path (this : Scraper.BaseScraper) :
  Scraper.getCacheMetadataPath this <> Scraper.getCachePath this.
Proof.
  intros H. symmetry in H.
  exact (cache_path_not_metadata_path_of this this eq_refl H).
Qed.

(** X2. Scrapers that share a cache directory never share a file: a
    payload path is never a metadata path, whatever the directory and the
    sources; and when the sources hold no [/], two payload paths, or two
    metadata paths, coincide only for the same source. *)
Theorem X2_cache_paths_do_not_collide
    (a b : Scraper.BaseScraper) :
  Scraper.cacheDir a = Scraper.cacheDir b ->
  Scraper.getCachePath a <> Scraper.getCacheMetadataPath b
  /\ (free_of "/" (Scraper.source (Scraper.config a)) ->
      free_of "/" (Scraper.source (Scraper.config b)) ->
      (Scraper.getCachePath a = Scraper.getCachePath b ->
       Scraper.source (Scraper.config a) = Scraper.source (Scraper.config b))
      /\ (Scraper.getCacheMetadataPath a = Scraper.getCacheMetadataPath b ->
          Scraper.source (Scraper.config a)
          = Scraper.source (Scraper.config b))).
Proof.
  intros Hdir. split; [exact (cache_path_not_metadata_path_of a b Hdir)|].
  intros Ha Hb.
  assert (Hseg : forall src suffix,
             free_of "/" src -> free_of "/" suffix ->
             (3 <= String.length suffix)%nat ->
             forall dir, path_join dir (src ++ suffix)
                         = dirPrefix dir ++ src ++ suffix).
  { intros src suffix Hs Hsuf Hlen dir. apply path_join_segment.
    - apply free_of_app; assumption.
    - rewrite length_append. lia. }
  unfold Scraper.getCachePath, Scraper.getCacheMetadataPath.
  rewrite Hdir. split; intros H.
  - rewrite !Hseg in H;
      try assumption; try (simpl; lia);
      try (unfold free_of; simpl; intuition discriminate).
    apply append_inj_l, append_inj_r in H. exact H.
  - rewrite !Hseg in H;
      try assumption; try (simpl; lia);
      try (unfold free_of; simpl; intuition discriminate).
    apply append_inj_l, append_inj_r in H. exact H.
Qed.

Lemma X2_cache_paths_do_not_collide_witness :
  Scraper.getCachePath (Fixtures.scraper true)
  <> Scraper.getCacheMetadataPath (Fixtures.scraper false)
  /\ (Scraper.getCachePath (Fixtures.scraper true)
      = Scraper.getCachePath (Fixtures.scraper false) ->
      Scraper.source (Scraper.config (Fixtures.scraper true))
      = Scraper.source (Scraper.config (Fixtures.scraper false))).
Proof.
  destruct (X2_cache_paths_do_not_collide
              (Fixtures.scraper true) (Fixtures.scraper false) eq_refl)
    as [H Hsame].
  split; [exact H|].
  destruct Hsame as [Hpayload _];
    [unfold free_of; simpl; intuition discriminate
    |unfold free_of; simpl; intuition discriminate|].
  exact Hpayload.
Defined.

(** Two sources that differ by a leading [./] share their cache files. *)
Example cache_paths_of_dotted_source :
  path_join "./DATA/cti-cache" ("./x" ++ "-cache.json")
  = path_join "./DATA/cti-cache" ("x" ++ "-cache.json")
  /\ path_join "./DATA/cti-cache" ("x" ++ "-cache.json")
     = "DATA/cti-cache/x-cache.json".
Proof. split; vm_compute; reflexivity. Qed.

Section CacheWrite.

Context {P : Platform} {T : Type} {JT : JSON T}
        {JM : JSON Scraper.CacheMetadata} {impl : Scraper.ScraperImpl T}.

(** On a read-only disk the write is given up at once. *)
Lemma saveToCache_readOnly (this : Scraper.BaseScraper) (d : T) (w : World) :
  readOnly w = true ->
  Scraper.saveToCache this d w =
  (Ret tt,
   mkWorld (now w) (zone w) (files w) (readOnly w) (env w) (latency w)
           (ConsoleError (Scraper.tag ++ "Failed to cache data:") :: trace w)).
Proof.
  intros Hro. unfold Scraper.saveToCache, try_catch, bind, fs_mkdir.
  rewrite Hro. unfold console_error, emit. rewrite Hro. reflexivity.
Qed.

(** On a writable disk, with an expiry date in range, both files are
    written. *)
Lemma saveToCache_writable (this : Scraper.BaseScraper) (d : T) (w : World) :
  readOnly w = false ->
  - maxTime
    <= Qtrunc (inject_Z (now w)
               + Scraper.ttlHours (Scraper.cache (Scraper.config this))
                 * 3600000)%Q
    <= maxTime ->
  Scraper.saveToCache this d w =
  (Ret tt,
   mkWorld (now w) (zone w)
           (<[Scraper.getCacheMetadataPath this :=
                JSON_stringify (metadataAt this (now w) (JSON_stringify d))]>
              (<[Scraper.getCachePath this := JSON_stringify d]> (files w)))
           (readOnly w) (env w) (latency w)
           (ConsoleLog (Scraper.tag ++ "Data cached successfully.")
              :: trace w)).
Proof.
  intros Hrw Hrange.
  unfold Scraper.saveToCache, try_catch, bind, fs_mkdir, Date_now,
    toISOString_io, fs_writeFile, ret.
  rewrite Hrw. cbv beta iota.
  rewrite (timeClip_in_range _ Hrange). cbv beta iota.
  rewrite Hrw. cbv beta iota. simpl readOnly.
  reflexivity.
Qed.

End CacheWrite.

Section CacheWriteFacts.

Context {P : Platform} {T : Type} {JT : JSON T}
        {JM : JSON Scraper.CacheMetadata} {impl : Scraper.ScraperImpl T}.

Lemma timeClip_cases (t : Z) :
  (- maxTime <= t <= maxTime /\ timeClip t = Some t) \/ timeClip t = None.
Proof.
  unfold timeClip. destruct (Z.abs t <=? maxTime) eqn:E; [left|right; reflexivity].
  apply Z.leb_le in E. split; [lia|reflexivity].
Qed.

(** With an expiry date out of range nothing is written. *)
Lemma saveToCache_out_of_range (this : Scraper.BaseScraper) (d : T) (w : World) :
  timeClip (Qtrunc (inject_Z (now w)
                    + Scraper.ttlHours (Scraper.cache (Scraper.config this))
                      * 3600000)%Q) = None ->
  exists w', Scraper.saveToCache this d w = (Ret tt, w') /\ sameButTrace w w'.
Proof.
  intros Hclip.
  unfold Scraper.saveToCache, try_catch, bind, fs_mkdir, Date_now,
    toISOString_io, ret.
  destruct (readOnly w).
  - eexists. split; [reflexivity|]. repeat split.
  - cbv beta iota. rewrite Hclip. cbv beta iota.
    eexists. split; [reflexivity|]. repeat split.
Qed.

End CacheWriteFacts.

(** X3. Writing the cache never throws and touches nothing but the
    scraper's own payload and metadata files: the clock, the environment
    and every other file are as before, and on a read-only disk no file
    changes at all. *)
Theorem X3_cache_write_touches_only_its_files
    {P : Platform} {T : Type} {JT : JSON T}
    {JM : JSON Scraper.CacheMetadata} {impl : Scraper.ScraperImpl T}
    (this : Scraper.BaseScraper) (d : T) (w : World) :
  exists w',
    Scraper.saveToCache this d w = (Ret tt, w')
    /\ now w' = now w /\ env w' = env w /\ latency w' = latency w
    /\ (forall path,
           path <> Scraper.getCachePath this ->
           path <> Scraper.getCacheMetadataPath this ->
           files w' !! path = files w !! path)
    /\ (readOnly w = true -> files w' = files w).
Proof.
  destruct (readOnly w) eqn:Hro.
  - rewrite (saveToCache_readOnly this d w Hro).
    eexists. split; [reflexivity|]. simpl. repeat split; reflexivity.
  - destruct (timeClip_cases
                (Qtrunc (inject_Z (now w)
                         + Scraper.ttlHours (Scraper.cache (Scraper.config this))
                           * 3600000)%Q)) as [[Hrange _] | Hnone].
    + rewrite (saveToCache_writable this d w Hro Hrange).
      eexists. split; [reflexivity|]. simpl.
      split; [reflexivity|]. split; [reflexivity|]. split; [reflexivity|].
      split; [|discriminate].
      intros path Hp Hm.
      rewrite lookup_insert_ne by congruence.
      rewrite lookup_insert_ne by congruence. reflexivity.
    + destruct (saveToCache_out_of_range this d w Hnone)
        as (w' & E & Hn & _ & Hf & _ & He & Hl).
      exists w'. split; [exact E|].
      split; [exact Hn|]. split; [exact He|]. split; [exact Hl|].
      split; [intros; rewrite Hf; reflexivity|intros _; exact Hf].
Qed.

Lemma X3_cache_write_touches_only_its_files_witness :
  exists w',
    Scraper.saveToCache (P := Fixtures.platform) (JT := Fixtures.jsonString)
      (JM := Fixtures.jsonMetadata) (impl := Fixtures.working)
      (Fixtures.scraper true) "payload"
      (Fixtures.world 1700000000000 [("notes.txt", "keep me")] [])
    = (Ret tt, w')
    /\ files w' !! "notes.txt" = Some "keep me".
Proof.
  destruct (X3_cache_write_touches_only_its_files (P := Fixtures.platform)
              (JT := Fixtures.jsonString) (JM := Fixtures.jsonMetadata)
              (impl := Fixtures.working) (Fixtures.scraper true) "payload"
              (Fixtures.world 1700000000000 [("notes.txt", "keep me")] []))
    as (w' & E & _ & _ & _ & Hother & _).
  exists w'. split; [exact E|].
  rewrite (Hother "notes.txt"); [vm_compute; reflexivity| |];
    vm_compute; discriminate.
Defined.

(** X4. Cache round trip: after [saveToCache] on a writable disk, a read by
    the same scraper at any later moment up to the whole hours of the TTL
    answers the data that was stored, provided the payload and the sidecar
    survive [JSON.stringify]/[JSON.parse], the creation date survives
    [toISOString]/[new Date], the expiry date is in range, the TTL in
    force is not negative, and no change of the zone's offset gets in the
    way of moving the local time of the write on by these hours (across
    such a change the code's expiry date lies an hour earlier or later). *)
Theorem X4_cache_round_trip
    {P : Platform} {T : Type} {JT : JSON T}
    {JM : JSON Scraper.CacheMetadata} {impl : Scraper.ScraperImpl T}
    (this : Scraper.BaseScraper) (d : T) (w later : World) :
  readOnly w = false ->
  JSON_parse (JSON_stringify d) = Some d ->
  JSON_parse (JSON_stringify (metadataAt this (now w) (JSON_stringify d)))
  = Some (metadataAt this (now w) (JSON_stringify d)) ->
  Date_parse (Date_toISOString (now w)) = Some (now w) ->
  - maxTime
  <= Qtrunc (inject_Z (now w)
             + Scraper.ttlHours (Scraper.cache (Scraper.config this))
               * 3600000)%Q
  <= maxTime ->
  (0 <= effectiveTtl this later)%Q ->
  sameOffset (zone later) (now w) (Qfloor (effectiveTtl this later)) ->
  files later = files (snd (Scraper.saveToCache this d w)) ->
  now w <= now later <= now w + Qfloor (effectiveTtl this later) * msPerHour ->
  fst (Scraper.saveToCache this d w) = Ret tt
  /\ fst (Scraper.loadFromCache this later) = Ret (Some d).
Proof.
  intros Hrw Hdata Hmeta Hdate Hrange Httl Hsame Hfiles Hnow.
  rewrite (saveToCache_writable this d w Hrw Hrange) in Hfiles |- *.
  split; [reflexivity|]. simpl in Hfiles.
  assert (Hm : files later !! Scraper.getCacheMetadataPath this
               = Some (JSON_stringify
                         (metadataAt this (now w) (JSON_stringify d)))).
  { rewrite Hfiles. apply lookup_insert_eq. }
  assert (Hc : files later !! Scraper.getCachePath this
               = Some (JSON_stringify d)).
  { rewrite Hfiles.
    rewrite lookup_insert_ne by (apply cache_path_not_metadata_path).
    apply lookup_insert_eq. }
  unfold Scraper.loadFromCache, try_catch, bind, fs_access, fs_readFile,
    JSON_parse_io, getenv, timezone, Date_now, ret.
  io_run.
  fold (effectiveTtl this later).
  cbn [metadataAt Scraper.createdAt Scraper.checksum].
  rewrite Hdate.
  rewrite (setHours_getHours_add _ _ _ Httl Hsame).
  assert (Hfresh : Date_gt (Some (now later))
                     (timeClip (now w
                                + Qfloor (effectiveTtl this later) * msPerHour))
                   = false).
  { unfold timeClip. destruct (_ <=? maxTime); [|reflexivity].
    simpl. apply Z.ltb_ge. lia. }
  rewrite Hfresh. io_run.
  unfold Scraper.generateChecksum. rewrite String.eqb_refl. simpl negb.
  io_run. reflexivity.
Qed.

Lemma X4_cache_round_trip_witness :
  let w := Fixtures.world 1700000000000 [] [] in
  let saved :=
    Scraper.saveToCache (P := Fixtures.platform) (JT := Fixtures.jsonString)
      (JM := Fixtures.jsonMetadata) (impl := Fixtures.working)
      (Fixtures.scraper true) "payload" w in
  let later :=
    mkWorld 1700086400000 (fixedZone 0) (files (snd saved)) false ∅ [] [] in
  fst (Scraper.loadFromCache (P := Fixtures.platform)
         (JT := Fixtures.jsonString) (JM := Fixtures.jsonMetadata)
         (impl := Fixtures.working) (Fixtures.scraper true) later)
  = Ret (Some "payload").
Proof.
  intros w saved later.
  apply (X4_cache_round_trip (P := Fixtures.platform)
           (JT := Fixtures.jsonString) (JM := Fixtures.jsonMetadata)
           (impl := Fixtures.working) (Fixtures.scraper true) "payload"
           w later);
    try (vm_compute; reflexivity);
    try (vm_compute; split; discriminate).
  vm_compute. discriminate.
Defined.

(** ** Cache hits *)

Section CacheHit.

Context {P : Platform} {T : Type} {JT : JSON T}
        {JM : JSON Scraper.CacheMetadata} {impl : Scraper.ScraperImpl T}.

(** What a hit presupposes. *)
Lemma loadFromCache_hit_inv (this : Scraper.BaseScraper) (w w' : World) (d : T) :
  Scraper.loadFromCache this w = (Ret (Some d), w') ->
  exists metadataRaw metadata dataRaw,
    files w !! Scraper.getCacheMetadataPath this = Some metadataRaw
    /\ JSON_parse metadataRaw = Some metadata
    /\ files w !! Scraper.getCachePath this = Some dataRaw
    /\ md5_hex dataRaw = Scraper.checksum metadata
    /\ JSON_parse dataRaw = Some d
    /\ Date_gt (Some (now w)) (expiryOf this w metadata) = false
    /\ w' = w.
Proof.
  unfold Scraper.loadFromCache, try_catch, bind, fs_access, fs_readFile,
    JSON_parse_io, getenv, timezone, Date_now, ret, throw, console_log, emit.
  destruct (files w !! Scraper.getCacheMetadataPath this)
    as [metadataRaw|] eqn:Em; [|discriminate].
  destruct (files w !! Scraper.getCachePath this)
    as [dataRaw|] eqn:Ec; [|discriminate].
  cbv beta iota. rewrite Em.
  destruct (JSON_parse metadataRaw) as [metadata|] eqn:Ep; [|discriminate].
  cbv beta iota. fold (effectiveTtl this w). fold (expiryOf this w metadata).
  destruct (Date_gt (Some (now w)) (expiryOf this w metadata)) eqn:Eg;
    [discriminate|].
  rewrite Ec. cbv beta iota. unfold Scraper.generateChecksum.
  destruct (String.eqb_spec (md5_hex dataRaw) (Scraper.checksum metadata))
    as [Hsum|Hsum]; [|discriminate].
  simpl negb. cbv iota.
  destruct (JSON_parse dataRaw) as [d'|] eqn:Ed; [|discriminate].
  intros [= -> <-].
  exists metadataRaw, metadata, dataRaw. repeat split; assumption.
Qed.

(** And what suffices for one. *)
Lemma loadFromCache_hit_intro
    (this : Scraper.BaseScraper) (w : World)
    (metadataRaw dataRaw : string) (metadata : Scraper.CacheMetadata) (d : T) :
  files w !! Scraper.getCacheMetadataPath this = Some metadataRaw ->
  JSON_parse metadataRaw = Some metadata ->
  files w !! Scraper.getCachePath this = Some dataRaw ->
  md5_hex dataRaw = Scraper.checksum metadata ->
  JSON_parse dataRaw = Some d ->
  Date_gt (Some (now w)) (expiryOf this w metadata) = false ->
  Scraper.loadFromCache this w = (Ret (Some d), w).
Proof.
  intros Em Ep Ec Hsum Ed Eg.
  unfold Scraper.loadFromCache, try_catch, bind, fs_access, fs_readFile,
    JSON_parse_io, getenv, timezone, Date_now, ret.
  io_run. fold (effectiveTtl this w). fold (expiryOf this w metadata).
  io_run. unfold Scraper.generateChecksum. rewrite Hsum, String.eqb_refl.
  simpl negb. io_run. reflexivity.
Qed.

End CacheHit.

(** X5. A hit is never made up: when [loadFromCache] answers data, both
    files are there, the metadata parses, the payload has the checksum the
    metadata records, the data is what the payload parses to, the clock is
    not past the creation date moved on by the TTL in force, and nothing
    was printed or changed. *)
Theorem X5_cache_hit_is_sound
    {P : Platform} {T : Type} {JT : JSON T}
    {JM : JSON Scraper.CacheMetadata} {impl : Scraper.ScraperImpl T}
    (this : Scraper.BaseScraper) (w w' : World) (d : T) :
  Scraper.loadFromCache this w = (Ret (Some d), w') ->
  w' = w
  /\ exists metadataRaw metadata dataRaw,
      files w !! Scraper.getCacheMetadataPath this = Some metadataRaw
      /\ JSON_parse metadataRaw = Some metadata
      /\ files w !! Scraper.getCachePath this = Some dataRaw
      /\ md5_hex dataRaw = Scraper.checksum metadata
      /\ JSON_parse dataRaw = Some d
      /\ Date_gt (Some (now w)) (expiryOf this w metadata) = false.
Proof.
  intros E.
  destruct (loadFromCache_hit_inv this w w' d E)
    as (metadataRaw & metadata & dataRaw & Em & Ep & Ec & Hsum & Ed & Eg & ->).
  split; [reflexivity|].
  exists metadataRaw, metadata, dataRaw. repeat split; assumption.
Qed.

Lemma X5_cache_hit_is_sound_witness :
  let this := Fixtures.scraper true in
  let w :=
    Fixtures.world 86401000
      [("DATA/cti-cache/shodan-cache.meta.json",
        "1000|86401000|shodan|payload");
       ("DATA/cti-cache/shodan-cache.json", "payload")] [] in
  exists metadataRaw metadata dataRaw,
    files w !! Scraper.getCacheMetadataPath this = Some metadataRaw
    /\ JSON_parse (JSON := Fixtures.jsonMetadata) metadataRaw = Some metadata
    /\ files w !! Scraper.getCachePath this = Some dataRaw
    /\ md5_hex (Platform := Fixtures.platform) dataRaw
       = Scraper.checksum metadata
    /\ JSON_parse (JSON := Fixtures.jsonString) dataRaw = Some "payload"
    /\ Date_gt (Some (now w))
         (expiryOf (P := Fixtures.platform) this w metadata) = false.
Proof.
  intros this w.
  destruct (X5_cache_hit_is_sound (P := Fixtures.platform)
              (JT := Fixtures.jsonString) (JM := Fixtures.jsonMetadata)
              (impl := Fixtures.working) this w w "payload")
    as [_ H]; [vm_compute; reflexivity|exact H].
Defined.

(** ** What a run of [execute] leaves behind *)

Section ExecuteSteps.

Context {P : Platform} {T : Type} {JT : JSON T}
        {JM : JSON Scraper.CacheMetadata} {impl : Scraper.ScraperImpl T}.

(** The rate limiter keeps the configuration and never sets the clock
    back. *)
Lemma applyRateLimit_inv (this this' : Scraper.BaseScraper) (w w' : World)
    (o : Outcome Scraper.BaseScraper) :
  Scraper.applyRateLimit this w = (o, w') ->
  o = Ret {| Scraper.config := Scraper.config this;
             Scraper.cacheDir := Scraper.cacheDir this;
             Scraper.lastRequestTime := now w' |}
  /\ now w <= now w'.
Proof.
  unfold Scraper.applyRateLimit, bind, Date_now, ret, console_log, emit, sleep.
  destruct (Js.lt_num _ _); cbv beta iota; intros [= <- <-]; cbn [now].
  - split; [reflexivity|].
    assert (0 <= match latency w with [] => 0 | l :: _ => Z.of_N l end)
      by (destruct (latency w); lia).
    match goal with
    | |- context [timerDelay ?ms] => pose proof (timerDelay_pos ms)
    end.
    lia.
  - split; [reflexivity|lia].
Qed.

(** A fresh fetch never claims to come from the cache, and stamps the
    object with a time that is not before the call. *)
Lemma fetchFresh_inv (this this' : Scraper.BaseScraper) (w w' : World)
    (r : Scraper.ScraperResult T) :
  fetchFresh this w = (Ret (r, this'), w') ->
  Scraper.fromCache r = false
  /\ Scraper.config this' = Scraper.config this
  /\ Scraper.cacheDir this' = Scraper.cacheDir this
  /\ now w <= Scraper.lastRequestTime this'.
Proof.
  unfold fetchFresh. unfold bind at 1.
  destruct (Scraper.applyRateLimit this w) as [o w1] eqn:E1.
  destruct (applyRateLimit_inv this this w w1 o E1) as [-> Hnow].
  set (this1 := {| Scraper.config := _ |}).
  unfold try_catch. unfold bind at 1.
  destruct (Scraper.scrape this1 w1) as [[d|e] w2].
  - unfold bind at 1.
    destruct ((if Scraper.cacheEnabled (Scraper.cache (Scraper.config this1))
               then Scraper.saveToCache this1 d else ret tt) w2)
      as [[[]|e] w3].
    + intros [= <- <- <-]. simpl. repeat split; lia.
    + intros [= <- <- <-]. simpl. repeat split; lia.
  - intros [= <- <- <-]. simpl. repeat split; lia.
Qed.

End ExecuteSteps.

(** X6. A result marked [fromCache] cost no request.  [execute] answers
    such a result only for an enabled scraper with the cache switched on
    and [USE_CACHE] set to exactly [true]; the data is what [loadFromCache]
    answered; the object is returned as it was (its [lastRequestTime] is not
    touched, so the hit does not count against the rate limit); two lines
    were printed and nothing else happened to the world: no wait, no write;
    and [scrape] played no part, for any other implementation under the
    same name gives the same outcome. *)
Theorem X6_from_cache_means_no_request
    {P : Platform} {T : Type} {JT : JSON T}
    {JM : JSON Scraper.CacheMetadata} {impl : Scraper.ScraperImpl T}
    (this this' : Scraper.BaseScraper) (w w' : World)
    (r : Scraper.ScraperResult T) :
  Scraper.execute this w = (Ret (r, this'), w') ->
  Scraper.fromCache r = true ->
  let w0 := printed (Scraper.tag ++ "Starting execution...") w in
  Scraper.enabled (Scraper.config this) = true
  /\ Scraper.cacheEnabled (Scraper.cache (Scraper.config this)) = true
  /\ env w !! "USE_CACHE" = Some "true"
  /\ this' = this
  /\ w' = printed (Scraper.tag ++ "Using cached data.") w0
  /\ (exists d,
         r = {| Scraper.success := true; Scraper.data := Some d;
                Scraper.error := None; Scraper.fromCache := true |}
         /\ Scraper.loadFromCache this w0 = (Ret (Some d), w0))
  /\ (forall impl' : Scraper.ScraperImpl T,
         Scraper.scraperName (ScraperImpl := impl')
         = Scraper.scraperName (ScraperImpl := impl) ->
         Scraper.execute (impl := impl') this w = (Ret (r, this'), w')).
Proof.
  intros E Hfrom w0.
  destruct (Scraper.enabled (Scraper.config this)) eqn:Hon.
  2: { rewrite (execute_disabled this w Hon) in E.
       injection E as <- <- <-. discriminate Hfrom. }
  pose proof (execute_enabled_unfold this w Hon) as Hstep.
  cbv zeta in Hstep. fold w0 in Hstep. rewrite Hstep in E.
  destruct (Scraper.cacheEnabled (Scraper.cache (Scraper.config this)))
    eqn:Hcache; simpl andb in E.
  2: { destruct (fetchFresh_inv _ _ _ _ _ E) as [Hf _]. congruence. }
  destruct (bool_decide (env w !! "USE_CACHE" = Some "true")) eqn:Huse.
  2: { destruct (fetchFresh_inv _ _ _ _ _ E) as [Hf _]. congruence. }
  apply bool_decide_eq_true in Huse.
  destruct (Scraper.loadFromCache this w0) as [[[d|]|e] w1] eqn:Eload.
  2: { destruct (fetchFresh_inv _ _ _ _ _ E) as [Hf _]. congruence. }
  2: { discriminate E. }
  destruct (loadFromCache_hit_inv this w0 w1 d Eload)
    as (metadataRaw & metadata & dataRaw & Em & Ep & Ec & Hsum & Ed & Eg & ->).
  injection E as <- <- <-.
  split; [reflexivity|]. split; [reflexivity|]. split; [exact Huse|].
  split; [reflexivity|]. split; [reflexivity|].
  split; [exists d; split; reflexivity|].
  intros impl' Hname.
  assert (Htag : Scraper.tag (impl := impl') = Scraper.tag (impl := impl)).
  { unfold Scraper.tag. rewrite Hname. reflexivity. }
  rewrite (execute_enabled_unfold (impl := impl') this w Hon).
  cbv zeta. rewrite Hcache, Htag. fold w0.
  rewrite (bool_decide_eq_true_2 _ Huse). simpl andb.
  rewrite (loadFromCache_hit_intro (impl := impl') this w0 metadataRaw dataRaw
             metadata d Em Ep Ec Hsum Ed Eg).
  reflexivity.
Qed.

Lemma X6_from_cache_means_no_request_witness :
  let this := Fixtures.scraper true in
  let w :=
    Fixtures.world 86401000
      [("DATA/cti-cache/shodan-cache.meta.json",
        "1000|86401000|shodan|payload");
       ("DATA/cti-cache/shodan-cache.json", "payload")]
      [("USE_CACHE", "true")] in
  Scraper.execute (P := Fixtures.platform) (JT := Fixtures.jsonString)
    (JM := Fixtures.jsonMetadata) (impl := Fixtures.failing) this w
  = Scraper.execute (P := Fixtures.platform) (JT := Fixtures.jsonString)
      (JM := Fixtures.jsonMetadata) (impl := Fixtures.working) this w.
Proof.
  intros this w.
  destruct (Scraper.execute (P := Fixtures.platform) (JT := Fixtures.jsonString)
              (JM := Fixtures.jsonMetadata) (impl := Fixtures.working) this w)
    as [[[r this']|e] w'] eqn:E; [|vm_compute in E; discriminate E].
  assert (Hfrom : Scraper.fromCache r = true).
  { vm_compute in E. injection E as <- _ _. reflexivity. }
  destruct (X6_from_cache_means_no_request (P := Fixtures.platform)
              (JT := Fixtures.jsonString) (JM := Fixtures.jsonMetadata)
              (impl := Fixtures.working) this this' w w' r E Hfrom)
    as (_ & _ & _ & _ & _ & _ & Hany).
  exact (Hany Fixtures.failing eq_refl).
Defined.

(** X7. [execute] never changes the configuration or the cache directory
    of the object.  A disabled scraper and a cache hit return the object
    untouched; in every other case the object is stamped with a
    [lastRequestTime] that is not before the clock at the call. *)
Theorem X7_execute_stamps_only_fresh_fetches
    {P : Platform} {T : Type} {JT : JSON T}
    {JM : JSON Scraper.CacheMetadata} {impl : Scraper.ScraperImpl T}
    (this this' : Scraper.BaseScraper) (w w' : World)
    (r : Scraper.ScraperResult T) :
  Scraper.execute this w = (Ret (r, this'), w') ->
  Scraper.config this' = Scraper.config this
  /\ Scraper.cacheDir this' = Scraper.cacheDir this
  /\ (Scraper.enabled (Scraper.config this) = false
      \/ Scraper.fromCache r = true ->
      this' = this)
  /\ (Scraper.enabled (Scraper.config this) = true ->
      Scraper.fromCache r = false ->
      now w <= Scraper.lastRequestTime this').
Proof.
  intros E.
  destruct (Scraper.enabled (Scraper.config this)) eqn:Hon.
  2: { rewrite (execute_disabled this w Hon) in E.
       injection E as <- <- <-.
       repeat split; try reflexivity. discriminate. }
  pose proof (execute_enabled_unfold this w Hon) as Hstep.
  cbv zeta in Hstep. rewrite Hstep in E. clear Hstep.
  set (w0 := printed _ w) in E.
  assert (Hfresh :
            forall w1, now w1 = now w ->
              fetchFresh this w1 = (Ret (r, this'), w') ->
              Scraper.config this' = Scraper.config this
              /\ Scraper.cacheDir this' = Scraper.cacheDir this
              /\ (true = false \/ Scraper.fromCache r = true -> this' = this)
              /\ (true = true -> Scraper.fromCache r = false ->
                  now w <= Scraper.lastRequestTime this')).
  { intros w1 Hnow E1.
    destruct (fetchFresh_inv _ _ _ _ _ E1) as (Hf & Hc & Hd & Ht).
    split; [exact Hc|]. split; [exact Hd|]. split.
    - intros [[=] | Hfrom]. congruence.
    - intros _ _. lia. }
  destruct (Scraper.cacheEnabled (Scraper.cache (Scraper.config this))
            && bool_decide (env w !! "USE_CACHE" = Some "true")).
  2: { exact (Hfresh w0 eq_refl E). }
  destruct (Scraper.loadFromCache this w0) as [[[d|]|e] w1] eqn:Eload.
  - injection E as <- <- <-.
    repeat split; try reflexivity. discriminate.
  - apply (Hfresh w1); [|exact E].
    destruct (loadFromCache_quiet this w0 _ _ Eload) as [Hn _]. exact Hn.
  - discriminate E.
Qed.

Lemma X7_execute_stamps_only_fresh_fetches_witness :
  exists r this' w',
    Scraper.execute (P := Fixtures.platform) (JT := Fixtures.jsonString)
      (JM := Fixtures.jsonMetadata) (impl := Fixtures.working)
      (Fixtures.scraper true) (Fixtures.world 1700000000000 [] [])
    = (Ret (r, this'), w')
    /\ 1700000000000 <= Scraper.lastRequestTime this'.
Proof.
  destruct (Scraper.execute (P := Fixtures.platform) (JT := Fixtures.jsonString)
              (JM := Fixtures.jsonMetadata) (impl := Fixtures.working)
              (Fixtures.scraper true) (Fixtures.world 1700000000000 [] []))
    as [[[r this']|e] w'] eqn:E; [|vm_compute in E; discriminate E].
  exists r, this', w'. split; [reflexivity|].
  destruct (X7_execute_stamps_only_fresh_fetches (P := Fixtures.platform)
              (JT := Fixtures.jsonString) (JM := Fixtures.jsonMetadata)
              (impl := Fixtures.working) (Fixtures.scraper true) this'
              (Fixtures.world 1700000000000 [] []) w' r E)
    as (_ & _ & _ & Hstamp).
  apply Hstamp; [reflexivity|].
  vm_compute in E. injection E as <- _ _. reflexivity.
Defined.

(** ** Sorting, larger counts first *)

Section SortFacts.

Context {A : Type} (key : A -> Z).

Lemma insertDesc_perm (x : A) (l : list A) :
  Permutation (JsArray.insertDesc key x l) (x :: l).
Proof.
  induction l as [|y l IH]; simpl; [reflexivity|].
  destruct (key y <=? key x); [reflexivity|].
  rewrite IH. apply perm_swap.
Qed.

Lemma sortDesc_perm (xs : list A) : Permutation (JsArray.sortDesc key xs) xs.
Proof.
  induction xs as [|x xs IH]; simpl; [reflexivity|].
  rewrite insertDesc_perm, IH. reflexivity.
Qed.

Lemma sortDesc_In (xs : list A) (x : A) :
  In x (JsArray.sortDesc key xs) <-> In x xs.
Proof.
  split; apply Permutation_in;
    [apply sortDesc_perm|symmetry; apply sortDesc_perm].
Qed.

Lemma insertDesc_sorted (x : A) (l : list A) :
  StronglySorted (fun a b => key b <= key a) l ->
  StronglySorted (fun a b => key b <= key a) (JsArray.insertDesc key x l).
Proof.
  induction 1 as [|y l Hl IH Hy]; simpl.
  - constructor; constructor.
  - destruct (key y <=? key x) eqn:E.
    + apply Z.leb_le in E.
      constructor; [constructor; assumption|].
      constructor; [exact E|].
      revert Hy. apply List.Forall_impl. intros b Hb. lia.
    + apply Z.leb_gt in E. constructor; [exact IH|].
      rewrite insertDesc_perm. constructor; [lia|exact Hy].
Qed.

Lemma sortDesc_sorted (xs : list A) :
  StronglySorted (fun a b => key b <= key a) (JsArray.sortDesc key xs).
Proof.
  induction xs as [|x xs IH]; simpl; [constructor|].
  apply insertDesc_sorted. exact IH.
Qed.

Lemma head_insertDesc (x : A) (l : list A) :
  head (JsArray.insertDesc key x l)
  = Some (match head l with
          | Some y => if key y <=? key x then x else y
          | None => x
          end).
Proof. destruct l as [|y l]; simpl; [|destruct (key y <=? key x)]; reflexivity. Qed.

(** The first element after sorting is the first of the largest. *)
Lemma sortDesc_head (xs : list A) (x : A) :
  head (JsArray.sortDesc key xs) = Some x ->
  exists before after,
    xs = (before ++ x :: after)%list
    /\ Forall (fun y => key y < key x) before
    /\ Forall (fun y => key y <= key x) after.
Proof.
  revert x. induction xs as [|a xs IH]; intros x; simpl; [discriminate|].
  rewrite head_insertDesc.
  destruct (head (JsArray.sortDesc key xs)) as [y|] eqn:Ey.
  - destruct (IH y eq_refl) as (before & after & -> & Hb & Ha).
    destruct (key y <=? key a) eqn:E; intros [= <-].
    + apply Z.leb_le in E. exists [], (before ++ y :: after)%list.
      split; [reflexivity|]. split; [constructor|].
      apply Forall_app. split.
      * revert Hb. apply List.Forall_impl. intros b Hlt. lia.
      * constructor; [exact E|].
        revert Ha. apply List.Forall_impl. intros b Hle. lia.
    + apply Z.leb_gt in E. exists (a :: before), after.
      split; [reflexivity|]. split; [|exact Ha].
      constructor; [exact E|exact Hb].
  - intros [= <-]. exists [], xs. split; [reflexivity|].
    split; [constructor|].
    destruct xs as [|b xs]; [constructor|].
    simpl in Ey. rewrite head_insertDesc in Ey. discriminate.
Qed.

Lemma sortDesc_head_None (xs : list A) :
  head (JsArray.sortDesc key xs) = None <-> xs = [].
Proof.
  split; [|intros ->; reflexivity].
  destruct xs as [|a xs]; [reflexivity|].
  simpl. rewrite head_insertDesc. discriminate.
Qed.

(** Sorting keeps the order of the elements of any one key. *)
Lemma insertDesc_filter (k : Z) (x : A) (l : list A) :
  StronglySorted (fun a b => key b <= key a) l ->
  List.filter (fun y => key y =? k) (JsArray.insertDesc key x l)
  = List.filter (fun y => key y =? k) (x :: l).
Proof.
  induction 1 as [|y l Hl IH Hy]; [reflexivity|].
  cbn [JsArray.insertDesc]. destruct (key y <=? key x) eqn:E; [reflexivity|].
  apply Z.leb_gt in E.
  cbn [List.filter] in *. rewrite IH.
  destruct (key x =? k) eqn:Ex; [|reflexivity].
  destruct (key y =? k) eqn:Eky; [|reflexivity].
  apply Z.eqb_eq in Ex. apply Z.eqb_eq in Eky. lia.
Qed.

Lemma sortDesc_stable (k : Z) (xs : list A) :
  List.filter (fun y => key y =? k) (JsArray.sortDesc key xs)
  = List.filter (fun y => key y =? k) xs.
Proof.
  induction xs as [|x xs IH]; [reflexivity|].
  cbn [JsArray.sortDesc fold_right].
  fold (JsArray.sortDesc key xs).
  rewrite insertDesc_filter by apply sortDesc_sorted.
  cbn [List.filter]. rewrite IH. reflexivity.
Qed.

End SortFacts.

Lemma StronglySorted_firstn {A} (R : A -> A -> Prop) (n : nat) (l : list A) :
  StronglySorted R l -> StronglySorted R (List.firstn n l).
Proof.
  intros H. revert n. induction H as [|a l Hl IH Ha]; intros [|n]; simpl;
    try constructor.
  - apply IH.
  - apply List.Forall_forall. intros x Hx.
    apply (proj1 (List.Forall_forall _ _) Ha). exact (In_firstn _ _ _ Hx).
Qed.

Lemma StronglySorted_map {A B} (f : A -> B) (R : B -> B -> Prop) (l : list A) :
  StronglySorted (fun a b => R (f a) (f b)) l ->
  StronglySorted R (List.map f l).
Proof.
  induction 1 as [|a l Hl IH Ha]; simpl; constructor; [exact IH|].
  apply List.Forall_forall. intros y Hy.
  apply List.in_map_iff in Hy. destruct Hy as (x & <- & Hx).
  exact (proj1 (List.Forall_forall _ _) Ha x Hx).
Qed.

Lemma StronglySorted_app_inv_lr {A} (R : A -> A -> Prop) (l1 l2 : list A) :
  StronglySorted R (l1 ++ l2)%list ->
  forall a b, In a l1 -> In b l2 -> R a b.
Proof.
  induction l1 as [|x l1 IH]; simpl; [tauto|].
  intros H a b [<- | Ha] Hb.
  - apply StronglySorted_inv in H. destruct H as [_ H].
    apply (proj1 (List.Forall_forall _ _) H). apply in_or_app. right. exact Hb.
  - apply StronglySorted_inv in H. destruct H as [H _].
    exact (IH H a b Ha Hb).
Qed.

Lemma skipn_all_short {A} (n : nat) (l : list A) :
  (length l <= n)%nat -> List.skipn n l = [].
Proof.
  revert l. induction n as [|n IH]; intros [|y l]; simpl; intros Hlen;
    try reflexivity; try lia.
  apply IH. lia.
Qed.

(** ** The category breakdown *)

Lemma percentage_bounds (c total : Z) :
  0 < total -> 0 <= c <= total ->
  (0 <= Js.Math_round ((inject_Z c / inject_Z total) * 100) <= 100)%Q.
Proof.
  intros Ht [Hc0 Hc].
  assert (Hpos : (0 < inject_Z total)%Q).
  { change 0%Q with (inject_Z 0). rewrite <- Zlt_Qlt. exact Ht. }
  assert (Hlo : (0 <= inject_Z c / inject_Z total)%Q).
  { apply Qle_shift_div_l; [exact Hpos|].
    rewrite Qmult_0_l. change 0%Q with (inject_Z 0). rewrite <- Zle_Qle.
    exact Hc0. }
  assert (Hhi : (inject_Z c / inject_Z total <= 1)%Q).
  { apply Qle_shift_div_r; [exact Hpos|].
    rewrite Qmult_1_l. rewrite <- Zle_Qle. exact Hc. }
  split.
  - apply Math_round_nonneg.
    set (x := (inject_Z c / inject_Z total)%Q) in *. lra.
  - apply Qle_trans with (Js.Math_round (inject_Z 100)).
    + apply Math_round_mono.
      set (x := (inject_Z c / inject_Z total)%Q) in *.
      change (inject_Z 100) with 100%Q. lra.
    + rewrite Math_round_integer. apply Qle_refl.
Qed.

(** X8. The category breakdown of the dashboard shows at most six
    categories, every one with a count above zero, larger counts first.
    What is shown and what is left out together are the categories with a
    positive count; nothing left out has a larger count than anything
    shown, and something is left out only when six are shown.  For a
    positive total, a shown count that does not exceed it gets a percentage
    between 0 and 100. *)
Theorem X8_category_breakdown
    {P : Platform} (s : Generator.Summary) (total : Z) :
  let positive :=
    List.filter (fun kv : string * Z => 0 <? snd kv)
                (default [] (Generator.byCategory s)) in
  let shown := Generator.categoryBreakdown s total in
  (length shown <= 6)%nat
  /\ StronglySorted
       (fun a b => Generator.catCount b <= Generator.catCount a) shown
  /\ (forall e, In e shown -> 0 < Generator.catCount e)
  /\ (exists kept dropped,
         Permutation (kept ++ dropped)%list positive
         /\ List.map Generator.catCount shown = List.map snd kept
         /\ List.map Generator.catName shown
            = List.map (fun kv => Dashboard.formatCategory (fst kv)) kept
         /\ (forall a b, In a kept -> In b dropped -> snd b <= snd a)
         /\ (dropped = [] \/ length kept = 6%nat))
  /\ (0 < total ->
      forall e, In e shown -> Generator.catCount e <= total ->
                (0 <= Generator.percentage e <= 100)%Q).
Proof.
  intros positive shown.
  unfold shown, Generator.categoryBreakdown. fold positive.
  set (sorted := JsArray.sortDesc snd positive).
  assert (Hsorted : StronglySorted (fun a b : string * Z => snd b <= snd a)
                      sorted) by apply sortDesc_sorted.
  assert (Hpos : forall kv, In kv sorted -> 0 < snd kv).
  { intros kv Hin. apply sortDesc_In in Hin.
    apply List.filter_In in Hin. destruct Hin as [_ Hin].
    apply Z.ltb_lt. exact Hin. }
  split; [|split; [|split; [|split]]].
  - rewrite length_map. apply firstn_le_length.
  - apply StronglySorted_map. simpl.
    apply StronglySorted_firstn. exact Hsorted.
  - intros e He. apply List.in_map_iff in He.
    destruct He as (kv & <- & Hin). simpl.
    apply Hpos. exact (In_firstn _ _ _ Hin).
  - exists (List.firstn 6 sorted), (List.skipn 6 sorted).
    split; [rewrite firstn_skipn; apply sortDesc_perm|].
    split; [rewrite List.map_map; reflexivity|].
    split; [rewrite List.map_map; reflexivity|].
    split.
    + intros a b Ha Hb.
      rewrite <- (firstn_skipn 6 sorted) in Hsorted.
      exact (StronglySorted_app_inv_lr _ _ _ Hsorted a b Ha Hb).
    + destruct (le_lt_dec (length sorted) 6) as [Hle | Hgt].
      * left. apply skipn_all_short. exact Hle.
      * right. apply firstn_length_le. lia.
  - intros Htotal e He Hle. apply List.in_map_iff in He.
    destruct He as (kv & <- & Hin). simpl in *.
    apply percentage_bounds; [exact Htotal|].
    split; [|exact Hle].
    pose proof (Hpos kv (In_firstn _ _ _ Hin)). lia.
Qed.

Lemma X8_category_breakdown_witness :
  List.map Generator.catCount
    (Generator.categoryBreakdown (P := Fixtures.platform) sampleSummary 20)
  = [5; 5; 3; 2; 2; 1]
  /\ Forall (fun e => (0 <= Generator.percentage e <= 100)%Q)
       (Generator.categoryBreakdown (P := Fixtures.platform)
          sampleSummary 20).
Proof.
  split; [vm_compute; reflexivity|].
  apply List.Forall_forall. intros e He.
  destruct (X8_category_breakdown (P := Fixtures.platform) sampleSummary 20)
    as (_ & _ & _ & _ & Hpct).
  apply Hpct; [lia|exact He|].
  vm_compute in He.
  repeat (destruct He as [<- | He]; [vm_compute; discriminate|]).
  destruct He.
Defined.

(** X9. The top category named in the findings and in the summary is an
    entry of [summary.byCategory] with the largest count, and of several
    with that count the one the object lists first; there is none only when
    the table is missing or empty. *)
Theorem X9_top_category_is_first_largest (s : Generator.Summary) :
  let entries := default [] (Generator.byCategory s) in
  (Generator.topCategoryOf s = None <-> entries = [])
  /\ (forall top,
         Generator.topCategoryOf s = Some top ->
         exists before after,
           entries = (before ++ top :: after)%list
           /\ Forall (fun kv => snd kv < snd top) before
           /\ Forall (fun kv => snd kv <= snd top) after).
Proof.
  intros entries. unfold Generator.topCategoryOf. fold entries. split.
  - apply sortDesc_head_None.
  - intros top. apply sortDesc_head.
Qed.

Lemma X9_top_category_is_first_largest_witness :
  exists before after,
    default [] (Generator.byCategory sampleSummary)
    = (before ++ ("phishing", 5) :: after)%list
    /\ Forall (fun kv => snd kv < 5) before
    /\ Forall (fun kv => snd kv <= 5) after.
Proof.
  destruct (X9_top_category_is_first_largest sampleSummary) as [_ H].
  exact (H ("phishing", 5) eq_refl).
Defined.

(** ** Findings, actions, confidence *)

(** X10. [generateFindings] answers between one and four findings.  The
    cut to four at its end never removes anything: whenever there is a top
    category, its line is the last finding, so the test that fewer than
    four findings were collected before it never fails.  With no
    correlation, no CVE indicator, no critical signal and no category, the
    one finding is the placeholder. *)
Theorem X10_findings_one_to_four
    {P : Platform} (data : Generator.ProcessedData)
    (correlation : option Dashboard.Correlation) :
  let findings := Generator.generateFindings data correlation in
  (1 <= length findings <= 4)%nat
  /\ (forall top,
         Generator.topCategoryOf (Generator.summary data) = Some top ->
         last findings
         = Some (Dashboard.formatCategory (fst top)
                   ++ " represents primary threat vector"))
  /\ (correlation = None ->
      Generator.countOfType "cve" (Generator.indicators data) <= 0 ->
      Generator.severityCount (Generator.summary data) Generator.sevCritical
      <= 0 ->
      Generator.topCategoryOf (Generator.summary data) = None ->
      findings = ["No high-priority findings at this time"]).
Proof.
  intros findings. unfold findings, Generator.generateFindings. cbv zeta.
  split; [|split].
  - destruct correlation as [c|];
      [destruct (0 <? Dashboard.correlatedSignals c);
       [destruct (0 <? length _)%nat;
        [destruct (String.eqb _ "infra-first");
         [|destruct (String.eqb _ "social-first")]|]|]|];
      destruct (0 <? Generator.countOfType _ _);
      destruct (0 <? Generator.severityCount _ _);
      destruct (Generator.topCategoryOf _);
      cbn [List.app length Nat.ltb Nat.leb Nat.eqb List.firstn]; lia.
  - intros top Htop. rewrite Htop.
    destruct correlation as [c|];
      [destruct (0 <? Dashboard.correlatedSignals c);
       [destruct (0 <? length _)%nat;
        [destruct (String.eqb _ "infra-first");
         [|destruct (String.eqb _ "social-first")]|]|]|];
      destruct (0 <? Generator.countOfType _ _);
      destruct (0 <? Generator.severityCount _ _);
      reflexivity.
  - intros -> Hcve Hcrit Htop. rewrite Htop.
    destruct (0 <? Generator.countOfType _ _) eqn:E1;
      [apply Z.ltb_lt in E1; lia|].
    destruct (0 <? Generator.severityCount _ _) eqn:E2;
      [apply Z.ltb_lt in E2; lia|].
    reflexivity.
Qed.

Lemma X10_findings_one_to_four_witness :
  Generator.generateFindings (P := Fixtures.platform)
    {| Generator.threats := [];
       Generator.summary :=
         {| Generator.totalThreats := 0; Generator.bySeverity := None;
            Generator.byCategory := None; Generator.bySource := None |};
       Generator.indicators := None;
       Generator.correlation := None |}
    None
  = ["No high-priority findings at this time"].
Proof.
  destruct (X10_findings_one_to_four (P := Fixtures.platform)
              {| Generator.threats := [];
                 Generator.summary :=
                   {| Generator.totalThreats := 0;
                      Generator.bySeverity := None;
                      Generator.byCategory := None;
                      Generator.bySource := None |};
                 Generator.indicators := None;
                 Generator.correlation := None |}
              None) as (_ & _ & H).
  apply H; [reflexivity|discriminate|discriminate|reflexivity].
Defined.

(** X11. [generateActions] answers between two and four actions.  The
    briefing of the security leadership, the fourth action of a critical
    level, is recommended exactly when the level is critical and no
    correlation action takes the first place: with a correlation action in
    front, the cut to four drops it. *)
Theorem X11_actions_two_to_four
    (riskLevel : string) (correlation : option Dashboard.Correlation) :
  let actions := Generator.generateActions riskLevel correlation in
  (2 <= length actions <= 4)%nat
  /\ (In "Brief security leadership on current threat status" actions
      <-> riskLevel = "critical"
          /\ head actions = Some "Initiate incident response procedures").
Proof.
  intros actions. unfold actions, Generator.generateActions. cbv zeta.
  split.
  - destruct correlation as [c|];
      [destruct (0 <? Dashboard.correlatedSignals c);
       [destruct (List.filter _ _) as [|topSignal rest];
        [|destruct (String.eqb _ "infra-first");
          [|destruct (String.eqb _ "social-first")]]|]|];
      destruct (String.eqb riskLevel "critical");
      try destruct (String.eqb riskLevel "elevated");
      try destruct (String.eqb riskLevel "moderate");
      cbn [List.app length List.firstn]; lia.
  - destruct (String.eqb_spec riskLevel "critical") as [-> | Hlvl].
    + destruct correlation as [c|];
        [destruct (0 <? Dashboard.correlatedSignals c);
         [destruct (List.filter _ _) as [|topSignal rest];
          [|destruct (String.eqb _ "infra-first");
            [|destruct (String.eqb _ "social-first")]]|]|];
        cbn [List.app List.firstn head In];
        split;
        try (intros _; split; reflexivity);
        try (intros _; tauto);
        try (intros [H | [H | [H | [H | []]]]]; discriminate H);
        try (intros [_ H]; discriminate H).
    + split; [|intros [H _]; contradiction].
      destruct correlation as [c|];
        [destruct (0 <? Dashboard.correlatedSignals c);
         [destruct (List.filter _ _) as [|topSignal rest];
          [|destruct (String.eqb _ "infra-first");
            [|destruct (String.eqb _ "social-first")]]|]|];
        destruct (String.eqb riskLevel "elevated");
        try destruct (String.eqb riskLevel "moderate");
        cbn [List.app List.firstn In];
        intros H;
        repeat (destruct H as [H | H]; [discriminate H|]);
        destruct H.
Qed.

Lemma X11_actions_two_to_four_witness :
  In "Brief security leadership on current threat status"
     (Generator.generateActions "critical" None).
Proof.
  destruct (X11_actions_two_to_four "critical" None) as [_ [_ H]].
  apply H. split; reflexivity.
Defined.

(** X12. The confidence level lies between 50 and 95; an analysis with a
    summary never lowers it, nor does it raise it by more than 10; and with
    five sources or more it is 95 whatever else holds. *)
Theorem X12_confidence_bounds
    (data : Generator.ProcessedData) (l : Analyzer.LLMAnalysisResult) :
  50 <= Generator.calculateConfidence data None <= 95
  /\ 50 <= Generator.calculateConfidence data (Some l) <= 95
  /\ Generator.calculateConfidence data None
     <= Generator.calculateConfidence data (Some l)
     <= Generator.calculateConfidence data None + 10
  /\ ((5 <= length (default [] (Generator.bySource (Generator.summary data))))%nat ->
      Generator.calculateConfidence data None = 95
      /\ Generator.calculateConfidence data (Some l) = 95).
Proof.
  unfold Generator.calculateConfidence. cbv zeta.
  set (n := length (default [] (Generator.bySource (Generator.summary data)))).
  destruct (10 <=? length (Generator.threats data))%nat;
    [|destruct (5 <=? length (Generator.threats data))%nat];
    destruct (negb (String.eqb (Analyzer.executiveSummary l) ""));
    repeat split; lia.
Qed.

Lemma X12_confidence_bounds_witness :
  Generator.calculateConfidence
    {| Generator.threats := [];
       Generator.summary :=
         {| Generator.totalThreats := 9; Generator.bySeverity := None;
            Generator.byCategory := None;
            Generator.bySource :=
              Some [("shodan", 4); ("x.com", 2); ("misp", 1);
                    ("alienvault", 1); ("virustotal", 1)] |};
       Generator.indicators := None;
       Generator.correlation := None |}
    None
  = 95.
Proof.
  destruct (X12_confidence_bounds
              {| Generator.threats := [];
                 Generator.summary :=
                   {| Generator.totalThreats := 9;
                      Generator.bySeverity := None;
                      Generator.byCategory := None;
                      Generator.bySource :=
                        Some [("shodan", 4); ("x.com", 2); ("misp", 1);
                              ("alienvault", 1); ("virustotal", 1)] |};
                 Generator.indicators := None;
                 Generator.correlation := None |}
              {| Analyzer.insights := []; Analyzer.executiveSummary := "";
                 Analyzer.technicalSummary := ""; Analyzer.recommendations := [];
                 Analyzer.trendingTopics := []; Analyzer.analysisTimestamp := "";
                 Analyzer.model := "none";
                 Analyzer.tokenUsage :=
                   {| Analyzer.input := 0; Analyzer.output := 0;
                      Analyzer.total := 0 |} |})
    as (_ & _ & _ & H).
  apply H. simpl. lia.
Defined.

(** ** Displayed indicators *)

Lemma pick_spec (ty : string) (n : nat) (l : list Generator.Indicator) :
  let picked :=
    List.map Generator.indValue
      (List.firstn n
         (List.filter (fun i => String.eqb (Generator.indType i) ty) l)) in
  (length picked <= n)%nat
  /\ (forall v, In v picked ->
        exists i, In i l /\ Generator.indType i = ty
                  /\ Generator.indValue i = v)
  /\ (forall i, In i l -> Generator.indType i = ty ->
        (length (List.filter
                   (fun i => String.eqb (Generator.indType i) ty) l) <= n)%nat ->
        In (Generator.indValue i) picked).
Proof.
  intros picked. unfold picked. split; [|split].
  - rewrite length_map. apply firstn_le_length.
  - intros v Hv. apply List.in_map_iff in Hv. destruct Hv as (i & <- & Hi).
    apply In_firstn in Hi. apply List.filter_In in Hi.
    destruct Hi as [Hi Hty]. apply String.eqb_eq in Hty.
    exists i. repeat split; assumption.
  - intros i Hi Hty Hlen. rewrite (firstn_all_short _ _ Hlen).
    apply List.in_map. apply List.filter_In. split; [exact Hi|].
    apply String.eqb_eq. exact Hty.
Qed.

(** X13. The indicators put on display are capped at ten CVEs, five
    domains, five addresses and eight keywords; every value displayed is
    the value of an input indicator of that very type, so an indicator of
    any other type is displayed nowhere; and a type with no more indicators
    than its cap is displayed in full. *)
Theorem X13_display_indicators (inds : option (list Generator.Indicator)) :
  let shown := Generator.extractDisplayIndicators inds in
  let given := default [] inds in
  let from (ty : string) (v : string) :=
    exists i, In i given /\ Generator.indType i = ty
              /\ Generator.indValue i = v in
  let few (ty : string) (cap : nat) :=
    (length (List.filter (fun i => String.eqb (Generator.indType i) ty) given)
     <= cap)%nat in
  ((length (Generator.cves shown) <= 10)%nat
   /\ (length (Generator.domains shown) <= 5)%nat
   /\ (length (Generator.ips shown) <= 5)%nat
   /\ (length (Generator.keywords shown) <= 8)%nat)
  /\ (forall v,
         (In v (Generator.cves shown) -> from "cve" v)
         /\ (In v (Generator.domains shown) -> from "domain" v)
         /\ (In v (Generator.ips shown) -> from "ip" v)
         /\ (In v (Generator.keywords shown) -> from "keyword" v))
  /\ (forall i, In i given ->
         (Generator.indType i = "cve" -> few "cve" 10%nat ->
          In (Generator.indValue i) (Generator.cves shown))
         /\ (Generator.indType i = "domain" -> few "domain" 5%nat ->
             In (Generator.indValue i) (Generator.domains shown))
         /\ (Generator.indType i = "ip" -> few "ip" 5%nat ->
             In (Generator.indValue i) (Generator.ips shown))
         /\ (Generator.indType i = "keyword" -> few "keyword" 8%nat ->
             In (Generator.indValue i) (Generator.keywords shown))).
Proof.
  intros shown given from few. unfold shown, from, few, given.
  destruct inds as [l|]; simpl.
  - destruct (pick_spec "cve" 10 l) as (Hc1 & Hc2 & Hc3).
    destruct (pick_spec "domain" 5 l) as (Hd1 & Hd2 & Hd3).
    destruct (pick_spec "ip" 5 l) as (Hi1 & Hi2 & Hi3).
    destruct (pick_spec "keyword" 8 l) as (Hk1 & Hk2 & Hk3).
    split; [repeat split; assumption|]. split.
    + intros v. repeat split; auto.
    + intros i Hi. repeat split; auto.
  - split; [repeat split; lia|]. split.
    + intros v. repeat split; intros [].
    + intros i [].
Qed.

Lemma X13_display_indicators_witness :
  In "evil.example"
     (Generator.domains
        (Generator.extractDisplayIndicators
           (Some [ {| Generator.indType := "hash";
                      Generator.indValue := "d41d8cd9" |};
                   {| Generator.indType := "domain";
                      Generator.indValue := "evil.example" |} ]))).
Proof.
  destruct (X13_display_indicators
              (Some [ {| Generator.indType := "hash";
                         Generator.indValue := "d41d8cd9" |};
                      {| Generator.indType := "domain";
                         Generator.indValue := "evil.example" |} ]))
    as (_ & _ & H).
  destruct (H {| Generator.indType := "domain";
                 Generator.indValue := "evil.example" |})
    as (_ & Hdomain & _).
  - right. left. reflexivity.
  - apply Hdomain; [reflexivity|]. simpl. lia.
Defined.

(** ** The executive block *)

(** X14. The analysis of the language model reaches the executive block
    through the summary only: the headline, the key findings and the
    recommended actions are the same with any analysis or none.  The
    summary is the model's text when that is longer than 20 characters, and
    the generated text otherwise. *)
Theorem X14_model_text_reaches_summary_only
    {P : Platform} (data : Generator.ProcessedData)
    (l : Analyzer.LLMAnalysisResult) (riskLevel : string) :
  let with_model := Generator.buildExecutiveSummary data (Some l) riskLevel in
  let without := Generator.buildExecutiveSummary data None riskLevel in
  Generator.headline with_model = Generator.headline without
  /\ Generator.keyFindings with_model = Generator.keyFindings without
  /\ Generator.recommendedActions with_model
     = Generator.recommendedActions without
  /\ ((20 < String.length (Analyzer.executiveSummary l))%nat ->
      Generator.execSummary with_model = Analyzer.executiveSummary l)
  /\ ((String.length (Analyzer.executiveSummary l) <= 20)%nat ->
      Generator.execSummary with_model = Generator.execSummary without).
Proof.
  intros with_model without. unfold with_model, without.
  unfold Generator.buildExecutiveSummary. cbv zeta.
  destruct (20 <? String.length (Analyzer.executiveSummary l))%nat eqn:E.
  - apply Nat.ltb_lt in E. repeat split; try reflexivity. lia.
  - apply Nat.ltb_ge in E. repeat split; try reflexivity. lia.
Qed.

Lemma X14_model_text_reaches_summary_only_witness :
  let data :=
    {| Generator.threats := []; Generator.summary := sampleSummary;
       Generator.indicators := None; Generator.correlation := None |} in
  let short :=
    {| Analyzer.insights := []; Analyzer.executiveSummary := "Todo bien.";
       Analyzer.technicalSummary := "n/a"; Analyzer.recommendations := [];
       Analyzer.trendingTopics := []; Analyzer.analysisTimestamp := "0";
       Analyzer.model := "none";
       Analyzer.tokenUsage :=
         {| Analyzer.input := 0; Analyzer.output := 0; Analyzer.total := 0 |} |} in
  Generator.execSummary
    (Generator.buildExecutiveSummary (P := Fixtures.platform)
       data (Some short) "low")
  = Generator.execSummary
      (Generator.buildExecutiveSummary (P := Fixtures.platform)
         data None "low").
Proof.
  intros data short.
  destruct (X14_model_text_reaches_summary_only (P := Fixtures.platform)
              data short "low") as (_ & _ & _ & _ & H).
  apply H. simpl. lia.
Defined.

(** ** The dashboard as a whole *)

Section DashboardFacts.

Context {P : Platform}.

Lemma determineTrend_pure (ts : list Dashboard.Threat) (w : World) :
  exists trend, Dashboard.determineTrend ts w = (Ret trend, w).
Proof.
  unfold Dashboard.determineTrend, bind, Date_now, ret.
  destruct (Js.gt _ _); [eexists; reflexivity|].
  destruct (Js.lt _ _); eexists; reflexivity.
Qed.

Lemma six_hours_in_range (t : Z) :
  - maxTime <= t + 21600000 <= maxTime ->
  timeClip (t + 6 * 60 * 60 * 1000) = Some (t + 21600000).
Proof.
  intros H. change (6 * 60 * 60 * 1000) with 21600000.
  apply timeClip_in_range. exact H.
Qed.

Lemma buildEmptyDashboard_at (t : Z) (w : World) :
  Generator.buildEmptyDashboard (Some t) (Some (t + 21600000)) w
  = (Ret (emptyDashboardAt t), w).
Proof. reflexivity. Qed.

Lemma buildDashboard_empty
    (data : option Generator.ProcessedData)
    (llm : option Analyzer.LLMAnalysisResult) (w : World) :
  (forall d, data = Some d -> Generator.threats d = []) ->
  - maxTime <= now w + 21600000 <= maxTime ->
  Generator.buildDashboard data llm w = (Ret (emptyDashboardAt (now w)), w).
Proof.
  intros Hnone Hrange. unfold Generator.buildDashboard.
  unfold bind at 1. unfold Date_now at 1. cbv beta iota zeta.
  rewrite (six_hours_in_range _ Hrange).
  destruct data as [d|]; [|apply buildEmptyDashboard_at].
  rewrite (Hnone d eq_refl). simpl length. cbv iota beta.
  change (0 =? 0)%nat with true. cbv iota.
  apply buildEmptyDashboard_at.
Qed.

Lemma buildDashboard_full
    (d : Generator.ProcessedData)
    (llm : option Analyzer.LLMAnalysisResult) (w : World) :
  Generator.threats d <> [] ->
  - maxTime <= now w + 21600000 <= maxTime ->
  exists dash,
    Generator.buildDashboard (Some d) llm w = (Ret dash, w)
    /\ Generator.meta dash
       = {| Generator.version := "2.0.0";
            Generator.generatedAt := Date_toISOString (now w);
            Generator.validUntil := Date_toISOString (now w + 21600000) |}
    /\ Generator.riskScore (Generator.status dash)
       = Dashboard.calculateRiskScore
           (inject_Z (Generator.severityCount (Generator.summary d)
                        Generator.sevCritical))
           (inject_Z (Generator.severityCount (Generator.summary d)
                        Generator.sevHigh))
           (inject_Z (Generator.severityCount (Generator.summary d)
                        Generator.sevMedium))
           (inject_Z (Generator.severityCount (Generator.summary d)
                        Generator.sevLow))
    /\ Generator.riskLevel (Generator.status dash)
       = Dashboard.determineRiskLevel
           (Generator.riskScore (Generator.status dash))
    /\ fst (Dashboard.determineTrend
              (List.map Generator.core (Generator.threats d)) w)
       = Ret (Generator.trend (Generator.status dash))
    /\ Generator.confidenceLevel (Generator.status dash)
       = Generator.calculateConfidence d llm
    /\ Generator.executive dash
       = Generator.buildExecutiveSummary d llm
           (Generator.riskLevelName
              (Generator.riskLevel (Generator.status dash)))
    /\ Generator.totalSignals (Generator.metrics dash)
       = (if Generator.totalThreats (Generator.summary d) =? 0
          then Z.of_nat (length (Generator.threats d))
          else Generator.totalThreats (Generator.summary d))
    /\ Generator.categories (Generator.metrics dash)
       = Generator.categoryBreakdown (Generator.summary d)
           (Generator.totalSignals (Generator.metrics dash))
    /\ Generator.timeline dash
       = Dashboard.timeline (List.map Generator.core (Generator.threats d))
    /\ Generator.displayed dash
       = Generator.extractDisplayIndicators (Generator.indicators d)
    /\ Generator.correlationSection dash
       = Dashboard.buildCorrelationSection (Generator.narrow d).
Proof.
  intros Hsome Hrange. unfold Generator.buildDashboard.
  unfold bind at 1. unfold Date_now at 1. cbv beta iota zeta.
  rewrite (six_hours_in_range _ Hrange).
  destruct (Generator.threats d) as [|t0 ts] eqn:Ets; [contradiction|].
  rewrite <- Ets. assert (Hlen : (length (Generator.threats d) =? 0)%nat = false).
  { rewrite Ets. reflexivity. }
  rewrite Hlen. cbv iota.
  unfold toISOString_io. unfold bind at 1. unfold ret at 1. cbv beta iota.
  unfold bind at 1. unfold ret at 1. cbv beta iota.
  unfold bind at 1.
  destruct (determineTrend_pure
              (List.map Generator.core (Generator.threats d)) w)
    as [trend Etrend].
  rewrite Etrend. cbv beta iota.
  eexists. split; [reflexivity|]. simpl.
  repeat split; reflexivity.
Qed.

End DashboardFacts.

(** X15. Without threats the dashboard is the empty one, whatever the
    summary counts, the indicators, the correlation and the model's analysis
    say: risk low with score 0, confidence 0, no timeline, no sources, no
    correlation block; it is valid for six hours from the clock, and
    building it changes nothing. *)
Theorem X15_no_threats_empty_dashboard
    {P : Platform} (data : option Generator.ProcessedData)
    (llm : option Analyzer.LLMAnalysisResult) (w : World) :
  (forall d, data = Some d -> Generator.threats d = []) ->
  - maxTime <= now w + 21600000 <= maxTime ->
  Generator.buildDashboard data llm w = (Ret (emptyDashboardAt (now w)), w)
  /\ Generator.status (emptyDashboardAt (now w))
     = {| Generator.riskLevel := LvlLow; Generator.riskScore := 0;
          Generator.trend := Stable; Generator.confidenceLevel := 0 |}
  /\ Generator.validUntil (Generator.meta (emptyDashboardAt (now w)))
     = Date_toISOString (now w + 6 * msPerHour).
Proof.
  intros Hnone Hrange.
  split; [apply buildDashboard_empty; assumption|].
  split; reflexivity.
Qed.

Lemma X15_no_threats_empty_dashboard_witness :
  let data :=
    {| Generator.threats := []; Generator.summary := sampleSummary;
       Generator.indicators :=
         Some [ {| Generator.indType := "cve";
                   Generator.indValue := "CVE-2024-3400" |} ];
       Generator.correlation := None |} in
  fst (Generator.buildDashboard (P := Fixtures.platform) (Some data) None
         (Fixtures.world 1700000000000 [] []))
  = Ret (emptyDashboardAt (P := Fixtures.platform) 1700000000000).
Proof.
  intros data.
  destruct (X15_no_threats_empty_dashboard (P := Fixtures.platform)
              (Some data) None (Fixtures.world 1700000000000 [] []))
    as [E _].
  - intros d [= <-]. reflexivity.
  - vm_compute. split; discriminate.
  - rewrite E. reflexivity.
Defined.

(** X16. With at least one threat, [buildDashboard] returns and changes
    nothing; the risk level on display is the level of the score on
    display, the score is at most 100, and not negative when no severity
    count is; the total of signals is never 0, so no percentage divides by
    zero; and the timeline has the first eight threats or all of them. *)
Theorem X16_dashboard_is_consistent
    {P : Platform} (d : Generator.ProcessedData)
    (llm : option Analyzer.LLMAnalysisResult) (w : World) :
  Generator.threats d <> [] ->
  - maxTime <= now w + 21600000 <= maxTime ->
  exists dash,
    Generator.buildDashboard (Some d) llm w = (Ret dash, w)
    /\ Generator.riskLevel (Generator.status dash)
       = Dashboard.determineRiskLevel
           (Generator.riskScore (Generator.status dash))
    /\ (Generator.riskScore (Generator.status dash) <= 100)%Q
    /\ ((forall member,
            0 <= Generator.severityCount (Generator.summary d) member) ->
        (0 <= Generator.riskScore (Generator.status dash))%Q)
    /\ Generator.totalSignals (Generator.metrics dash) <> 0
    /\ length (Generator.timeline dash)
       = Nat.min 8 (length (Generator.threats d)).
Proof.
  intros Hsome Hrange.
  destruct (buildDashboard_full d llm w Hsome Hrange)
    as (dash & E & _ & Hscore & Hlevel & _ & _ & _ & Htotal & _ & Htl & _).
  exists dash. split; [exact E|]. split; [exact Hlevel|].
  split; [|split; [|split]].
  - rewrite Hscore. unfold Dashboard.calculateRiskScore, Js.Math_min.
    apply Q.le_min_l.
  - intros Hnonneg. rewrite Hscore.
    unfold Dashboard.calculateRiskScore, Js.Math_min.
    apply Q.min_glb; [discriminate|].
    apply Math_round_nonneg.
    pose proof (Hnonneg Generator.sevCritical) as Hc.
    pose proof (Hnonneg Generator.sevHigh) as Hh.
    pose proof (Hnonneg Generator.sevMedium) as Hm.
    pose proof (Hnonneg Generator.sevLow) as Hl.
    rewrite Zle_Qle in Hc, Hh, Hm, Hl.
    change (inject_Z 0) with 0%Q in Hc, Hh, Hm, Hl.
    lra.
  - rewrite Htotal.
    destruct (Generator.totalThreats (Generator.summary d) =? 0) eqn:E0.
    + destruct (Generator.threats d); [contradiction|]. simpl. lia.
    + apply Z.eqb_neq in E0. exact E0.
  - rewrite Htl. unfold Dashboard.timeline.
    rewrite length_map, length_firstn, length_map. reflexivity.
Qed.

Lemma X16_dashboard_is_consistent_witness :
  let data :=
    {| Generator.threats :=
         [ {| Generator.core := maskedThreat;
              Generator.threatSources := Some [SHODAN] |} ];
       Generator.summary := sampleSummary;
       Generator.indicators := None;
       Generator.correlation := None |} in
  exists dash,
    Generator.buildDashboard (P := Fixtures.platform) (Some data) None
      (Fixtures.world 1700000000000 [] [])
    = (Ret dash, Fixtures.world 1700000000000 [] [])
    /\ Generator.totalSignals (Generator.metrics dash) <> 0.
Proof.
  intros data.
  destruct (X16_dashboard_is_consistent (P := Fixtures.platform)
              data None (Fixtures.world 1700000000000 [] []))
    as (dash & E & _ & _ & _ & Htotal & _).
  - discriminate.
  - vm_compute. split; discriminate.
  - exists dash. split; [exact E|exact Htotal].
Defined.

(** ** A run of the generator *)

Section GenerateFacts.

Context {P : Platform} {JD : JSON Generator.ProcessedData}
        {JL : JSON Analyzer.LLMAnalysisResult}
        {JP : JSON Generator.PublicDashboard}.

(** [loadJson] never throws, and reads only. *)
Lemma loadJson_stored {T} {J : JSON T} (this : Generator.DashboardGenerator)
    (filename : string) (w : World) :
  Generator.loadJson (T := T) this filename w
  = (Ret (stored this filename w), w).
Proof.
  unfold Generator.loadJson, stored, try_catch, bind, fs_readFile,
    JSON_parse_io, ret, throw.
  destruct (files w !! path_join (Generator.outputDir this) filename)
    as [raw|]; simpl; [|reflexivity].
  destruct (JSON_parse raw); reflexivity.
Qed.

Lemma buildDashboard_returns
    (data : option Generator.ProcessedData)
    (llm : option Analyzer.LLMAnalysisResult) (w : World) :
  - maxTime <= now w + 21600000 <= maxTime ->
  exists dash,
    Generator.buildDashboard data llm w = (Ret dash, w)
    /\ ((forall d, data = Some d -> Generator.threats d = []) ->
        dash = emptyDashboardAt (now w)).
Proof.
  intros Hrange.
  destruct data as [d|].
  - destruct (Generator.threats d) as [|t0 ts] eqn:Ets.
    + exists (emptyDashboardAt (now w)). split; [|reflexivity].
      apply buildDashboard_empty; [|exact Hrange].
      intros d' [= <-]. exact Ets.
    + destruct (buildDashboard_full d llm w) as (dash & E & _);
        [rewrite Ets; discriminate|exact Hrange|].
      exists dash. split; [exact E|].
      intros Hnone. specialize (Hnone d eq_refl). congruence.
  - exists (emptyDashboardAt (now w)). split; [|reflexivity].
    apply buildDashboard_empty; [discriminate|exact Hrange].
Qed.

Lemma saveDashboard_readOnly (this : Generator.DashboardGenerator)
    (dash : Generator.PublicDashboard) (w : World) :
  readOnly w = true ->
  exists e, Generator.saveDashboard this dash w = (Throw e, w).
Proof.
  intros Hro. unfold Generator.saveDashboard, bind, fs_mkdir.
  rewrite Hro. eexists. reflexivity.
Qed.

Lemma saveDashboard_writable (this : Generator.DashboardGenerator)
    (dash : Generator.PublicDashboard) (w : World) :
  readOnly w = false ->
  Generator.saveDashboard this dash w
  = (Ret tt,
     printed ("[Dashboard] Saved to " ++ Generator.publicDir this
                ++ "/cti-dashboard.json")
             (savedTwice this (JSON_stringify dash) w)).
Proof.
  intros Hrw.
  unfold Generator.saveDashboard, bind, fs_mkdir, fs_writeFile, console_log,
    emit.
  unfold printed, savedTwice.
  repeat (rewrite Hrw; cbv beta iota;
          cbn [readOnly now zone files env latency trace]).
  reflexivity.
Qed.

End GenerateFacts.

(** X17. A run of [generate] with the clock in range.  The two inputs are
    whatever [processed-data.json] and [llm-analysis.json] hold, a missing
    or unreadable file counting as no data, never as an error.  On a
    writable file system the run returns the dashboard it built and has
    written the same text to the output copy and to the public copy, and to
    no other file; without processed data the dashboard written is the
    empty one.  On a read-only file system the run throws, having written
    nothing. *)
Theorem X17_generate_publishes_two_equal_copies
    {P : Platform} {JD : JSON Generator.ProcessedData}
    {JL : JSON Analyzer.LLMAnalysisResult}
    {JP : JSON Generator.PublicDashboard}
    (this : Generator.DashboardGenerator) (w : World) :
  - maxTime <= now w + 21600000 <= maxTime ->
  let w0 := printed "[Dashboard] Generating CTI dashboard..." w in
  exists dash,
    Generator.buildDashboard
      (stored this "processed-data.json" w)
      (stored this "llm-analysis.json" w) w0
    = (Ret dash, w0)
    /\ (readOnly w = false ->
        exists w',
          Generator.generate this w = (Ret dash, w')
          /\ files w'
             = <[publicCopy this := JSON_stringify dash]>
                 (<[outputCopy this := JSON_stringify dash]> (files w))
          /\ now w' = now w)
    /\ (readOnly w = true ->
        exists e, Generator.generate this w = (Throw e, w0))
    /\ (stored (T := Generator.ProcessedData) this "processed-data.json" w
        = None ->
        dash = emptyDashboardAt (now w)).
Proof.
  intros Hrange w0.
  destruct (buildDashboard_returns
              (stored this "processed-data.json" w)
              (stored this "llm-analysis.json" w) w0 Hrange)
    as (dash & E & Hempty).
  exists dash. split; [exact E|].
  assert (Hrun :
            Generator.generate this w
            = bind (Generator.saveDashboard this dash)
                (fun _ =>
                   bind (console_log
                           ("[Dashboard] Generated - Risk: "
                              ++ Generator.riskLevelName
                                   (Generator.riskLevel (Generator.status dash))
                              ++ ", Signals: "
                              ++ Js.string_of_Z
                                   (Generator.totalSignals
                                      (Generator.metrics dash))))
                     (fun _ => ret dash)) w0).
  { unfold Generator.generate.
    unfold bind at 1. unfold console_log at 1, emit at 1. cbv beta iota.
    fold (printed "[Dashboard] Generating CTI dashboard..." w). fold w0.
    unfold bind at 1. rewrite loadJson_stored. cbv beta iota.
    unfold bind at 1. rewrite loadJson_stored. cbv beta iota.
    unfold bind at 1.
    change (stored this "processed-data.json" w0)
      with (stored (T := Generator.ProcessedData) this "processed-data.json" w).
    change (stored this "llm-analysis.json" w0)
      with (stored (T := Analyzer.LLMAnalysisResult) this
              "llm-analysis.json" w).
    rewrite E. reflexivity. }
  split; [|split].
  - intros Hrw. rewrite Hrun. unfold bind at 1.
    rewrite (saveDashboard_writable this dash w0 Hrw).
    eexists. split; [reflexivity|]. split; reflexivity.
  - intros Hro. rewrite Hrun. unfold bind at 1.
    destruct (saveDashboard_readOnly this dash w0 Hro) as [e Esave].
    rewrite Esave. exists e. reflexivity.
  - intros Hnone. apply Hempty. rewrite Hnone. discriminate.
Qed.

Lemma X17_generate_publishes_two_equal_copies_witness :
  exists w',
    Generator.generate (P := Fixtures.platform) (JD := jsonNoData)
      (JL := jsonNoAnalysis) (JP := jsonStamp) defaultGenerator
      (Fixtures.world 1700000000000 [] [])
    = (Ret (emptyDashboardAt (P := Fixtures.platform) 1700000000000), w')
    /\ files w' !! publicCopy defaultGenerator = Some "1700000000000"
    /\ files w' !! outputCopy defaultGenerator = Some "1700000000000".
Proof.
  destruct (X17_generate_publishes_two_equal_copies (P := Fixtures.platform)
              (JD := jsonNoData) (JL := jsonNoAnalysis) (JP := jsonStamp)
              defaultGenerator (Fixtures.world 1700000000000 [] []))
    as (dash & _ & Hrw & _ & Hempty).
  - vm_compute. split; discriminate.
  - destruct (Hrw eq_refl) as (w' & E & Hfiles & _).
    rewrite (Hempty eq_refl) in E, Hfiles.
    exists w'. split; [exact E|].
    rewrite Hfiles. split; vm_compute; reflexivity.
Defined.

(** ** Evidence links *)

Lemma split_at_first (sep : ascii) (a rest : string) :
  free_of sep a ->
  Js.split sep (a ++ String sep rest) = a :: Js.split sep rest.
Proof.
  unfold free_of. induction a as [|c a IH]; simpl.
  - intros _. rewrite Ascii.eqb_refl. reflexivity.
  - intros Hfree.
    destruct (Ascii.eqb_spec c sep) as [-> | Hne]; [tauto|].
    rewrite IH by tauto. reflexivity.
Qed.

Lemma maskIp_quad (a b c d : string) :
  free_of "." a -> free_of "." b -> free_of "." c -> free_of "." d ->
  Dashboard.maskIp (a ++ "." ++ b ++ "." ++ c ++ "." ++ d)
  = a ++ "." ++ b ++ ".xxx.xxx".
Proof.
  intros Ha Hb Hc Hd. unfold Dashboard.maskIp.
  change (a ++ "." ++ b ++ "." ++ c ++ "." ++ d)
    with (a ++ String "." (b ++ String "." (c ++ String "." d))).
  rewrite (split_at_first _ _ _ Ha), (split_at_first _ _ _ Hb),
    (split_at_first _ _ _ Hc), (split_free _ _ Hd).
  reflexivity.
Qed.

(** X18. The host evidence of a correlated signal has at most three links,
    one per sample in order.  The title of a link shows the address
    masked: of a dotted quad only the first two groups, the other two as
    [xxx]; a sample that does not split into exactly four groups at its
    dots is shown as it is.  The link's URL and its metadata hold the
    sample in full in every case. *)
Theorem X18_host_evidence_masks_the_title_only
    (s : Dashboard.SourceCount) (lbl : string) :
  let links := Dashboard.buildInfraEvidence (Some s) lbl in
  let samples := List.firstn 3 (default [] (Dashboard.sampleData s)) in
  (length links <= 3)%nat
  /\ List.map Dashboard.evTitle links
     = List.map (fun sample => lbl ++ " host: " ++ Dashboard.maskIp sample)
                samples
  /\ List.map Dashboard.url links
     = List.map (fun sample => "https://www.shodan.io/host/" ++ sample) samples
  /\ List.map Dashboard.metadataIp links = List.map Some samples
  /\ (forall a b c d,
         free_of "." a -> free_of "." b -> free_of "." c -> free_of "." d ->
         Dashboard.maskIp (a ++ "." ++ b ++ "." ++ c ++ "." ++ d)
         = a ++ "." ++ b ++ ".xxx.xxx")
  /\ (forall ip,
         length (Js.split "." ip) <> 4%nat -> Dashboard.maskIp ip = ip).
Proof.
  intros links samples. unfold links, samples, Dashboard.buildInfraEvidence.
  split; [|split; [|split; [|split; [|split]]]].
  - destruct (Dashboard.sampleData s) as [l|]; simpl; [|lia].
    rewrite length_map. apply firstn_le_length.
  - destruct (Dashboard.sampleData s) as [l|]; [|reflexivity].
    rewrite List.map_map. reflexivity.
  - destruct (Dashboard.sampleData s) as [l|]; [|reflexivity].
    rewrite List.map_map. reflexivity.
  - destruct (Dashboard.sampleData s) as [l|]; [|reflexivity].
    rewrite List.map_map. reflexivity.
  - apply maskIp_quad.
  - intros ip Hlen. unfold Dashboard.maskIp.
    destruct (Js.split "." ip) as [|p0 [|p1 [|p2 [|p3 [|p4 rest]]]]];
      try reflexivity.
    simpl in Hlen. lia.
Qed.

Lemma X18_host_evidence_masks_the_title_only_witness :
  Dashboard.maskIp ("203" ++ "." ++ "0" ++ "." ++ "113" ++ "." ++ "77")
  = "203.0.xxx.xxx"
  /\ Dashboard.maskIp "2001:db8::1" = "2001:db8::1".
Proof.
  destruct (X18_host_evidence_masks_the_title_only
              {| Dashboard.source := SHODAN; Dashboard.count := 1;
                 Dashboard.sampleData := Some ["203.0.113.77"];
                 Dashboard.lastSeen := "2026-02-01T08:00:00.000Z" |} "ssh")
    as (_ & _ & _ & _ & Hquad & Hother).
  split.
  - apply Hquad; unfold free_of; simpl; intros H;
      repeat (destruct H as [H | H]; [discriminate H|]); exact H.
  - apply Hother. vm_compute. discriminate.
Defined.

Lemma substring_0_short (m : nat) :
  forall s : string, (String.length s <= m)%nat -> String.substring 0 m s = s.
Proof.
  induction m as [|m IH]; intros [|c s]; simpl; intros Hlen;
    try reflexivity; try lia.
  rewrite IH by lia. reflexivity.
Qed.

(** X19. The social evidence of a correlated signal has at most three
    links.  Every excerpt is at most 103 characters long: a sample of up to
    100 characters is quoted whole, a longer one is cut to its first 100
    characters and ends in three dots.  All links of a signal carry the
    same search URL, which depends on the label only. *)
Theorem X19_social_excerpts_are_short
    {P : Platform} (s : Dashboard.SourceCount) (lbl : string) :
  let links := Dashboard.buildSocialEvidence (Some s) lbl in
  let samples := List.firstn 3 (default [] (Dashboard.sampleData s)) in
  (length links <= 3)%nat
  /\ (forall e, In e links ->
        (String.length (Dashboard.excerpt e) <= 103)%nat
        /\ Dashboard.url e
           = "https://x.com/search?q=" ++ encodeURIComponent lbl)
  /\ List.map Dashboard.excerpt links
     = List.map
         (fun text =>
            if (100 <? String.length text)%nat
            then String.substring 0 100 text ++ "..."
            else text)
         samples.
Proof.
  intros links samples. unfold links, samples, Dashboard.buildSocialEvidence.
  destruct (Dashboard.sampleData s) as [l|]; simpl;
    [|split; [lia|split; [intros e []|reflexivity]]].
  split; [|split].
  - rewrite length_map. apply firstn_le_length.
  - intros e He. apply List.in_map_iff in He.
    destruct He as (text & <- & _). cbn [Dashboard.excerpt Dashboard.url].
    split; [|reflexivity].
    rewrite length_append.
    pose proof (substring_0_length 100 text).
    destruct (100 <? String.length text)%nat; simpl String.length; lia.
  - rewrite List.map_map. apply List.map_ext. intros text.
    cbn [Dashboard.excerpt].
    destruct (100 <? String.length text)%nat eqn:E; [reflexivity|].
    apply Nat.ltb_ge in E. rewrite (substring_0_short _ _ E).
    apply append_empty_r.
Qed.

Lemma X19_social_excerpts_are_short_witness :
  Forall (fun e => (String.length (Dashboard.excerpt e) <= 103)%nat)
    (Dashboard.buildSocialEvidence (P := Fixtures.platform)
       (Some {| Dashboard.source := X_COM; Dashboard.count := 2;
                Dashboard.sampleData :=
                  Some ["Mass scanning of port 22 seen tonight"];
                Dashboard.lastSeen := "2026-02-01T08:00:00.000Z" |})
       "ssh").
Proof.
  apply List.Forall_forall. intros e He.
  destruct (X19_social_excerpts_are_short (P := Fixtures.platform)
              {| Dashboard.source := X_COM; Dashboard.count := 2;
                 Dashboard.sampleData :=
                   Some ["Mass scanning of port 22 seen tonight"];
                 Dashboard.lastSeen := "2026-02-01T08:00:00.000Z" |} "ssh")
    as (_ & H & _).
  exact (proj1 (H e He)).
Defined.

(** ** Extraction: the severity guessed for a CVE *)

Lemma includes_false_prefix (s needle : string) :
  Js.includes s needle = false -> String.prefix needle s = false.
Proof.
  destruct s; simpl; intros H; apply orb_false_iff in H; tauto.
Qed.

Lemma matchCveYear_without_tag (s : string) :
  Js.includes s "CVE-" = false -> Extraction.matchCveYear s = None.
Proof.
  induction s as [|c s IH]; [reflexivity|].
  intros H. pose proof (includes_false_prefix _ _ H) as Hp.
  cbn [Extraction.matchCveYear]. rewrite Hp.
  apply IH. simpl in H. apply orb_false_iff in H. tauto.
Qed.

Lemma substring_all (s : string) : String.substring 0 (String.length s) s = s.
Proof. apply substring_0_short. lia. Qed.

Lemma matchCveYear_at_front (d1 d2 d3 d4 : ascii) (rest : string) :
  Dashboard.isDigit d1 = true -> Dashboard.isDigit d2 = true ->
  Dashboard.isDigit d3 = true -> Dashboard.isDigit d4 = true ->
  Extraction.matchCveYear
    ("CVE-" ++ String d1 (String d2 (String d3 (String d4 rest))))
  = Some (((Extraction.digitValue d1 * 10 + Extraction.digitValue d2) * 10
           + Extraction.digitValue d3) * 10 + Extraction.digitValue d4).
Proof.
  intros H1 H2 H3 H4.
  change ("CVE-" ++ String d1 (String d2 (String d3 (String d4 rest))))
    with (String "C" (String "V" (String "E" (String "-"
            (String d1 (String d2 (String d3 (String d4 rest)))))))).
  cbn [Extraction.matchCveYear].
  change (String.prefix "CVE-" (String "C" (String "V" (String "E" (String "-"
            (String d1 (String d2 (String d3 (String d4 rest)))))))))
    with true.
  cbv iota.
  change (String.substring 4 _ (String "C" (String "V" (String "E" (String "-"
            (String d1 (String d2 (String d3 (String d4 rest)))))))))
    with (String.substring 0
            (String.length (String d1 (String d2 (String d3 (String d4 rest)))))
            (String d1 (String d2 (String d3 (String d4 rest))))).
  rewrite substring_all.
  unfold Extraction.fourDigits. rewrite H1, H2, H3, H4. reflexivity.
Qed.

(** X20. [guessCVESeverity] answers [critical], [high] or [medium] and
    nothing else, never [low].  For an id that starts with [CVE-] and four
    digits, the year decides: [critical] from 2024 on, [high] for 2022 and
    2023, [medium] for every earlier year, 2020 and 2021 being treated like
    the years before them.  A text in which [CVE-] occurs nowhere, an id in
    lower case for one, gets [medium]. *)
Theorem X20_cve_severity_by_year :
  (forall cve,
      Extraction.guessCVESeverity cve = "critical"
      \/ Extraction.guessCVESeverity cve = "high"
      \/ Extraction.guessCVESeverity cve = "medium")
  /\ (forall d1 d2 d3 d4 rest,
         Dashboard.isDigit d1 = true -> Dashboard.isDigit d2 = true ->
         Dashboard.isDigit d3 = true -> Dashboard.isDigit d4 = true ->
         let year :=
           ((Extraction.digitValue d1 * 10 + Extraction.digitValue d2) * 10
            + Extraction.digitValue d3) * 10 + Extraction.digitValue d4 in
         let severity :=
           Extraction.guessCVESeverity
             ("CVE-" ++ String d1 (String d2 (String d3 (String d4 rest)))) in
         (2024 <= year -> severity = "critical")
         /\ (2022 <= year < 2024 -> severity = "high")
         /\ (year < 2022 -> severity = "medium"))
  /\ (forall cve,
         Js.includes cve "CVE-" = false ->
         Extraction.guessCVESeverity cve = "medium").
Proof.
  split; [|split].
  - intros cve. unfold Extraction.guessCVESeverity.
    destruct (Extraction.matchCveYear cve) as [year|]; [|tauto].
    destruct (2024 <=? year); [tauto|].
    destruct (2022 <=? year); [tauto|].
    destruct (2020 <=? year); tauto.
  - intros d1 d2 d3 d4 rest H1 H2 H3 H4 year severity.
    unfold severity, Extraction.guessCVESeverity.
    rewrite (matchCveYear_at_front d1 d2 d3 d4 rest H1 H2 H3 H4).
    fold year.
    destruct (Z.leb_spec 2024 year); [repeat split; intros; (reflexivity || lia)|].
    destruct (Z.leb_spec 2022 year); [repeat split; intros; (reflexivity || lia)|].
    destruct (Z.leb_spec 2020 year); repeat split; intros; (reflexivity || lia).
  - intros cve H. unfold Extraction.guessCVESeverity.
    rewrite (matchCveYear_without_tag _ H). reflexivity.
Qed.

Lemma X20_cve_severity_by_year_witness :
  Extraction.guessCVESeverity "CVE-2023-4966" = "high"
  /\ Extraction.guessCVESeverity "CVE-2017-0144" = "medium"
  /\ Extraction.guessCVESeverity "cve-2024-3400" = "medium".
Proof.
  destruct X20_cve_severity_by_year as (_ & Hyear & Hnone).
  split; [|split].
  - destruct (Hyear "2"%char "0"%char "2"%char "3"%char "-4966"
                eq_refl eq_refl eq_refl eq_refl) as (_ & H & _).
    apply H. vm_compute. split; [discriminate|reflexivity].
  - destruct (Hyear "2"%char "0"%char "1"%char "7"%char "-0144"
                eq_refl eq_refl eq_refl eq_refl) as (_ & _ & H).
    apply H. vm_compute. reflexivity.
  - apply Hnone. vm_compute. reflexivity.
Defined.

(** ** Extraction: hosts *)

Lemma NoDup_snoc {A} (l : list A) (x : A) :
  List.NoDup l -> ~ In x l -> List.NoDup (l ++ [x])%list.
Proof.
  induction l as [|y l IH]; simpl; intros Hl Hx.
  - constructor; [tauto|constructor].
  - inversion Hl as [|? ? Hy Hl']; subst. constructor.
    + rewrite List.in_app_iff. simpl. intuition.
    + apply IH; [exact Hl'|tauto].
Qed.

Section ExtractionFacts.

Context {P : Platform}.

Lemma hostStep_ips (seen : gset string) (ips : list Extraction.IpEntry)
    (cves : list Extraction.CveEntry) (h : Extraction.Host) :
  (Extraction.hostStep (seen, ips, cves) h).1
  = if bool_decide (Extraction.ip h ∈ seen) then (seen, ips)
    else ({[ Extraction.ip h ]} ∪ seen, (ips ++ [ipEntryOf h])%list).
Proof.
  unfold Extraction.hostStep.
  destruct (bool_decide (Extraction.ip h ∈ seen)); reflexivity.
Qed.

Lemma hostStep_cves (seen : gset string) (ips : list Extraction.IpEntry)
    (cves : list Extraction.CveEntry) (h : Extraction.Host) :
  (Extraction.hostStep (seen, ips, cves) h).2
  = List.fold_left Extraction.addCve (default [] (Extraction.vulns h)) cves.
Proof.
  unfold Extraction.hostStep.
  destruct (bool_decide (Extraction.ip h ∈ seen));
    destruct (Extraction.vulns h); reflexivity.
Qed.

Lemma fold_hostStep_cves (hs : list Extraction.Host) :
  forall st,
    (List.fold_left Extraction.hostStep hs st).2
    = List.fold_left Extraction.addCve (vulnsOf hs) st.2.
Proof.
  induction hs as [|h hs IH]; intros [[seen ips] cves]; [reflexivity|].
  cbn [List.fold_left]. rewrite IH.
  unfold vulnsOf. cbn [List.map List.concat].
  rewrite List.fold_left_app. f_equal. apply hostStep_cves.
Qed.

Lemma fold_hostStep_ips (hs : list Extraction.Host) :
  forall seen ips cves,
    (forall x, x ∈ seen <-> In x (List.map Extraction.ipValue ips)) ->
    List.NoDup (List.map Extraction.ipValue ips) ->
    let r := List.fold_left Extraction.hostStep hs (seen, ips, cves) in
    List.NoDup (List.map Extraction.ipValue r.1.2)
    /\ (forall e, In e r.1.2 ->
          In e ips \/ exists h, In h hs /\ e = ipEntryOf h)
    /\ (forall h, In h hs ->
          In (Extraction.ip h) (List.map Extraction.ipValue r.1.2))
    /\ (forall e, In e ips -> In e r.1.2)
    /\ (length r.1.2 <= length ips + length hs)%nat.
Proof.
  induction hs as [|h hs IH]; intros seen ips cves Hseen Hnodup.
  - simpl. repeat split; try tauto; try lia.
  - cbn [List.fold_left].
    destruct (Extraction.hostStep (seen, ips, cves) h) as [[seen1 ips1] cves1]
      eqn:Estep.
    pose proof (hostStep_ips seen ips cves h) as Hstep.
    rewrite Estep in Hstep. cbn [fst] in Hstep.
    destruct (bool_decide (Extraction.ip h ∈ seen)) eqn:Eseen.
    + injection Hstep as -> ->.
      apply bool_decide_eq_true in Eseen.
      destruct (IH seen ips cves1 Hseen Hnodup) as (H1 & H2 & H3 & H4 & H5).
      split; [exact H1|]. split; [|split; [|split]].
      * intros e He. destruct (H2 e He) as [Hin | (h' & Hh' & ->)];
          [left; exact Hin|right; exists h'; split; [right; exact Hh'|reflexivity]].
      * intros h' [<- | Hh']; [|exact (H3 h' Hh')].
        apply Hseen in Eseen. apply List.in_map_iff in Eseen.
        destruct Eseen as (e & He & Hin).
        apply List.in_map_iff. exists e. split; [exact He|exact (H4 e Hin)].
      * exact H4.
      * simpl length. lia.
    + injection Hstep as -> ->.
      apply bool_decide_eq_false in Eseen.
      assert (Hfresh : ~ In (Extraction.ip h) (List.map Extraction.ipValue ips))
        by (intros Hin; apply Eseen, Hseen; exact Hin).
      assert (Hseen1 :
                forall x, x ∈ ({[ Extraction.ip h ]} ∪ seen : gset string)
                          <-> In x (List.map Extraction.ipValue
                                      (ips ++ [ipEntryOf h])%list)).
      { intros x. rewrite List.map_app, List.in_app_iff. simpl.
        rewrite elem_of_union, elem_of_singleton, Hseen. intuition. }
      assert (Hnodup1 :
                List.NoDup (List.map Extraction.ipValue
                              (ips ++ [ipEntryOf h])%list)).
      { rewrite List.map_app. simpl.
        apply NoDup_snoc; assumption. }
      destruct (IH _ _ cves1 Hseen1 Hnodup1) as (H1 & H2 & H3 & H4 & H5).
      split; [exact H1|]. split; [|split; [|split]].
      * intros e He. destruct (H2 e He) as [Hin | (h' & Hh' & ->)].
        -- apply List.in_app_iff in Hin. destruct Hin as [Hin | [<- | []]];
             [left; exact Hin|right; exists h; split; [left|]; reflexivity].
        -- right. exists h'. split; [right; exact Hh'|reflexivity].
      * intros h' [<- | Hh']; [|exact (H3 h' Hh')].
        apply List.in_map_iff. exists (ipEntryOf h).
        split; [reflexivity|]. apply H4. apply List.in_app_iff.
        right. left. reflexivity.
      * intros e He. apply H4. apply List.in_app_iff. left. exact He.
      * rewrite length_app in H5. simpl length in *. lia.
Qed.

End ExtractionFacts.

Lemma fold_left_step {A B} (f : A -> B -> A) (x : B) (l : list B) (a : A) :
  List.fold_left f (x :: l) a = List.fold_left f l (f a x).
Proof. reflexivity. Qed.

Section ExtractionParts.

Context {P : Platform}.

(** [extractIndicators], part by part. *)
Lemma extractIndicators_parts
    (processed : option Generator.ProcessedData)
    (shodan : option Extraction.ShodanScrapedData)
    (xData : option Extraction.XScrapedData) :
  let scanned :=
    List.fold_left Extraction.hostStep (scannedHosts shodan) (∅, [], []) in
  let read :=
    List.fold_left Extraction.postStep (topPosts xData)
      ([], Extraction.portTtps (allHosts shodan)) in
  Extraction.extractIndicators processed shodan xData
  = {| Extraction.ips := scanned.1.2;
       Extraction.cves :=
         List.fold_left Extraction.iocStep
           (default [] (processed ≫= Generator.indicators)) scanned.2;
       Extraction.ttps := read.2;
       Extraction.socialPosts := read.1 |}.
Proof.
  unfold Extraction.extractIndicators, scannedHosts, allHosts, topPosts.
  destruct (shodan ≫= Extraction.hosts) as [hs|]; simpl default.
  - destruct (List.fold_left Extraction.hostStep (List.firstn 20 hs)
                (∅, [], [])) as [[seen ips] cves].
    destruct (xData ≫= Extraction.posts) as [ps|]; simpl default.
    + simpl app.
      destruct (List.fold_left Extraction.postStep _ _) as [sp tt].
      destruct (processed ≫= Generator.indicators); reflexivity.
    + destruct (processed ≫= Generator.indicators); reflexivity.
  - destruct (xData ≫= Extraction.posts) as [ps|]; simpl default.
    + destruct (List.fold_left Extraction.postStep _ _) as [sp tt].
      destruct (processed ≫= Generator.indicators); reflexivity.
    + destruct (processed ≫= Generator.indicators); reflexivity.
Qed.

(** *** CVEs *)

Lemma addCve_cases (cves : list Extraction.CveEntry) (cve : string) :
  (In cve (List.map Extraction.cveId cves)
   /\ Extraction.addCve cves cve = cves)
  \/ (~ In cve (List.map Extraction.cveId cves)
      /\ Extraction.addCve cves cve = (cves ++ [cveEntryOf cve])%list).
Proof.
  unfold Extraction.addCve.
  destruct (List.existsb _ cves) eqn:E.
  - left. split; [|reflexivity].
    apply List.existsb_exists in E. destruct E as (c & Hc & Heq).
    apply String.eqb_eq in Heq. apply List.in_map_iff. exists c. tauto.
  - right. split; [|reflexivity].
    intros Hin. apply List.in_map_iff in Hin. destruct Hin as (c & Heq & Hc).
    assert (Ht : List.existsb
                   (fun c => String.eqb (Extraction.cveId c) cve) cves = true).
    { apply List.existsb_exists. exists c. split; [exact Hc|].
      apply String.eqb_eq. exact Heq. }
    congruence.
Qed.

Lemma fold_addCve (ids : list string) :
  forall cves,
    List.NoDup (List.map Extraction.cveId cves) ->
    (forall c, In c cves -> c = cveEntryOf (Extraction.cveId c)) ->
    let r := List.fold_left Extraction.addCve ids cves in
    List.NoDup (List.map Extraction.cveId r)
    /\ (forall c, In c r -> c = cveEntryOf (Extraction.cveId c))
    /\ (forall c, In c r -> In c cves \/ In (Extraction.cveId c) ids)
    /\ (forall i, In i ids -> In i (List.map Extraction.cveId r))
    /\ (forall c, In c cves -> In c r).
Proof.
  induction ids as [|i ids IH]; intros cves Hnodup Hwf.
  - simpl. repeat split; tauto.
  - cbn [List.fold_left].
    destruct (addCve_cases cves i) as [[Hin ->] | [Hnew ->]].
    + destruct (IH cves Hnodup Hwf) as (H1 & H2 & H3 & H4 & H5).
      split; [exact H1|]. split; [exact H2|]. split; [|split].
      * intros c Hc. destruct (H3 c Hc); [tauto|right; right; assumption].
      * intros j [<- | Hj]; [|exact (H4 j Hj)].
        apply List.in_map_iff in Hin. destruct Hin as (c & Heq & Hc).
        apply List.in_map_iff. exists c. split; [exact Heq|exact (H5 c Hc)].
      * exact H5.
    + assert (Hnodup1 : List.NoDup (List.map Extraction.cveId
                                      (cves ++ [cveEntryOf i])%list)).
      { rewrite List.map_app. simpl. apply NoDup_snoc; assumption. }
      assert (Hwf1 : forall c, In c (cves ++ [cveEntryOf i])%list ->
                               c = cveEntryOf (Extraction.cveId c)).
      { intros c Hc. apply List.in_app_iff in Hc.
        destruct Hc as [Hc | [<- | []]]; [exact (Hwf c Hc)|reflexivity]. }
      destruct (IH _ Hnodup1 Hwf1) as (H1 & H2 & H3 & H4 & H5).
      split; [exact H1|]. split; [exact H2|]. split; [|split].
      * intros c Hc. destruct (H3 c Hc) as [Hold | Hid];
          [|right; right; exact Hid].
        apply List.in_app_iff in Hold.
        destruct Hold as [Hold | [<- | []]];
          [left; exact Hold|right; left; reflexivity].
      * intros j [<- | Hj]; [|exact (H4 j Hj)].
        apply List.in_map_iff. exists (cveEntryOf i).
        split; [reflexivity|]. apply H5. apply List.in_app_iff.
        right. left. reflexivity.
      * intros c Hc. apply H5. apply List.in_app_iff. left. exact Hc.
Qed.

Lemma fold_iocStep (iocs : list Generator.Indicator) :
  forall cves,
    List.fold_left Extraction.iocStep iocs cves
    = List.fold_left Extraction.addCve
        (List.map Generator.indValue
           (List.filter (fun i => String.eqb (Generator.indType i) "cve")
                        iocs))
        cves.
Proof.
  induction iocs as [|i iocs IH]; intros cves; [reflexivity|].
  cbn [List.fold_left List.filter]. rewrite IH.
  unfold Extraction.iocStep.
  destruct (String.eqb (Generator.indType i) "cve"); reflexivity.
Qed.

Lemma extracted_cves
    (processed : option Generator.ProcessedData)
    (shodan : option Extraction.ShodanScrapedData)
    (xData : option Extraction.XScrapedData) :
  Extraction.cves (Extraction.extractIndicators processed shodan xData)
  = List.fold_left Extraction.addCve
      (vulnsOf (scannedHosts shodan) ++ cveIndicators processed)%list [].
Proof.
  rewrite extractIndicators_parts. cbn [Extraction.cves].
  rewrite fold_iocStep, fold_hostStep_cves, List.fold_left_app.
  reflexivity.
Qed.

(** *** Posts and techniques *)

Lemma postStep_eq (sp : list Extraction.SocialPost) (tt : list Extraction.Ttp)
    (p : Extraction.Post) :
  Extraction.postStep (sp, tt) p
  = ((sp ++ [socialPostOf p])%list,
     List.fold_left
       (Extraction.keywordStep p (String_toLowerCase (Extraction.text p)))
       Extraction.MITRE_MAPPINGS tt).
Proof. reflexivity. Qed.

Lemma fold_postStep_posts (ps : list Extraction.Post) :
  forall sp tt,
    (List.fold_left Extraction.postStep ps (sp, tt)).1
    = (sp ++ List.map socialPostOf ps)%list.
Proof.
  induction ps as [|p ps IH]; intros sp tt.
  - cbn [List.fold_left List.map]. rewrite List.app_nil_r. reflexivity.
  - rewrite fold_left_step, postStep_eq, IH.
    cbn [List.map]. rewrite <- List.app_assoc. reflexivity.
Qed.

Lemma technique_known (t : Extraction.Technique) :
  In t (List.map snd Extraction.MITRE_MAPPINGS) ->
  In (Extraction.techId t) knownTechniqueIds.
Proof.
  simpl. intros H.
  repeat (destruct H as [<- | H]; [simpl; tauto|]).
  destruct H.
Qed.

Lemma portTtps_ok (hs : list Extraction.Host) :
  List.NoDup (List.map ttpId (Extraction.portTtps hs))
  /\ (forall t, In t (Extraction.portTtps hs) ->
        In (Extraction.technique t) (List.map snd Extraction.MITRE_MAPPINGS)).
Proof.
  unfold Extraction.portTtps. split.
  - destruct (Extraction.portSeen hs 22), (Extraction.portSeen hs 3389),
      (Extraction.portSeen hs 445); cbn [List.app List.map ttpId];
      repeat (apply List.NoDup_cons; [simpl; intuition discriminate|]);
      apply List.NoDup_nil.
  - intros t Ht.
    assert (Hone : Extraction.technique t = Extraction.remoteSSH
                   \/ Extraction.technique t = Extraction.remoteRDP
                   \/ Extraction.technique t = Extraction.remoteSMB).
    { destruct (Extraction.portSeen hs 22), (Extraction.portSeen hs 3389),
        (Extraction.portSeen hs 445); cbn [List.app] in Ht;
        repeat (destruct Ht as [<- | Ht]; [cbn [Extraction.technique]; tauto|]);
        destruct Ht. }
    destruct Hone as [-> | [-> | ->]]; simpl; tauto.
Qed.

Lemma keywordStep_ok (post : Extraction.Post) (textLower : string)
    (ttps : list Extraction.Ttp) (entry : string * Extraction.Technique) :
  In entry Extraction.MITRE_MAPPINGS ->
  List.NoDup (List.map ttpId ttps) ->
  (forall t, In t ttps ->
     In (Extraction.technique t) (List.map snd Extraction.MITRE_MAPPINGS)) ->
  List.NoDup (List.map ttpId (Extraction.keywordStep post textLower ttps entry))
  /\ (forall t, In t (Extraction.keywordStep post textLower ttps entry) ->
        In (Extraction.technique t) (List.map snd Extraction.MITRE_MAPPINGS))
  /\ (forall t, In t ttps ->
        In t (Extraction.keywordStep post textLower ttps entry)).
Proof.
  intros Hentry Hnodup Hknown. destruct entry as [keyword mapping].
  unfold Extraction.keywordStep.
  destruct (Js.includes textLower keyword); simpl andb;
    [|repeat split; assumption || tauto].
  destruct (List.existsb _ ttps) eqn:E; simpl negb; cbv iota;
    [repeat split; assumption || tauto|].
  split; [|split].
  - rewrite List.map_app. simpl. apply NoDup_snoc; [exact Hnodup|].
    intros Hin. apply List.in_map_iff in Hin. destruct Hin as (t & Heq & Ht).
    assert (Hex : List.existsb
                    (fun t => String.eqb
                                (Extraction.techId (Extraction.technique t))
                                (Extraction.techId mapping)) ttps = true).
    { apply List.existsb_exists. exists t. split; [exact Ht|].
      apply String.eqb_eq. exact Heq. }
    congruence.
  - intros t Ht. apply List.in_app_iff in Ht.
    destruct Ht as [Ht | [<- | []]]; [exact (Hknown t Ht)|].
    simpl Extraction.technique. apply List.in_map_iff.
    exists (keyword, mapping). split; [reflexivity|exact Hentry].
  - intros t Ht. apply List.in_app_iff. left. exact Ht.
Qed.

Lemma fold_keywordStep_ok (post : Extraction.Post) (textLower : string)
    (entries : list (string * Extraction.Technique)) :
  (forall e, In e entries -> In e Extraction.MITRE_MAPPINGS) ->
  forall ttps,
    List.NoDup (List.map ttpId ttps) ->
    (forall t, In t ttps ->
       In (Extraction.technique t) (List.map snd Extraction.MITRE_MAPPINGS)) ->
    let r := List.fold_left (Extraction.keywordStep post textLower)
               entries ttps in
    List.NoDup (List.map ttpId r)
    /\ (forall t, In t r ->
          In (Extraction.technique t) (List.map snd Extraction.MITRE_MAPPINGS))
    /\ (forall t, In t ttps -> In t r).
Proof.
  induction entries as [|e entries IH]; intros Hsub ttps Hnodup Hknown.
  - cbn [List.fold_left]. repeat split; assumption || tauto.
  - rewrite fold_left_step.
    destruct (keywordStep_ok post textLower ttps e
                (Hsub e (or_introl eq_refl)) Hnodup Hknown)
      as (H1 & H2 & H3).
    destruct (IH (fun e' He' => Hsub e' (or_intror He')) _ H1 H2)
      as (H4 & H5 & H6).
    repeat split; auto.
Qed.

Lemma fold_postStep_ttps (ps : list Extraction.Post) :
  forall sp ttps,
    List.NoDup (List.map ttpId ttps) ->
    (forall t, In t ttps ->
       In (Extraction.technique t) (List.map snd Extraction.MITRE_MAPPINGS)) ->
    let r := (List.fold_left Extraction.postStep ps (sp, ttps)).2 in
    List.NoDup (List.map ttpId r)
    /\ (forall t, In t r ->
          In (Extraction.technique t) (List.map snd Extraction.MITRE_MAPPINGS))
    /\ (forall t, In t ttps -> In t r).
Proof.
  induction ps as [|p ps IH]; intros sp ttps Hnodup Hknown.
  - cbn [List.fold_left snd]. repeat split; assumption || tauto.
  - rewrite fold_left_step, postStep_eq.
    destruct (fold_keywordStep_ok p (String_toLowerCase (Extraction.text p))
                Extraction.MITRE_MAPPINGS (fun e He => He) ttps Hnodup Hknown)
      as (H1 & H2 & H3).
    destruct (IH (sp ++ [socialPostOf p])%list _ H1 H2) as (H4 & H5 & H6).
    split; [exact H4|]. split; [exact H5|].
    intros t Ht. apply H6, H3. exact Ht.
Qed.

End ExtractionParts.

(** X21. The hosts listed by [extractIndicators] come from the first
    twenty scan results and from nowhere else; every address among those
    twenty is listed, and listed once; so at most twenty hosts are listed.
    Each entry is built from a scan result of its address: that port, the
    product name or else the service of the port, and the Shodan link. *)
Theorem X21_extracted_hosts
    {P : Platform} (processed : option Generator.ProcessedData)
    (shodan : option Extraction.ShodanScrapedData)
    (xData : option Extraction.XScrapedData) :
  let found :=
    Extraction.ips (Extraction.extractIndicators processed shodan xData) in
  List.NoDup (List.map Extraction.ipValue found)
  /\ (length found <= 20)%nat
  /\ (forall e, In e found ->
        exists h, In h (scannedHosts shodan) /\ e = ipEntryOf h)
  /\ (forall h, In h (scannedHosts shodan) ->
        In (Extraction.ip h) (List.map Extraction.ipValue found)).
Proof.
  intros found. unfold found. rewrite extractIndicators_parts.
  cbn [Extraction.ips].
  destruct (fold_hostStep_ips (scannedHosts shodan) ∅ [] [])
    as (H1 & H2 & H3 & _ & H5).
  - intros x. simpl. rewrite elem_of_empty. tauto.
  - constructor.
  - split; [exact H1|]. split; [|split].
    + simpl in H5. etransitivity; [exact H5|].
      unfold scannedHosts. apply firstn_le_length.
    + intros e He. destruct (H2 e He) as [[] | Hh]. exact Hh.
    + exact H3.
Qed.

Lemma X21_extracted_hosts_witness :
  In "198.51.100.7"
     (List.map Extraction.ipValue
        (Extraction.ips
           (Extraction.extractIndicators (P := Fixtures.platform)
              None (Some sampleShodan) None)))
  /\ List.map Extraction.service
       (Extraction.ips
          (Extraction.extractIndicators (P := Fixtures.platform)
             None (Some sampleShodan) None))
     = ["OpenSSH"; "RDP"].
Proof.
  split; [|vm_compute; reflexivity].
  destruct (X21_extracted_hosts (P := Fixtures.platform)
              None (Some sampleShodan) None) as (_ & _ & _ & H).
  apply (H {| Extraction.ip := "198.51.100.7"; Extraction.port := 443;
              Extraction.product := None;
              Extraction.vulns := Some ["CVE-2024-6387"] |}).
  right. left. reflexivity.
Defined.

(** X22. The CVEs listed by [extractIndicators] are the vulnerability
    ids of the first twenty scan results together with the values of the
    processed indicators of type [cve]: each of these ids is listed, each
    once, and nothing else is.  Every entry carries the severity guessed
    from its id and the NVD link of its id. *)
Theorem X22_extracted_cves
    {P : Platform} (processed : option Generator.ProcessedData)
    (shodan : option Extraction.ShodanScrapedData)
    (xData : option Extraction.XScrapedData) :
  let found :=
    Extraction.cves (Extraction.extractIndicators processed shodan xData) in
  let ids := (vulnsOf (scannedHosts shodan) ++ cveIndicators processed)%list in
  List.NoDup (List.map Extraction.cveId found)
  /\ (forall c, In c found ->
        c = cveEntryOf (Extraction.cveId c) /\ In (Extraction.cveId c) ids)
  /\ (forall i, In i ids -> In i (List.map Extraction.cveId found)).
Proof.
  intros found ids. unfold found. rewrite extracted_cves. fold ids.
  destruct (fold_addCve ids []) as (H1 & H2 & H3 & H4 & _).
  - constructor.
  - intros c [].
  - split; [exact H1|]. split; [|exact H4].
    intros c Hc. split; [exact (H2 c Hc)|].
    destruct (H3 c Hc) as [[] | Hid]. exact Hid.
Qed.

Lemma X22_extracted_cves_witness :
  List.map Extraction.cveId
    (Extraction.cves
       (Extraction.extractIndicators (P := Fixtures.platform)
          None (Some sampleShodan) None))
  = ["CVE-2024-6387"; "CVE-2023-38408"]
  /\ In "CVE-2023-38408"
        (List.map Extraction.cveId
           (Extraction.cves
              (Extraction.extractIndicators (P := Fixtures.platform)
                 None (Some sampleShodan) None))).
Proof.
  split; [vm_compute; reflexivity|].
  destruct (X22_extracted_cves (P := Fixtures.platform)
              None (Some sampleShodan) None) as (_ & _ & H).
  apply H. vm_compute. right. left. reflexivity.
Defined.

(** X23. No technique is listed twice by [extractIndicators]: the ids
    of the listed techniques are pairwise different, every technique is one
    of [MITRE_MAPPINGS], and so at most twelve are listed.  The techniques
    read off the open ports are always among them, and they are read off
    all scan results, not the first twenty only: one host on port 22
    anywhere is enough for the SSH technique. *)
Theorem X23_extracted_techniques
    {P : Platform} (processed : option Generator.ProcessedData)
    (shodan : option Extraction.ShodanScrapedData)
    (xData : option Extraction.XScrapedData) :
  let found :=
    Extraction.ttps (Extraction.extractIndicators processed shodan xData) in
  List.NoDup (List.map ttpId found)
  /\ (length found <= 12)%nat
  /\ (forall t, In t found ->
        In (Extraction.technique t) (List.map snd Extraction.MITRE_MAPPINGS))
  /\ (forall t, In t (Extraction.portTtps (allHosts shodan)) -> In t found)
  /\ (forall h, In h (allHosts shodan) -> Extraction.port h = 22 ->
        In {| Extraction.technique := Extraction.remoteSSH;
              Extraction.evidence := "SSH exposed on port 22" |} found).
Proof.
  intros found. unfold found. rewrite extractIndicators_parts.
  cbn [Extraction.ttps].
  destruct (portTtps_ok (allHosts shodan)) as [Hp1 Hp2].
  destruct (fold_postStep_ttps (topPosts xData) []
              (Extraction.portTtps (allHosts shodan)) Hp1 Hp2)
    as (H1 & H2 & H3).
  split; [exact H1|]. split; [|split; [exact H2|split; [exact H3|]]].
  - rewrite <- (length_map ttpId).
    change 12%nat with (length knownTechniqueIds).
    apply List.NoDup_incl_length; [exact H1|].
    intros i Hi. apply List.in_map_iff in Hi. destruct Hi as (t & <- & Ht).
    apply technique_known. exact (H2 t Ht).
  - intros h Hh Hport. apply H3. unfold Extraction.portTtps.
    assert (Hseen : Extraction.portSeen (allHosts shodan) 22 = true).
    { unfold Extraction.portSeen. apply List.existsb_exists.
      exists h. split; [exact Hh|]. rewrite Hport. reflexivity. }
    rewrite Hseen. left. reflexivity.
Qed.

Lemma X23_extracted_techniques_witness :
  In {| Extraction.technique := Extraction.remoteSSH;
        Extraction.evidence := "SSH exposed on port 22" |}
     (Extraction.ttps
        (Extraction.extractIndicators (P := Fixtures.platform)
           None (Some sampleShodan) (Some sampleX)))
  /\ List.map ttpId
       (Extraction.ttps
          (Extraction.extractIndicators (P := Fixtures.platform)
             None (Some sampleShodan) (Some sampleX)))
     = ["T1021.004"; "T1021.001"; "T1110"; "T1486"].
Proof.
  split; [|vm_compute; reflexivity].
  destruct (X23_extracted_techniques (P := Fixtures.platform)
              None (Some sampleShodan) (Some sampleX)) as (_ & _ & _ & _ & H).
  apply (H {| Extraction.ip := "198.51.100.7"; Extraction.port := 22;
              Extraction.product := Some "OpenSSH";
              Extraction.vulns := Some ["CVE-2024-6387"; "CVE-2023-38408"] |});
    [left; reflexivity|reflexivity].
Defined.

(** X24. The posts listed by [extractIndicators] are the ten posts with
    the most likes and reposts, or all of them when there are fewer, the
    more engaging first; no post left out has more engagement than a
    listed one.  Each listed text is at most 200 characters long. *)
Theorem X24_extracted_posts
    {P : Platform} (processed : option Generator.ProcessedData)
    (shodan : option Extraction.ShodanScrapedData)
    (xData : option Extraction.XScrapedData) :
  let found :=
    Extraction.socialPosts
      (Extraction.extractIndicators processed shodan xData) in
  let given := default [] (xData ≫= Extraction.posts) in
  found = List.map socialPostOf (topPosts xData)
  /\ length found = Nat.min 10 (length given)
  /\ StronglySorted
       (fun a b => Extraction.engagement b <= Extraction.engagement a) found
  /\ (forall sp, In sp found ->
        (String.length (Extraction.postText sp) <= 200)%nat)
  /\ (exists dropped,
         Permutation (topPosts xData ++ dropped)%list given
         /\ forall a b, In a (topPosts xData) -> In b dropped ->
              Extraction.likes b + Extraction.reposts b
              <= Extraction.likes a + Extraction.reposts a).
Proof.
  intros found given. unfold found. rewrite extractIndicators_parts.
  cbn [Extraction.socialPosts]. rewrite fold_postStep_posts. cbn [app].
  set (key := fun p => Extraction.likes p + Extraction.reposts p).
  assert (Hsorted : StronglySorted (fun a b => key b <= key a)
                      (JsArray.sortDesc key given)) by apply sortDesc_sorted.
  split; [reflexivity|]. split; [|split; [|split]].
  - rewrite length_map. unfold topPosts. fold given. fold key.
    rewrite length_firstn.
    rewrite (Permutation_length (sortDesc_perm key given)). reflexivity.
  - apply StronglySorted_map. unfold topPosts. fold given. fold key.
    apply StronglySorted_firstn. exact Hsorted.
  - intros sp Hsp. apply List.in_map_iff in Hsp.
    destruct Hsp as (p & <- & _). apply substring_0_length.
  - exists (List.skipn 10 (JsArray.sortDesc key given)).
    unfold topPosts. fold given. fold key. split.
    + rewrite firstn_skipn. apply sortDesc_perm.
    + intros a b Ha Hb.
      rewrite <- (firstn_skipn 10 (JsArray.sortDesc key given)) in Hsorted.
      exact (StronglySorted_app_inv_lr _ _ _ Hsorted a b Ha Hb).
Qed.

Lemma X24_extracted_posts_witness :
  List.map Extraction.author
    (Extraction.socialPosts
       (Extraction.extractIndicators (P := Fixtures.platform)
          None None (Some sampleX)))
  = ["@b"; "@a"; "@c"]
  /\ Forall (fun sp => (String.length (Extraction.postText sp) <= 200)%nat)
       (Extraction.socialPosts
          (Extraction.extractIndicators (P := Fixtures.platform)
             None None (Some sampleX))).
Proof.
  split; [vm_compute; reflexivity|].
  apply List.Forall_forall. intros sp Hsp.
  destruct (X24_extracted_posts (P := Fixtures.platform)
              None None (Some sampleX)) as (_ & _ & _ & H & _).
  exact (H sp Hsp).
Defined.

(** ** LLMAnalyzer: helpers *)

Lemma substring_0_exact (m : nat) :
  forall s : string,
    (m <= String.length s)%nat ->
    String.length (String.substring 0 m s) = m.
Proof.
  induction m as [|m IH]; intros [|c s]; simpl; intros Hlen;
    try reflexivity; try lia.
  rewrite IH by lia. reflexivity.
Qed.

(** X25. [truncate(s, len)] with [len] of 3 or more answers a text of at
    most [len] characters: [s] itself when it fits, and otherwise the first
    [len - 3] characters of [s] followed by three dots, [len] characters in
    all. *)
Theorem X25_truncate_fits (s : string) (len : Z) :
  3 <= len ->
  Z.of_nat (String.length (LLM.truncate s len)) <= len
  /\ (Z.of_nat (String.length s) <= len -> LLM.truncate s len = s)
  /\ (len < Z.of_nat (String.length s) ->
      LLM.truncate s len
      = String.substring 0 (Z.to_nat (len - 3)) s ++ "..."
      /\ Z.of_nat (String.length (LLM.truncate s len)) = len).
Proof.
  intros Hlen. unfold LLM.truncate.
  destruct (Z.ltb_spec len (Z.of_nat (String.length s))) as [Hlong | Hshort].
  - assert (Hcut : String.length
                     (String.substring 0 (Z.to_nat (len - 3)) s ++ "...")
                   = Z.to_nat len).
    { rewrite length_append, substring_0_exact by lia. simpl String.length. lia. }
    rewrite Hcut. repeat split; lia || reflexivity.
  - repeat split; lia || reflexivity.
Qed.

Lemma X25_truncate_fits_witness :
  LLM.truncate "Critical remote code execution in edge gateways" 40
  = "Critical remote code execution in edg..."
  /\ Z.of_nat
       (String.length
          (LLM.truncate "Critical remote code execution in edge gateways" 40))
     = 40.
Proof.
  destruct (X25_truncate_fits
              "Critical remote code execution in edge gateways" 40)
    as (_ & _ & H); [lia|].
  destruct H as [H1 H2]; [vm_compute; reflexivity|].
  split; [rewrite H1; vm_compute; reflexivity|exact H2].
Defined.

(** X26. [getTopKey] answers [unknown] for an object without entries.
    An answer other than [unknown] is a key of the object whose count is
    the largest, and of several keys with that count the one the object
    lists first. *)
Theorem X26_top_key_is_first_largest (obj : list (string * Z)) :
  (obj = [] -> LLM.getTopKey obj = "unknown")
  /\ (LLM.getTopKey obj <> "unknown" ->
      exists before count after,
        obj = (before ++ (LLM.getTopKey obj, count) :: after)%list
        /\ Forall (fun kv => snd kv < count) before
        /\ Forall (fun kv => snd kv <= count) after).
Proof.
  split; [intros ->; reflexivity|].
  unfold LLM.getTopKey.
  destruct (head (JsArray.sortDesc snd obj)) as [[key count]|] eqn:Ehead;
    [|intros H; contradiction].
  cbn [fst]. destruct (String.eqb key ""); [intros H; contradiction|].
  intros _. destruct (sortDesc_head snd obj (key, count) Ehead)
    as (before & after & Hobj & Hb & Ha).
  exists before, count, after. auto.
Qed.

Lemma X26_top_key_is_first_largest_witness :
  exists before count after,
    [("malware", 3); ("phishing", 5); ("ddos", 5)]
    = (before ++ ("phishing", count) :: after)%list
    /\ Forall (fun kv => snd kv < count) before
    /\ Forall (fun kv => snd kv <= count) after.
Proof.
  destruct (X26_top_key_is_first_largest
              [("malware", 3); ("phishing", 5); ("ddos", 5)]) as [_ H].
  apply H. vm_compute. discriminate.
Defined.

(** ** LLMAnalyzer: normalisation *)

Lemma NoDup_firstn {A} (n : nat) (l : list A) :
  List.NoDup l -> List.NoDup (List.firstn n l).
Proof.
  intros H. revert n. induction H as [|x l Hx Hl IH]; intros [|n]; simpl;
    try constructor.
  - intros Hin. apply Hx. exact (In_firstn _ _ _ Hin).
  - apply IH.
Qed.

Lemma bump_spec (acc : list (string * Z)) (ty : string) :
  List.NoDup (List.map fst acc) ->
  List.NoDup (List.map fst (LLM.bump acc ty))
  /\ totalOf (LLM.bump acc ty) = totalOf acc + 1
  /\ (forall k, In k (List.map fst (LLM.bump acc ty))
                <-> In k (List.map fst acc) \/ k = ty).
Proof.
  unfold totalOf.
  induction acc as [|[key n] acc IH]; intros Hnodup.
  - simpl. split; [constructor; [tauto|constructor]|].
    split; [reflexivity|]. intros k. intuition.
  - cbn [LLM.bump fst snd].
    inversion Hnodup as [|? ? Hkey Hrest]; subst.
    destruct (String.eqb_spec key ty) as [-> | Hne].
    + cbn [List.map fst snd List.fold_right]. split; [exact Hnodup|].
      split; [destruct (Z.eqb_spec n 0); lia|].
      intros k. simpl. intuition.
    + destruct (IH Hrest) as (H1 & H2 & H3).
      cbn [List.map fst snd List.fold_right]. split; [|split].
      * constructor; [|exact H1].
        intros Hin. apply H3 in Hin. destruct Hin as [Hin | Heq];
          [exact (Hkey Hin)|exact (Hne Heq)].
      * rewrite H2. lia.
      * intros k. simpl. rewrite H3. intuition.
Qed.

Lemma fold_bump (types : list string) :
  forall acc,
    List.NoDup (List.map fst acc) ->
    List.NoDup (List.map fst (List.fold_left LLM.bump types acc))
    /\ totalOf (List.fold_left LLM.bump types acc)
       = totalOf acc + Z.of_nat (length types).
Proof.
  induction types as [|ty types IH]; intros acc Hnodup.
  - simpl. split; [exact Hnodup|lia].
  - rewrite fold_left_step.
    destruct (bump_spec acc ty Hnodup) as (H1 & H2 & _).
    destruct (IH _ H1) as [H3 H4].
    split; [exact H3|]. rewrite H4, H2. simpl length. lia.
Qed.

Lemma fold_bump_indicators (inds : list Generator.Indicator) :
  forall acc,
    List.fold_left (fun acc i => LLM.bump acc (Generator.indType i)) inds acc
    = List.fold_left LLM.bump (List.map Generator.indType inds) acc.
Proof.
  induction inds as [|i inds IH]; intros acc; [reflexivity|].
  cbn [List.map]. rewrite !fold_left_step. apply IH.
Qed.

Lemma fold_unique (values : list string) :
  forall seen,
    List.NoDup seen ->
    let step := fun (seen : list string) v =>
                  if List.existsb (String.eqb v) seen then seen
                  else (seen ++ [v])%list in
    List.NoDup (List.fold_left step values seen)
    /\ (forall v, In v (List.fold_left step values seen) ->
          In v seen \/ In v values)
    /\ (forall v, In v seen \/ In v values ->
          In v (List.fold_left step values seen)).
Proof.
  induction values as [|x values IH]; intros seen Hnodup step.
  - simpl. repeat split; tauto.
  - rewrite fold_left_step. unfold step at 2 4 6.
    destruct (List.existsb (String.eqb x) seen) eqn:E.
    + destruct (IH seen Hnodup) as (H1 & H2 & H3).
      split; [exact H1|]. split.
      * intros v Hv. destruct (H2 v Hv); [tauto|right; right; assumption].
      * intros v [Hv | [<- | Hv]]; apply H3; try tauto.
        apply List.existsb_exists in E. destruct E as (y & Hy & Heq).
        apply String.eqb_eq in Heq. subst y. left. exact Hy.
    + assert (Hfresh : ~ In x seen).
      { intros Hin.
        assert (List.existsb (String.eqb x) seen = true).
        { apply List.existsb_exists. exists x. split; [exact Hin|].
          apply String.eqb_refl. }
        congruence. }
      destruct (IH _ (NoDup_snoc _ _ Hnodup Hfresh)) as (H1 & H2 & H3).
      split; [exact H1|]. split.
      * intros v Hv. destruct (H2 v Hv) as [Hs | Hin];
          [|right; right; exact Hin].
        apply List.in_app_iff in Hs. simpl in Hs. simpl. tauto.
      * intros v Hv. apply H3. rewrite List.in_app_iff. simpl.
        simpl in Hv. tauto.
Qed.

Lemma truncate_40_bound (s : string) :
  (String.length (LLM.truncate s 40) <= 40)%nat /\ True.
Proof.
  split; [|exact I]. unfold LLM.truncate.
  destruct (Z.ltb_spec 40 (Z.of_nat (String.length s))); [|lia].
  rewrite length_append. change (Z.to_nat (40 - 3)) with 37%nat.
  pose proof (substring_0_length 37 s). simpl String.length. lia.
Qed.

Section NormalizeFacts.

Context {P : Platform} {C : LLM.Casing}.

Lemma topThreatOf_cases (t : Generator.Threat) (w : World) :
  (Dashboard.severity (Generator.core t) = ""
   /\ exists e, LLM.topThreatOf t w = (Throw e, w))
  \/ (Dashboard.severity (Generator.core t) <> ""
      /\ exists top,
          LLM.topThreatOf t w = (Ret top, w)
          /\ (String.length (Analyzer.threatTitle top) <= 40)%nat).
Proof.
  unfold LLM.topThreatOf.
  destruct (Dashboard.severity (Generator.core t)) as [|c rest].
  - left. split; [reflexivity|]. eexists. reflexivity.
  - right. split; [discriminate|]. eexists. split; [reflexivity|].
    cbn [Analyzer.threatTitle].
    destruct (truncate_40_bound (Dashboard.title (Generator.core t))).
    lia.
Qed.

Lemma mapIO_topThreatOf (ts : list Generator.Threat) (w : World) :
  (exists tops,
      LLM.mapIO LLM.topThreatOf ts w = (Ret tops, w)
      /\ length tops = length ts
      /\ (forall t, In t tops ->
            (String.length (Analyzer.threatTitle t) <= 40)%nat)
      /\ (forall t, In t ts ->
            Dashboard.severity (Generator.core t) <> ""))
  \/ (exists e,
         LLM.mapIO LLM.topThreatOf ts w = (Throw e, w)
         /\ exists t, In t ts /\ Dashboard.severity (Generator.core t) = "").
Proof.
  induction ts as [|t ts IH].
  - left. exists []. simpl. repeat split; tauto.
  - assert (Hstep :
              LLM.mapIO LLM.topThreatOf (t :: ts) w
              = match LLM.topThreatOf t w with
                | (Ret y, w') =>
                    match LLM.mapIO LLM.topThreatOf ts w' with
                    | (Ret ys, w'') => (Ret (y :: ys), w'')
                    | (Throw e, w'') => (Throw e, w'')
                    end
                | (Throw e, w') => (Throw e, w')
                end).
    { cbn [LLM.mapIO]. unfold bind, ret.
      destruct (LLM.topThreatOf t w) as [[y|e] w']; [|reflexivity].
      destruct (LLM.mapIO LLM.topThreatOf ts w') as [[ys|e] w''];
        reflexivity. }
    rewrite Hstep. clear Hstep.
    destruct (topThreatOf_cases t w)
      as [(Hsev & e & Et) | (Hsev & top & Et & Htop)]; rewrite Et.
    + right. exists e. split; [reflexivity|].
      exists t. split; [left; reflexivity|exact Hsev].
    + destruct IH as [(tops & E & Hlen & Htitle & Hall)
                     | (e & E & t' & Ht' & Hs)]; rewrite E.
      * left. exists (top :: tops). split; [reflexivity|].
        split; [simpl; rewrite Hlen; reflexivity|]. split.
        -- intros x [<- | Hx]; [exact Htop|exact (Htitle x Hx)].
        -- intros x [<- | Hx]; [exact Hsev|exact (Hall x Hx)].
      * right. exists e. split; [reflexivity|].
        exists t'. split; [right; exact Ht'|exact Hs].
Qed.

End NormalizeFacts.

(** X27. What [normalizeForLLM] hands to the model is small and
    consistent.  When it returns, nothing in the world has changed; there
    is one entry for each of the first five threats, none of them with an
    empty severity, and every title is at most 40 characters long; at most
    five CVEs are named, each once, and each the value of an indicator of
    type [cve]; the indicator counts have one entry per type and add up to
    the number of indicators.  When one of the first five threats has an
    empty severity, it throws. *)
Theorem X27_normalized_data_is_small
    {C : LLM.Casing}
    (data : Generator.ProcessedData) (w : World) :
  (forall d w',
      LLM.normalizeForLLM data w = (Ret d, w') ->
      w' = w
      /\ length (Analyzer.topThreats d)
         = Nat.min 5 (length (Generator.threats data))
      /\ (forall t, In t (Analyzer.topThreats d) ->
            (String.length (Analyzer.threatTitle t) <= 40)%nat)
      /\ (forall t, In t (List.firstn 5 (Generator.threats data)) ->
            Dashboard.severity (Generator.core t) <> "")
      /\ (length (Analyzer.cves d) <= 5)%nat
      /\ List.NoDup (Analyzer.cves d)
      /\ (forall v, In v (Analyzer.cves d) ->
            exists i, In i (default [] (Generator.indicators data))
                      /\ Generator.indType i = "cve"
                      /\ Generator.indValue i = v)
      /\ List.NoDup (List.map fst (Analyzer.iocCounts d))
      /\ totalOf (Analyzer.iocCounts d)
         = Z.of_nat (length (default [] (Generator.indicators data))))
  /\ ((exists t, In t (List.firstn 5 (Generator.threats data))
                 /\ Dashboard.severity (Generator.core t) = "") ->
      exists e, LLM.normalizeForLLM data w = (Throw e, w)).
Proof.
  unfold LLM.normalizeForLLM. split.
  - intros d w'. unfold bind at 1.
    destruct (mapIO_topThreatOf (List.firstn 5 (Generator.threats data)) w)
      as [(tops & E & Hlen & Htitle & Hsev) | (e & E & _)]; rewrite E;
      [|discriminate].
    destruct (Generator.indicators data) as [inds|]; [|discriminate].
    destruct (Generator.bySeverity (Generator.summary data)) as [counts|];
      [|discriminate].
    destruct (Generator.byCategory (Generator.summary data)) as [cats|];
      [|discriminate].
    destruct (Generator.bySource (Generator.summary data)) as [srcs|];
      [|discriminate].
    intros [= <- <-].
    cbn [Analyzer.topThreats Analyzer.cves Analyzer.iocCounts default].
    destruct (fold_unique
                (List.map Generator.indValue
                   (List.filter
                      (fun i => String.eqb (Generator.indType i) "cve") inds))
                [] (List.NoDup_nil _)) as (Hu1 & Hu2 & _).
    destruct (fold_bump (List.map Generator.indType inds) []
                (List.NoDup_nil _)) as [Hb1 Hb2].
    split; [reflexivity|].
    split; [rewrite Hlen; apply length_firstn|].
    split; [exact Htitle|]. split; [exact Hsev|].
    split; [apply firstn_le_length|].
    split; [apply NoDup_firstn; exact Hu1|].
    split; [|split].
    + intros v Hv. apply In_firstn in Hv.
      destruct (Hu2 v Hv) as [[] | Hin].
      apply List.in_map_iff in Hin. destruct Hin as (i & Hval & Hi).
      apply List.filter_In in Hi. destruct Hi as [Hi Hty].
      apply String.eqb_eq in Hty. exists i. auto.
    + rewrite fold_bump_indicators. exact Hb1.
    + rewrite fold_bump_indicators, Hb2, length_map. reflexivity.
  - intros (t & Ht & Hempty). unfold bind at 1.
    destruct (mapIO_topThreatOf (List.firstn 5 (Generator.threats data)) w)
      as [(tops & E & _ & _ & Hsev) | (e & E & _)]; rewrite E.
    + exfalso. exact (Hsev t Ht Hempty).
    + exists e. reflexivity.
Qed.

Lemma X27_normalized_data_is_small_witness :
  exists d,
    LLM.normalizeForLLM (C := keepCase)
      sampleProcessed (Fixtures.world 1700000000000 [] [])
    = (Ret d, Fixtures.world 1700000000000 [] [])
    /\ Analyzer.cves d = ["CVE-2024-3400"; "CVE-2023-4966"]
    /\ totalOf (Analyzer.iocCounts d) = 4.
Proof.
  destruct (LLM.normalizeForLLM (C := keepCase)
              sampleProcessed (Fixtures.world 1700000000000 [] []))
    as [[d|e] w'] eqn:E; [|vm_compute in E; discriminate E].
  destruct (X27_normalized_data_is_small (C := keepCase) sampleProcessed
              (Fixtures.world 1700000000000 [] [])) as [H _].
  destruct (H d w' E) as (-> & _ & _ & _ & _ & _ & _ & _ & Htotal).
  exists d. split; [reflexivity|]. split; [|exact Htotal].
  vm_compute in E. injection E as <-. reflexivity.
Defined.

(** ** LLMAnalyzer: a run *)

Section AnalyzeFacts.

Context {P : Platform} {C : LLM.Casing}
        {JD : JSON Generator.ProcessedData}
        {JL : JSON Analyzer.LLMAnalysisResult} {O : LLM.Ollama}.

Lemma loadData_input (this : LLM.LLMAnalyzer) (w : World) :
  LLM.loadData this w = (Ret (analyzerInput this w), w).
Proof.
  unfold LLM.loadData, analyzerInput, try_catch, bind, fs_readFile,
    JSON_parse_io, ret, throw.
  destruct (files w !! path_join (LLM.outputDir this) "processed-data.json")
    as [raw|]; simpl; [|reflexivity].
  destruct (JSON_parse raw); reflexivity.
Qed.

Lemma mapIO_topThreatOf_pure (ts : list Generator.Threat) :
  exists o, forall w, LLM.mapIO LLM.topThreatOf ts w = (o, w).
Proof.
  induction ts as [|t ts [o IH]].
  - exists (Ret []). reflexivity.
  - cbn [LLM.mapIO]. unfold LLM.topThreatOf at 1.
    destruct (Dashboard.severity (Generator.core t)) as [|c rest].
    + eexists. intros w. reflexivity.
    + destruct o as [ys|e].
      * eexists. intros w. unfold bind, ret. rewrite IH. reflexivity.
      * eexists. intros w. unfold bind, ret. rewrite IH. reflexivity.
Qed.

(** [normalizeForLLM] neither reads nor changes the world. *)
Lemma normalizeForLLM_pure (data : Generator.ProcessedData) :
  exists o, forall w, LLM.normalizeForLLM data w = (o, w).
Proof.
  unfold LLM.normalizeForLLM.
  destruct (mapIO_topThreatOf_pure (List.firstn 5 (Generator.threats data)))
    as [[tops|e] Hmap].
  - destruct (Generator.indicators data) as [inds|];
      [|eexists; intros w; unfold bind; rewrite Hmap; reflexivity].
    destruct (Generator.bySeverity (Generator.summary data)) as [counts|];
      [|eexists; intros w; unfold bind; rewrite Hmap; reflexivity].
    destruct (Generator.byCategory (Generator.summary data)) as [cats|];
      [|eexists; intros w; unfold bind; rewrite Hmap; reflexivity].
    destruct (Generator.bySource (Generator.summary data)) as [srcs|];
      eexists; intros w; unfold bind; rewrite Hmap; reflexivity.
  - eexists. intros w. unfold bind. rewrite Hmap. reflexivity.
Qed.

Lemma heuristicAnalysis_printed (line : string) (n : Analyzer.NormalizedData)
    (w : World) :
  Analyzer.heuristicAnalysis n (printed line w)
  = (fst (Analyzer.heuristicAnalysis n w), printed line w).
Proof. reflexivity. Qed.

Lemma heuristicAnalysis_returns (n : Analyzer.NormalizedData) (w : World) :
  exists r, Analyzer.heuristicAnalysis n w = (Ret r, w).
Proof. eexists. reflexivity. Qed.

Lemma saveResult_writable (this : LLM.LLMAnalyzer)
    (r : Analyzer.LLMAnalysisResult) (w : World) :
  readOnly w = false ->
  LLM.saveResult this r w
  = (Ret tt,
     mkWorld (now w) (zone w)
             (<[analysisFile this := JSON_stringify r]> (files w))
             (readOnly w) (env w) (latency w) (trace w)).
Proof.
  intros Hrw. unfold LLM.saveResult, bind, fs_mkdir, fs_writeFile.
  repeat (rewrite Hrw; cbv beta iota). reflexivity.
Qed.

Lemma saveResult_readOnly (this : LLM.LLMAnalyzer)
    (r : Analyzer.LLMAnalysisResult) (w : World) :
  readOnly w = true ->
  exists e, LLM.saveResult this r w = (Throw e, w).
Proof.
  intros Hro. unfold LLM.saveResult, bind, fs_mkdir.
  rewrite Hro. eexists. reflexivity.
Qed.

(** The start of every run: one line is printed and the data is read. *)
Lemma analyze_start (this : LLM.LLMAnalyzer) (w : World) :
  exists line,
    LLM.analyze this w
    = match analyzerInput this w with
      | None =>
          bind (console_log "[LLM] No data - using empty result")
               (fun _ => LLM.emptyResult) (printed line w)
      | Some data =>
          if (length (Generator.threats data) =? 0)%nat then
            bind (console_log "[LLM] No data - using empty result")
                 (fun _ => LLM.emptyResult) (printed line w)
          else
            bind (LLM.normalizeForLLM data)
              (fun normalized =>
                 bind (console_log
                         ("[LLM] Prompt: "
                            ++ Js.string_of_Z
                                 (Z.of_nat
                                    (String.length
                                       (LLM.buildCompactPrompt normalized)))
                            ++ " chars, "
                            ++ Js.string_of_Z (Analyzer.threatCount normalized)
                            ++ " threats"))
                   (fun _ =>
                      try_catch
                        (bind (LLM.callOllama
                                 (LLM.buildCompactPrompt normalized))
                           (fun response =>
                              bind (LLM.parseResponse response normalized)
                                (fun result =>
                                   bind (LLM.saveResult this result)
                                     (fun _ => ret result))))
                        (fun _ =>
                           bind (console_log
                                   "[LLM] Ollama failed, using heuristics")
                             (fun _ =>
                                bind (Analyzer.heuristicAnalysis normalized)
                                  (fun result =>
                                     bind (LLM.saveResult this result)
                                       (fun _ => ret result))))))
              (printed line w)
      end.
Proof.
  eexists. unfold LLM.analyze.
  unfold bind at 1. unfold Analyzer.OLLAMA_MODEL at 1, getenv_or at 1.
  unfold bind at 1. unfold getenv at 1, ret at 1. cbv beta iota.
  unfold bind at 1. unfold LLM.OLLAMA_HOST at 1, getenv_or at 1.
  unfold bind at 1. unfold getenv at 1, ret at 1. cbv beta iota.
  unfold bind at 1. unfold console_log at 1, emit at 1. cbv beta iota.
  match goal with
  | |- context [mkWorld (now w) (zone w) (files w) (readOnly w) (env w)
                        (latency w) (ConsoleLog ?l :: trace w)] =>
      change (mkWorld (now w) (zone w) (files w) (readOnly w) (env w)
                      (latency w) (ConsoleLog l :: trace w))
        with (printed l w)
  end.
  unfold bind at 1. rewrite loadData_input. cbv beta iota.
  change (analyzerInput this (printed _ w)) with (analyzerInput this w).
  destruct (analyzerInput this w) as [data|];
    [destruct (length (Generator.threats data) =? 0)%nat|]; reflexivity.
Qed.

End AnalyzeFacts.

(** X28. A run of the analyzer.  Without processed data, or with an
    empty list of threats, the run answers the empty result (model [none],
    no insights) stamped with the clock, and only prints: the endpoint is
    not called and nothing is written.  With threats to analyse and the
    endpoint down, the run answers the heuristic analysis of the normalised
    data and has written exactly that to [llm-analysis.json]; on a
    read-only file system the run throws instead, and no file has
    changed. *)
Theorem X28_analysis_falls_back_to_heuristics
    {P : Platform} {C : LLM.Casing} {JD : JSON Generator.ProcessedData}
    {JL : JSON Analyzer.LLMAnalysisResult} {O : LLM.Ollama}
    (this : LLM.LLMAnalyzer) (w : World) :
  ((forall data,
       analyzerInput this w = Some data -> Generator.threats data = []) ->
   exists r w',
     LLM.analyze this w = (Ret r, w')
     /\ Analyzer.model r = "none"
     /\ Analyzer.insights r = []
     /\ Analyzer.analysisTimestamp r = Date_toISOString (now w)
     /\ sameButTrace w w')
  /\ (forall data n,
         analyzerInput this w = Some data ->
         Generator.threats data <> [] ->
         fst (LLM.normalizeForLLM data w) = Ret n ->
         endpointDown O ->
         (readOnly w = false ->
          exists r w',
            LLM.analyze this w = (Ret r, w')
            /\ fst (Analyzer.heuristicAnalysis n w) = Ret r
            /\ files w' = <[analysisFile this := JSON_stringify r]> (files w)
            /\ now w' = now w)
         /\ (readOnly w = true ->
             exists e w',
               LLM.analyze this w = (Throw e, w') /\ files w' = files w)).
Proof.
  destruct (analyze_start this w) as [line Estart].
  split.
  - intros Hnone. rewrite Estart.
    assert (Hempty :
              exists r w',
                bind (console_log "[LLM] No data - using empty result")
                     (fun _ => LLM.emptyResult) (printed line w)
                = (Ret r, w')
                /\ Analyzer.model r = "none"
                /\ Analyzer.insights r = []
                /\ Analyzer.analysisTimestamp r = Date_toISOString (now w)
                /\ sameButTrace w w').
    { eexists _, _. split; [reflexivity|]. simpl.
      repeat split; reflexivity. }
    destruct (analyzerInput this w) as [data|]; [|exact Hempty].
    rewrite (Hnone data eq_refl). exact Hempty.
  - intros data n Hin Hsome Hnorm Hdown.
    assert (Hrun :
              exists r w3,
                fst (Analyzer.heuristicAnalysis n w) = Ret r
                /\ sameButTrace w w3
                /\ LLM.analyze this w
                   = bind (LLM.saveResult this r) (fun _ => ret r) w3).
    { rewrite Estart, Hin.
      assert (Hlen : (length (Generator.threats data) =? 0)%nat = false).
      { destruct (Generator.threats data); [contradiction|reflexivity]. }
      rewrite Hlen.
      destruct (normalizeForLLM_pure data) as [o Hpure].
      rewrite Hpure in Hnorm. cbn [fst] in Hnorm. subst o.
      unfold bind at 1. rewrite Hpure. cbv beta iota.
      unfold bind at 1. unfold console_log at 1, emit at 1. cbv beta iota.
      match goal with
      | |- context [mkWorld _ _ _ _ _ _
                            (ConsoleLog ?l :: trace (printed line w))] =>
          change (mkWorld (now (printed line w)) (zone (printed line w))
                          (files (printed line w)) (readOnly (printed line w))
                          (env (printed line w)) (latency (printed line w))
                          (ConsoleLog l :: trace (printed line w)))
            with (printed l (printed line w));
          set (w2 := printed l (printed line w))
      end.
      unfold try_catch. unfold bind at 1.
      destruct (Hdown (LLM.buildCompactPrompt n) w2) as [e Edown].
      rewrite Edown. cbv beta iota.
      unfold bind at 1. unfold console_log at 1, emit at 1. cbv beta iota.
      change (mkWorld (now w2) (zone w2) (files w2) (readOnly w2) (env w2)
                      (latency w2)
                      (ConsoleLog "[LLM] Ollama failed, using heuristics"
                         :: trace w2))
        with (printed "[LLM] Ollama failed, using heuristics" w2).
      unfold bind at 1. unfold w2.
      rewrite !heuristicAnalysis_printed.
      destruct (heuristicAnalysis_returns n w) as [r Er]. rewrite Er.
      cbn [fst]. cbv beta iota.
      eexists r, _. split; [reflexivity|]. split; [|reflexivity].
      repeat split. }
    destruct Hrun as (r & w3 & Hr & Hsame & ->).
    destruct Hsame as (Hnow & _ & Hfiles & Hro3 & _).
    split.
    + intros Hrw. unfold bind.
      assert (Hrw3 : readOnly w3 = false) by congruence.
      pose proof (saveResult_writable this r w3 Hrw3) as Esave.
      rewrite Esave. cbv beta iota.
      eexists _, _. split; [reflexivity|]. split; [exact Hr|].
      cbn [files now]. rewrite Hfiles, Hnow. split; reflexivity.
    + intros Hro. unfold bind.
      assert (Hro' : readOnly w3 = true) by congruence.
      destruct (saveResult_readOnly this r w3 Hro') as [e' Esave].
      rewrite Esave. eexists _, _. split; [reflexivity|exact Hfiles].
Qed.

Lemma X28_analysis_falls_back_to_heuristics_witness :
  let w :=
    Fixtures.world 1700000000000
      [("DATA/cti-output/processed-data.json", "{}")] [] in
  exists r w',
    LLM.analyze (P := Fixtures.platform) (C := keepCase) (JD := jsonSample)
      (JL := jsonModelTag) (O := refusing) defaultAnalyzer w
    = (Ret r, w')
    /\ files w' !! analysisFile defaultAnalyzer = Some "qwen2:0.5b-heuristic".
Proof.
  intros w.
  destruct (X28_analysis_falls_back_to_heuristics (P := Fixtures.platform)
              (C := keepCase) (JD := jsonSample) (JL := jsonModelTag)
              (O := refusing) defaultAnalyzer w) as [_ H].
  destruct (LLM.normalizeForLLM (C := keepCase) sampleProcessed w)
    as [[n|e] wn] eqn:En; [|vm_compute in En; discriminate En].
  destruct (H sampleProcessed n) as [Hrw _].
  - reflexivity.
  - discriminate.
  - rewrite En. reflexivity.
  - intros prompt w0. eexists. reflexivity.
  - destruct (Hrw eq_refl) as (r & w' & E & Hr & Hfiles & _).
    exists r, w'. split; [exact E|].
    rewrite Hfiles, lookup_insert_eq.
    vm_compute in Hr. injection Hr as <-. reflexivity.
Defined.
